(** * FreeRTOS thread view of cortex-debug: a shallow embedding

    Source: [src/frontend/rtos/rtos-freertos.ts], class [RTOSFreeRTOS].

    The class reads the task lists of a halted FreeRTOS target through the
    debug adapter, builds one record per task control block (TCB), sorts the
    records and renders them as an HTML grid.  The embedding keeps the shape
    of the TypeScript:

    - JavaScript values are a small tagged union ([value]); objects used as
      bags of named fields are association lists in insertion order, because
      [Object.keys] and the rendering depend on that order;
    - numbers that the code parses, subtracts and compares are integers and
      are carried as [Z] next to [NaN] (the embedding is exact for magnitudes
      below 2^53, which covers addresses, counts and byte sizes); the one
      fractional computation, the runtime percentage, is done in binary64
      with the Standard Library's [SpecFloat];
    - the fields of [this] are a record that is threaded through an
      asynchronous-promise monad whose outcomes are fulfilled, rejected, or
      never settled;
    - the debug session (everything imported from [rtos-common] and the
      adapter behind it) is a parameter: a record of reply functions that may
      depend on the requests issued so far. *)

From Stdlib Require Import ZArith List String Ascii Bool Lia Strings.Byte.
From Stdlib Require Import Permutation Sorted DecimalString HexadecimalString.
From Stdlib Require Import Floats.SpecFloat.
Import ListNotations.
Local Open Scope string_scope.
Local Open Scope Z_scope.

(** ** JavaScript numbers and strings *)

Module JS.

(** A number as used by the integer parts of the code. *)
Inductive num : Type :=
| NaN
| Int (z : Z).

Definition MAX_SAFE_INTEGER : Z := 2 ^ 53 - 1.

Definition num_eqb (a b : num) : bool :=
  match a, b with
  | Int x, Int y => x =? y
  | _, _ => false
  end.

(** [a - b]. *)
Definition sub (a b : num) : num :=
  match a, b with
  | Int x, Int y => Int (x - y)
  | _, _ => NaN
  end.

(** [Math.abs]. *)
Definition abs (a : num) : num :=
  match a with
  | Int x => Int (Z.abs x)
  | NaN => NaN
  end.

(** Relational operators: every comparison with [NaN] is false. *)
Definition ltb (a b : num) : bool :=
  match a, b with
  | Int x, Int y => x <? y
  | _, _ => false
  end.

Definition leb (a b : num) : bool :=
  match a, b with
  | Int x, Int y => x <=? y
  | _, _ => false
  end.

Definition gtb (a b : num) : bool := ltb b a.
Definition geb (a b : num) : bool := leb b a.

(** Truthiness of a number: [0] and [NaN] are falsy. *)
Definition num_truthy (a : num) : bool :=
  match a with
  | Int x => negb (x =? 0)
  | NaN => false
  end.

(** *** Characters *)

Definition is_space (c : ascii) : bool :=
  let n := nat_of_ascii c in
  (Nat.eqb n 32 || (Nat.leb 9 n && Nat.leb n 13))%bool.

Definition digit_of (c : ascii) : option Z :=
  let n := Z.of_nat (nat_of_ascii c) in
  if (48 <=? n) && (n <=? 57) then Some (n - 48)
  else if (97 <=? n) && (n <=? 122) then Some (n - 97 + 10)
  else if (65 <=? n) && (n <=? 90) then Some (n - 65 + 10)
  else None.

Definition digit_in (radix : Z) (c : ascii) : option Z :=
  match digit_of c with
  | Some d => if d <? radix then Some d else None
  | None => None
  end.

(** *** [parseInt(s)] with no radix argument

    Leading white space is skipped, a sign is read, a [0x]/[0X] prefix
    selects radix 16, and the longest run of digits is converted; no digit
    at all gives [NaN]. *)

Fixpoint skip_space (s : string) : string :=
  match s with
  | String c r => if is_space c then skip_space r else s
  | EmptyString => s
  end.

(** Accumulates the digits of the longest valid prefix; [None] when there
    is none. *)
Fixpoint digits (radix : Z) (s : string) (acc : option Z) : option Z :=
  match s with
  | String c r =>
      match digit_in radix c with
      | Some d =>
          digits radix r
            (Some (match acc with Some a => a * radix + d | None => d end))
      | None => acc
      end
  | EmptyString => acc
  end.

Definition strip_sign (s : string) : bool * string :=
  match s with
  | String "-" r => (true, r)
  | String "+" r => (false, r)
  | _ => (false, s)
  end.

Definition strip_radix (s : string) : Z * string :=
  match s with
  | String "0" (String "x" r) => (16, r)
  | String "0" (String "X" r) => (16, r)
  | _ => (10, s)
  end.

Definition parseInt (s : string) : num :=
  let '(neg, s1) := strip_sign (skip_space s) in
  let '(radix, s2) := strip_radix s1 in
  match digits radix s2 None with
  | Some m => Int (if neg then - m else m)
  | None => NaN
  end.

(** *** [Number.prototype.toString] on the integer numbers *)

Definition Z_toString (z : Z) : string :=
  DecimalString.NilZero.string_of_int (Z.to_int z).

Definition num_toString (a : num) : string :=
  match a with
  | Int z => Z_toString z
  | NaN => "NaN"
  end.

(** [s.padStart(n, "0")]. *)
Fixpoint zeros (k : nat) : string :=
  match k with
  | O => EmptyString
  | S k' => String "0" (zeros k')
  end.

Definition padStart0 (n : nat) (s : string) : string :=
  zeros (n - String.length s)%nat ++ s.

(** *** The fractional computation: binary64

    [a / b * 100] on two integer numbers, carried out in IEEE 754 binary64
    as JavaScript does, and [Number.prototype.toFixed(2)] on the result. *)

Definition prec : Z := 53.
Definition emax : Z := 1024.

Definition to_double (a : num) : spec_float :=
  match a with
  | Int z => binary_normalize prec emax z 0 false
  | NaN => S754_nan
  end.

Definition fdiv (x y : spec_float) : spec_float := SFdiv prec emax x y.
Definition fmul (x y : spec_float) : spec_float := SFmul prec emax x y.

(** The integer [n] for which [n / 100 - m * 2^e] is closest to zero, the
    larger one on a tie. *)
Definition hundredths (m : positive) (e : Z) : Z :=
  if 0 <=? e then Z.pos m * 2 ^ e * 100
  else (200 * Z.pos m + 2 ^ (- e)) / (2 * 2 ^ (- e)).

(** Is [m * 2^e >= 10^21]? *)
Definition beyond_fixed (m : positive) (e : Z) : bool :=
  if 0 <=? e then 10 ^ 21 <=? Z.pos m * 2 ^ e
  else 10 ^ 21 * 2 ^ (- e) <=? Z.pos m.

(** Splits the decimal digits of [n] before the last two, after padding
    them to three digits. *)
Definition fixed2_digits (n : Z) : string :=
  let m := padStart0 3 (Z_toString n) in
  let k := String.length m in
  substring 0 (k - 2) m ++ "." ++ substring (k - 2) 2 m.

(** [x.toFixed(2)].  For magnitudes from 10^21 on, [toFixed] returns the
    engine's exponent notation of [x], which is the argument [big]. *)
Definition toFixed2 (big : spec_float -> string) (x : spec_float) : string :=
  match x with
  | S754_nan => "NaN"
  | S754_infinity false => "Infinity"
  | S754_infinity true => "-Infinity"
  | S754_zero _ => "0.00"
  | S754_finite s m e =>
      if beyond_fixed m e then big x
      else (if s then "-" else EmptyString) ++ fixed2_digits (hundredths m e)
  end.

(** *** The name pattern of [getThreadInfo]

    The regular expression matches at the leftmost double quote after which
    the text runs, without any star, up to a double quote that ends the
    string; the result is the captured group between the two quotes. *)

Definition dquote : ascii := ascii_of_nat 34.

Fixpoint quoted_tail (s : string) : option string :=
  match s with
  | EmptyString => None
  | String c EmptyString => if Ascii.eqb c dquote then Some EmptyString else None
  | String c r =>
      if Ascii.eqb c "*" then None
      else option_map (String c) (quoted_tail r)
  end.

Fixpoint match_quoted (s : string) : option string :=
  match s with
  | EmptyString => None
  | String c r =>
      if Ascii.eqb c dquote
      then match quoted_tail r with
           | Some body => Some body
           | None => match_quoted r
           end
      else match_quoted r
  end.

(** *** Lower case, every run of white space replaced by one dash *)

Definition lower (c : ascii) : ascii :=
  let n := nat_of_ascii c in
  if (Nat.leb 65 n && Nat.leb n 90)%bool then ascii_of_nat (n + 32) else c.

Fixpoint dash_spaces (in_run : bool) (s : string) : string :=
  match s with
  | EmptyString => EmptyString
  | String c r =>
      if is_space c
      then (if in_run then dash_spaces true r else String "-" (dash_spaces true r))
      else String (lower c) (dash_spaces false r)
  end.

End JS.

(** ** Values, objects and the fields of the class *)

Import JS.

(** [RTOSCommon.RTOSStackInfo]; the optional members are unset until the
    code assigns them. *)
Record RTOSStackInfo : Type := mkStackInfo {
  stackStart : num;
  stackTopCurrent : num;
  stackCurUsed : num;
  stackEnd : option num;
  stackSize : option num;
  stackFree : option num;
  stackPeakUsed : option num;
  bytes : option (list byte)
}.

Inductive value : Type :=
| VUndefined
| VString (s : string)
| VNumber (n : num)
| VStackInfo (si : RTOSStackInfo).

(** Truthiness, as tested by [if (v)], [!v] and [a ? b : c]. *)
Definition truthy (v : value) : bool :=
  match v with
  | VUndefined => false
  | VString s => negb (String.eqb s EmptyString)
  | VNumber n => num_truthy n
  | VStackInfo _ => true
  end.

(** The string a value turns into in a concatenation or a template. *)
Definition toStr (v : value) : string :=
  match v with
  | VUndefined => "undefined"
  | VString s => s
  | VNumber n => num_toString n
  | VStackInfo _ => "[object Object]"
  end.

(** [parseInt(v)]: the argument is first turned into a string. *)
Definition parseIntV (v : value) : num := parseInt (toStr v).

Definition is_string (v : value) : bool :=
  match v with VString _ => true | _ => false end.

Definition is_object (v : value) : bool :=
  match v with VStackInfo _ => true | _ => false end.

(** An object as a list of its own properties in insertion order. *)
Definition object : Type := list (string * value).

Fixpoint get (o : object) (k : string) : value :=
  match o with
  | [] => VUndefined
  | (k', v) :: r => if String.eqb k' k then v else get r k
  end.

Fixpoint has (o : object) (k : string) : bool :=
  match o with
  | [] => false
  | (k', _) :: r => String.eqb k' k || has r k
  end.

Fixpoint replace (o : object) (k : string) (v : value) : object :=
  match o with
  | [] => []
  | (k', v') :: r =>
      if String.eqb k' k then (k', v) :: r else (k', v') :: replace r k v
  end.

(** [o[k] = v]: an existing property keeps its place, a new one goes last. *)
Definition set (o : object) (k : string) (v : value) : object :=
  if has o k then replace o k v else (o ++ [(k, v)])%list.

(** [delete o[k]]. *)
Definition delete (o : object) (k : string) : object :=
  filter (fun p => negb (String.eqb (fst p) k)) o.

(** [Object.keys(o)]. *)
Definition keys (o : object) : list string := map fst o.

Definition FreeRTOSThreadInfo : Type := object.

(** [RTOSCommon.RTOSVarHelper], as far as this file looks into it. *)
Record RTOSVarHelper : Type := mkVarHelper {
  expression : value;
  varReference : value
}.

(** One entry of the array [getVarChildren] returns. *)
Record DebugVariable : Type := mkVariable {
  evaluateName : value
}.

(** The reply to a [readMemory] request; [data] is the base64 text of
    [body.data], represented by the bytes it decodes to, and is absent when
    the reply has no body or no data. *)
Record ReadMemoryResponse : Type := mkReadMemoryResponse {
  data : option (list byte)
}.

Inductive Status : Type := StatusFailed | StatusInitialized | StatusNone.

Inductive ProgStatus : Type := Started | Stopped | Running | Exited.

Definition is_stopped (p : ProgStatus) : bool :=
  match p with Stopped => true | _ => false end.

(** What is thrown, or what a promise is rejected with. *)
Inductive exn : Type :=
| Error (message : string)
| TypeError (message : string).

(** A request sent to the debug session. *)
Inductive Request : Type :=
| GetValue (v : RTOSVarHelper) (frameId : Z)
| GetVarChildren (v : RTOSVarHelper) (frameId : Z)
| GetVarIfEmpty (frameId : Z) (expr : value)
| VarChildrenObj (v : RTOSVarHelper) (frameId : Z)
| GetVarChildrenObj (ref : value) (name : string)
| GetExprValChildrenObj (expr : string) (frameId : Z)
| GetExprVal (expr : string) (frameId : Z)
| ReadMemory (memoryReference : string) (count : num).

(** A line written with [console.log] or [console.error]. *)
Record LogEntry : Type := mkLog {
  log_text : string;
  log_what : exn
}.

(** The fields of [RTOSFreeRTOS] (with [status] and [progStatus] of its base
    class), the console, and the requests issued so far, latest first.
    Fields the class declares without a value start as [NaN], [false] or
    the empty string, which the code cannot tell from [undefined]. *)
Record RTOSFreeRTOS : Type := mkRTOS {
  status : Status;
  progStatus : ProgStatus;
  uxCurrentNumberOfTasks : option RTOSVarHelper;
  uxCurrentNumberOfTasksVal : num;
  pxReadyTasksLists : option RTOSVarHelper;
  pxReadyTasksListsItems : option (list (option RTOSVarHelper));
  xDelayedTaskList1 : option RTOSVarHelper;
  xDelayedTaskList2 : option RTOSVarHelper;
  xPendingReadyList : option RTOSVarHelper;
  pxCurrentTCB : option RTOSVarHelper;
  xSuspendedTaskList : option RTOSVarHelper;
  xTasksWaitingTermination : option RTOSVarHelper;
  ulTotalRunTime : option RTOSVarHelper;
  ulTotalRunTimeVal : num;
  stale : bool;
  curThreadAddr : num;
  foundThreads : list FreeRTOSThreadInfo;
  finalThreads : list FreeRTOSThreadInfo;
  timeInfo : string;
  lastValidHtml : string;
  console : list LogEntry;
  requests : list Request
}.

Definition maxThreads : num := Int 1024.

(** The name the constructor passes to the base class. *)
Definition name : string := "FreeRTOS".

(** Assignment to one field of [this]. *)

Definition set_progStatus (x : ProgStatus) (st : RTOSFreeRTOS) : RTOSFreeRTOS :=
  {| status := status st; progStatus := x; uxCurrentNumberOfTasks :=
     uxCurrentNumberOfTasks st; uxCurrentNumberOfTasksVal :=
     uxCurrentNumberOfTasksVal st; pxReadyTasksLists := pxReadyTasksLists st;
     pxReadyTasksListsItems := pxReadyTasksListsItems st; xDelayedTaskList1 :=
     xDelayedTaskList1 st; xDelayedTaskList2 := xDelayedTaskList2 st;
     xPendingReadyList := xPendingReadyList st; pxCurrentTCB := pxCurrentTCB
     st; xSuspendedTaskList := xSuspendedTaskList st; xTasksWaitingTermination
     := xTasksWaitingTermination st; ulTotalRunTime := ulTotalRunTime st;
     ulTotalRunTimeVal := ulTotalRunTimeVal st; stale := stale st;
     curThreadAddr := curThreadAddr st; foundThreads := foundThreads st;
     finalThreads := finalThreads st; timeInfo := timeInfo st; lastValidHtml
     := lastValidHtml st; console := console st; requests := requests st |}.

Definition set_uxCurrentNumberOfTasksVal (x : num) (st : RTOSFreeRTOS) : RTOSFreeRTOS :=
  {| status := status st; progStatus := progStatus st; uxCurrentNumberOfTasks
     := uxCurrentNumberOfTasks st; uxCurrentNumberOfTasksVal := x;
     pxReadyTasksLists := pxReadyTasksLists st; pxReadyTasksListsItems :=
     pxReadyTasksListsItems st; xDelayedTaskList1 := xDelayedTaskList1 st;
     xDelayedTaskList2 := xDelayedTaskList2 st; xPendingReadyList :=
     xPendingReadyList st; pxCurrentTCB := pxCurrentTCB st; xSuspendedTaskList
     := xSuspendedTaskList st; xTasksWaitingTermination :=
     xTasksWaitingTermination st; ulTotalRunTime := ulTotalRunTime st;
     ulTotalRunTimeVal := ulTotalRunTimeVal st; stale := stale st;
     curThreadAddr := curThreadAddr st; foundThreads := foundThreads st;
     finalThreads := finalThreads st; timeInfo := timeInfo st; lastValidHtml
     := lastValidHtml st; console := console st; requests := requests st |}.

Definition set_pxReadyTasksListsItems (x : option (list (option RTOSVarHelper))) (st : RTOSFreeRTOS) : RTOSFreeRTOS :=
  {| status := status st; progStatus := progStatus st; uxCurrentNumberOfTasks
     := uxCurrentNumberOfTasks st; uxCurrentNumberOfTasksVal :=
     uxCurrentNumberOfTasksVal st; pxReadyTasksLists := pxReadyTasksLists st;
     pxReadyTasksListsItems := x; xDelayedTaskList1 := xDelayedTaskList1 st;
     xDelayedTaskList2 := xDelayedTaskList2 st; xPendingReadyList :=
     xPendingReadyList st; pxCurrentTCB := pxCurrentTCB st; xSuspendedTaskList
     := xSuspendedTaskList st; xTasksWaitingTermination :=
     xTasksWaitingTermination st; ulTotalRunTime := ulTotalRunTime st;
     ulTotalRunTimeVal := ulTotalRunTimeVal st; stale := stale st;
     curThreadAddr := curThreadAddr st; foundThreads := foundThreads st;
     finalThreads := finalThreads st; timeInfo := timeInfo st; lastValidHtml
     := lastValidHtml st; console := console st; requests := requests st |}.

Definition set_ulTotalRunTimeVal (x : num) (st : RTOSFreeRTOS) : RTOSFreeRTOS :=
  {| status := status st; progStatus := progStatus st; uxCurrentNumberOfTasks
     := uxCurrentNumberOfTasks st; uxCurrentNumberOfTasksVal :=
     uxCurrentNumberOfTasksVal st; pxReadyTasksLists := pxReadyTasksLists st;
     pxReadyTasksListsItems := pxReadyTasksListsItems st; xDelayedTaskList1 :=
     xDelayedTaskList1 st; xDelayedTaskList2 := xDelayedTaskList2 st;
     xPendingReadyList := xPendingReadyList st; pxCurrentTCB := pxCurrentTCB
     st; xSuspendedTaskList := xSuspendedTaskList st; xTasksWaitingTermination
     := xTasksWaitingTermination st; ulTotalRunTime := ulTotalRunTime st;
     ulTotalRunTimeVal := x; stale := stale st; curThreadAddr := curThreadAddr
     st; foundThreads := foundThreads st; finalThreads := finalThreads st;
     timeInfo := timeInfo st; lastValidHtml := lastValidHtml st; console :=
     console st; requests := requests st |}.

Definition set_stale (x : bool) (st : RTOSFreeRTOS) : RTOSFreeRTOS :=
  {| status := status st; progStatus := progStatus st; uxCurrentNumberOfTasks
     := uxCurrentNumberOfTasks st; uxCurrentNumberOfTasksVal :=
     uxCurrentNumberOfTasksVal st; pxReadyTasksLists := pxReadyTasksLists st;
     pxReadyTasksListsItems := pxReadyTasksListsItems st; xDelayedTaskList1 :=
     xDelayedTaskList1 st; xDelayedTaskList2 := xDelayedTaskList2 st;
     xPendingReadyList := xPendingReadyList st; pxCurrentTCB := pxCurrentTCB
     st; xSuspendedTaskList := xSuspendedTaskList st; xTasksWaitingTermination
     := xTasksWaitingTermination st; ulTotalRunTime := ulTotalRunTime st;
     ulTotalRunTimeVal := ulTotalRunTimeVal st; stale := x; curThreadAddr :=
     curThreadAddr st; foundThreads := foundThreads st; finalThreads :=
     finalThreads st; timeInfo := timeInfo st; lastValidHtml := lastValidHtml
     st; console := console st; requests := requests st |}.

Definition set_curThreadAddr (x : num) (st : RTOSFreeRTOS) : RTOSFreeRTOS :=
  {| status := status st; progStatus := progStatus st; uxCurrentNumberOfTasks
     := uxCurrentNumberOfTasks st; uxCurrentNumberOfTasksVal :=
     uxCurrentNumberOfTasksVal st; pxReadyTasksLists := pxReadyTasksLists st;
     pxReadyTasksListsItems := pxReadyTasksListsItems st; xDelayedTaskList1 :=
     xDelayedTaskList1 st; xDelayedTaskList2 := xDelayedTaskList2 st;
     xPendingReadyList := xPendingReadyList st; pxCurrentTCB := pxCurrentTCB
     st; xSuspendedTaskList := xSuspendedTaskList st; xTasksWaitingTermination
     := xTasksWaitingTermination st; ulTotalRunTime := ulTotalRunTime st;
     ulTotalRunTimeVal := ulTotalRunTimeVal st; stale := stale st;
     curThreadAddr := x; foundThreads := foundThreads st; finalThreads :=
     finalThreads st; timeInfo := timeInfo st; lastValidHtml := lastValidHtml
     st; console := console st; requests := requests st |}.

Definition set_foundThreads (x : list FreeRTOSThreadInfo) (st : RTOSFreeRTOS) : RTOSFreeRTOS :=
  {| status := status st; progStatus := progStatus st; uxCurrentNumberOfTasks
     := uxCurrentNumberOfTasks st; uxCurrentNumberOfTasksVal :=
     uxCurrentNumberOfTasksVal st; pxReadyTasksLists := pxReadyTasksLists st;
     pxReadyTasksListsItems := pxReadyTasksListsItems st; xDelayedTaskList1 :=
     xDelayedTaskList1 st; xDelayedTaskList2 := xDelayedTaskList2 st;
     xPendingReadyList := xPendingReadyList st; pxCurrentTCB := pxCurrentTCB
     st; xSuspendedTaskList := xSuspendedTaskList st; xTasksWaitingTermination
     := xTasksWaitingTermination st; ulTotalRunTime := ulTotalRunTime st;
     ulTotalRunTimeVal := ulTotalRunTimeVal st; stale := stale st;
     curThreadAddr := curThreadAddr st; foundThreads := x; finalThreads :=
     finalThreads st; timeInfo := timeInfo st; lastValidHtml := lastValidHtml
     st; console := console st; requests := requests st |}.

Definition set_finalThreads (x : list FreeRTOSThreadInfo) (st : RTOSFreeRTOS) : RTOSFreeRTOS :=
  {| status := status st; progStatus := progStatus st; uxCurrentNumberOfTasks
     := uxCurrentNumberOfTasks st; uxCurrentNumberOfTasksVal :=
     uxCurrentNumberOfTasksVal st; pxReadyTasksLists := pxReadyTasksLists st;
     pxReadyTasksListsItems := pxReadyTasksListsItems st; xDelayedTaskList1 :=
     xDelayedTaskList1 st; xDelayedTaskList2 := xDelayedTaskList2 st;
     xPendingReadyList := xPendingReadyList st; pxCurrentTCB := pxCurrentTCB
     st; xSuspendedTaskList := xSuspendedTaskList st; xTasksWaitingTermination
     := xTasksWaitingTermination st; ulTotalRunTime := ulTotalRunTime st;
     ulTotalRunTimeVal := ulTotalRunTimeVal st; stale := stale st;
     curThreadAddr := curThreadAddr st; foundThreads := foundThreads st;
     finalThreads := x; timeInfo := timeInfo st; lastValidHtml :=
     lastValidHtml st; console := console st; requests := requests st |}.

Definition set_timeInfo (x : string) (st : RTOSFreeRTOS) : RTOSFreeRTOS :=
  {| status := status st; progStatus := progStatus st; uxCurrentNumberOfTasks
     := uxCurrentNumberOfTasks st; uxCurrentNumberOfTasksVal :=
     uxCurrentNumberOfTasksVal st; pxReadyTasksLists := pxReadyTasksLists st;
     pxReadyTasksListsItems := pxReadyTasksListsItems st; xDelayedTaskList1 :=
     xDelayedTaskList1 st; xDelayedTaskList2 := xDelayedTaskList2 st;
     xPendingReadyList := xPendingReadyList st; pxCurrentTCB := pxCurrentTCB
     st; xSuspendedTaskList := xSuspendedTaskList st; xTasksWaitingTermination
     := xTasksWaitingTermination st; ulTotalRunTime := ulTotalRunTime st;
     ulTotalRunTimeVal := ulTotalRunTimeVal st; stale := stale st;
     curThreadAddr := curThreadAddr st; foundThreads := foundThreads st;
     finalThreads := finalThreads st; timeInfo := x; lastValidHtml :=
     lastValidHtml st; console := console st; requests := requests st |}.

Definition set_lastValidHtml (x : string) (st : RTOSFreeRTOS) : RTOSFreeRTOS :=
  {| status := status st; progStatus := progStatus st; uxCurrentNumberOfTasks
     := uxCurrentNumberOfTasks st; uxCurrentNumberOfTasksVal :=
     uxCurrentNumberOfTasksVal st; pxReadyTasksLists := pxReadyTasksLists st;
     pxReadyTasksListsItems := pxReadyTasksListsItems st; xDelayedTaskList1 :=
     xDelayedTaskList1 st; xDelayedTaskList2 := xDelayedTaskList2 st;
     xPendingReadyList := xPendingReadyList st; pxCurrentTCB := pxCurrentTCB
     st; xSuspendedTaskList := xSuspendedTaskList st; xTasksWaitingTermination
     := xTasksWaitingTermination st; ulTotalRunTime := ulTotalRunTime st;
     ulTotalRunTimeVal := ulTotalRunTimeVal st; stale := stale st;
     curThreadAddr := curThreadAddr st; foundThreads := foundThreads st;
     finalThreads := finalThreads st; timeInfo := timeInfo st; lastValidHtml
     := x; console := console st; requests := requests st |}.

Definition set_console (x : list LogEntry) (st : RTOSFreeRTOS) : RTOSFreeRTOS :=
  {| status := status st; progStatus := progStatus st; uxCurrentNumberOfTasks
     := uxCurrentNumberOfTasks st; uxCurrentNumberOfTasksVal :=
     uxCurrentNumberOfTasksVal st; pxReadyTasksLists := pxReadyTasksLists st;
     pxReadyTasksListsItems := pxReadyTasksListsItems st; xDelayedTaskList1 :=
     xDelayedTaskList1 st; xDelayedTaskList2 := xDelayedTaskList2 st;
     xPendingReadyList := xPendingReadyList st; pxCurrentTCB := pxCurrentTCB
     st; xSuspendedTaskList := xSuspendedTaskList st; xTasksWaitingTermination
     := xTasksWaitingTermination st; ulTotalRunTime := ulTotalRunTime st;
     ulTotalRunTimeVal := ulTotalRunTimeVal st; stale := stale st;
     curThreadAddr := curThreadAddr st; foundThreads := foundThreads st;
     finalThreads := finalThreads st; timeInfo := timeInfo st; lastValidHtml
     := lastValidHtml st; console := x; requests := requests st |}.

Definition set_requests (x : list Request) (st : RTOSFreeRTOS) : RTOSFreeRTOS :=
  {| status := status st; progStatus := progStatus st; uxCurrentNumberOfTasks
     := uxCurrentNumberOfTasks st; uxCurrentNumberOfTasksVal :=
     uxCurrentNumberOfTasksVal st; pxReadyTasksLists := pxReadyTasksLists st;
     pxReadyTasksListsItems := pxReadyTasksListsItems st; xDelayedTaskList1 :=
     xDelayedTaskList1 st; xDelayedTaskList2 := xDelayedTaskList2 st;
     xPendingReadyList := xPendingReadyList st; pxCurrentTCB := pxCurrentTCB
     st; xSuspendedTaskList := xSuspendedTaskList st; xTasksWaitingTermination
     := xTasksWaitingTermination st; ulTotalRunTime := ulTotalRunTime st;
     ulTotalRunTimeVal := ulTotalRunTimeVal st; stale := stale st;
     curThreadAddr := curThreadAddr st; foundThreads := foundThreads st;
     finalThreads := finalThreads st; timeInfo := timeInfo st; lastValidHtml
     := lastValidHtml st; console := console st; requests := x |}.

(** ** Promises over the fields of [this]

    An asynchronous computation ends fulfilled, rejected, or is never
    settled (a promise whose [resolve] and [reject] are never called, or an
    [await] on such a promise). *)

Inductive settled (A : Type) : Type :=
| Fulfilled (a : A)
| Rejected (e : exn)
| Pending.

Arguments Fulfilled {A} a.
Arguments Rejected {A} e.
Arguments Pending {A}.

Definition Async (A : Type) : Type :=
  RTOSFreeRTOS -> settled A * RTOSFreeRTOS.

Definition ret {A : Type} (a : A) : Async A :=
  fun st => (Fulfilled a, st).

Definition throw {A : Type} (e : exn) : Async A :=
  fun st => (Rejected e, st).

Definition never {A : Type} : Async A :=
  fun st => (Pending, st).

Definition bind {A B : Type} (m : Async A) (k : A -> Async B) : Async B :=
  fun st =>
    match m st with
    | (Fulfilled a, st') => k a st'
    | (Rejected e, st') => (Rejected e, st')
    | (Pending, st') => (Pending, st')
    end.

(** [try { m } catch (e) { h e }]. *)
Definition try_catch {A : Type} (m : Async A) (h : exn -> Async A) : Async A :=
  fun st =>
    match m st with
    | (Rejected e, st') => h e st'
    | r => r
    end.

(** [m.then(ok, ko)]. *)
Definition then_ {A B : Type} (m : Async A) (ok : A -> Async B)
    (ko : exn -> Async B) : Async B :=
  fun st =>
    match m st with
    | (Fulfilled a, st') => ok a st'
    | (Rejected e, st') => ko e st'
    | (Pending, st') => (Pending, st')
    end.

Definition gets {A : Type} (f : RTOSFreeRTOS -> A) : Async A :=
  fun st => (Fulfilled (f st), st).

Definition modify (f : RTOSFreeRTOS -> RTOSFreeRTOS) : Async unit :=
  fun st => (Fulfilled tt, f st).

Declare Scope async_scope.
Delimit Scope async_scope with async.
Notation "x <- m ;; k" := (bind m (fun x => k))
  (at level 61, m at next level, right associativity) : async_scope.
Notation "m ;; k" := (bind m (fun _ => k))
  (at level 61, right associativity) : async_scope.
Local Open Scope async_scope.

Fixpoint mapM {A B : Type} (f : A -> Async B) (l : list A) : Async (list B) :=
  match l with
  | [] => ret []
  | x :: r => y <- f x ;; ys <- mapM f r ;; ret (y :: ys)
  end.

Fixpoint forM {A : Type} (l : list A) (f : A -> Async unit) : Async unit :=
  match l with
  | [] => ret tt
  | x :: r => f x ;; forM r f
  end.

Definition console_log (text : string) (e : exn) : Async unit :=
  modify (fun st => set_console (mkLog text e :: console st) st).

(** ** The debug session and the other imports

    None of these is defined in the file: [hexFormat] comes from [utils],
    the request functions from [rtos-common] and the debug adapter, the
    clock from [Date] and [HrTimer], and [exponential] is the engine's
    exponent notation of a large number.  A reply may depend on the
    requests issued before it ([past], latest first).  While a request is
    outstanding the session may deliver an event that changes
    [progStatus]; [progStatusAfter] gives the value the code finds when it
    resumes. *)

Record Env : Type := mkEnv {
  hexFormat : num -> string;
  exponential : spec_float -> string;
  getValue : list Request -> RTOSVarHelper -> Z -> settled value;
  getVarChildren : list Request -> RTOSVarHelper -> Z -> settled (list DebugVariable);
  getVarIfEmpty : list Request -> Z -> value -> settled (option RTOSVarHelper);
  varChildrenObj : list Request -> RTOSVarHelper -> Z -> settled object;
  getVarChildrenObj : list Request -> value -> string -> settled object;
  getExprValChildrenObj : list Request -> string -> Z -> settled object;
  getExprVal : list Request -> string -> Z -> settled string;
  readMemory : list Request -> string -> num -> settled ReadMemoryResponse;
  progStatusAfter : list Request -> ProgStatus -> ProgStatus;
  toISOString : list Request -> string;
  deltaMs : list Request -> num
}.

(** [bytes[i]] as a number. *)
Definition byte_value (b : byte) : Z := Z.of_N (Byte.to_N b).

(** The watermark loop of [getStackInfo]:
    [while (top > 0) { if (bytes[top - 1] !== waterMark) break; top--; }]. *)
Fixpoint scan (bs : list byte) (waterMark : Z) (top : nat) : nat :=
  match top with
  | O => O
  | S t =>
      match nth_error bs t with
      | Some b => if byte_value b =? waterMark then scan bs waterMark t else top
      | None => top
      end
  end.

(** An optional member read where the code has assigned it. *)
Definition the (o : option num) : num :=
  match o with
  | Some n => n
  | None => NaN
  end.

Definition opt_truthy (o : option num) : bool :=
  match o with
  | Some n => num_truthy n
  | None => false
  end.

(** Number of iterations of [for (i = 0; i < n; i++)]. *)
Definition iterations (n : num) : nat :=
  match n with
  | Int z => Z.to_nat z
  | NaN => O
  end.

Definition nl : string := String (ascii_of_nat 10) EmptyString.

(** A double quote, and a string between double quotes. *)
Definition dq : string := String dquote EmptyString.
Definition quoted (s : string) : string := dq ++ s ++ dq.

Section FreeRTOS.

Variable env : Env.

(** An [await] on a request to the session. *)
Definition await {A : Type} (r : Request)
    (reply : list Request -> settled A) : Async A :=
  fun st =>
    let past := requests st in
    (reply past,
     set_progStatus (progStatusAfter env (r :: past) (progStatus st))
       (set_requests (r :: past) st)).

(** *** [getStackInfo] *)

Definition getStackInfo (thInfo : object) (waterMark : Z) : Async RTOSStackInfo :=
  let pxStack := get thInfo "pxStack-val" in
  let pxTopOfStack := get thInfo "pxTopOfStack-val" in
  let pxEndOfStack := get thInfo "pxEndOfStack-val" in
  let start := parseIntV pxStack in
  let top := parseIntV pxTopOfStack in
  let stackUsedCur := sub start top in
  let curUsed := abs stackUsedCur in
  if truthy pxEndOfStack then
    let end_ := parseIntV pxEndOfStack in
    let diff := sub start end_ in
    let incr := if ltb diff (Int 0) then 1 else -1 in
    let size := abs diff in
    let stackInfo :=
      {| stackStart := start; stackTopCurrent := top; stackCurUsed := curUsed;
         stackEnd := Some end_; stackSize := Some size;
         stackFree := Some (sub size curUsed);
         stackPeakUsed := None; bytes := None |} in
    let memoryReference :=
      if 0 <? incr then hexFormat env start else hexFormat env end_ in
    try_catch
      (stackData <- await (ReadMemory memoryReference size)
                      (fun past => readMemory env past memoryReference size) ;;
       match data stackData with
       | None => throw (TypeError "The first argument must be of type string")
       | Some buf =>
           let bs := if incr <? 0 then rev buf else buf in
           let peak := scan bs waterMark (List.length bs) in
           ret {| stackStart := start; stackTopCurrent := top;
                  stackCurUsed := curUsed;
                  stackEnd := Some end_; stackSize := Some size;
                  stackFree := Some (sub size curUsed);
                  stackPeakUsed := Some (Int (Z.of_nat peak));
                  bytes := Some bs |}
       end)
      (fun e => console_log EmptyString e ;; ret stackInfo)
  else
    let stackInfo :=
      {| stackStart := start; stackTopCurrent := top; stackCurUsed := curUsed;
         stackEnd := None; stackSize := None; stackFree := None;
         stackPeakUsed := None; bytes := None |} in
    let incr := if ltb stackUsedCur (Int 0) then 1 else -1 in
    let memoryReference :=
      if 0 <? incr then hexFormat env start else hexFormat env top in
    await (ReadMemory memoryReference curUsed)
      (fun past => readMemory env past memoryReference curUsed) ;;
    ret stackInfo.

(** *** [getThreadInfo] *)

(** The record the loop body builds from the TCB fields, in the order in
    which it creates, deletes and adds the properties. *)
Definition makeThread (thInfo : object) (threadId : num) (thName : string)
    (state : string) (stackInfo : RTOSStackInfo)
    (curAddr ulTotal : num) : FreeRTOSThreadInfo :=
  let th0 : object :=
    [ ("ID", get thInfo "uxTCBNumber-val");
      ("Address", VString (hexFormat env threadId));
      ("Task Name", VString thName);
      ("Status", VString (if num_eqb threadId curAddr then "RUNNING" else state));
      ("Prio", get thInfo "uxPriority-val");
      ("Stack Beg", VString (hexFormat env (stackStart stackInfo)));
      ("Stack Top", VString (hexFormat env (stackTopCurrent stackInfo)));
      ("Stack Used", VString (num_toString (stackCurUsed stackInfo)));
      ("stackInfo", VStackInfo stackInfo) ] in
  let th1 := if negb (is_string (get th0 "ID")) then delete th0 "ID" else th0 in
  let th2 :=
    if truthy (get thInfo "uxBasePriority-val")
    then set th1 "Prio"
           (VString (toStr (get th1 "Prio") ++ "," ++
                     toStr (get thInfo "uxBasePriority-val")))
    else th1 in
  let th3 :=
    if opt_truthy (stackSize stackInfo)
    then
      let a := set th2 "Stack End" (VString (hexFormat env (the (stackEnd stackInfo)))) in
      let b := set a "Stack Size" (VString (num_toString (the (stackSize stackInfo)))) in
      let c := set b "Stack Peak"
                 (VString (if opt_truthy (stackPeakUsed stackInfo)
                           then num_toString (the (stackPeakUsed stackInfo))
                           else "Read mem fail")) in
      set c "Stack Free" (VString (num_toString (the (stackFree stackInfo))))
    else set th2 "Stack End" (VString "&lt;Unknown&gt;") in
  if truthy (get thInfo "ulRunTimeCounter-val") && num_truthy ulTotal
  then
    let tmp :=
      toFixed2 (exponential env)
        (fmul (fdiv (to_double (parseIntV (get thInfo "ulRunTimeCounter-val")))
                    (to_double ulTotal))
              (to_double (Int 100))) in
    set th3 "Runtime" (VString (padStart0 5 tmp ++ "%"))
  else th3.

(** The [for] loop over the list nodes, [n] iterations from [curRef]. *)
Fixpoint walk (n : nat) (curRef : value) (state : string) (frameId : Z)
    : Async unit :=
  match n with
  | O => ret tt
  | S n' =>
      element <- await (GetVarChildrenObj curRef "pxPrevious")
                   (fun past => getVarChildrenObj env past curRef "pxPrevious") ;;
      let threadId := parseIntV (get element "pvOwner-val") in
      let tcb := "((TCB_t*)" ++ hexFormat env threadId ++ ")" in
      thInfo <- await (GetExprValChildrenObj tcb frameId)
                  (fun past => getExprValChildrenObj env past tcb frameId) ;;
      let nameExpr := "(char *)" ++ toStr (get thInfo "pcTaskName-exp") in
      tmpThName <- await (GetExprVal nameExpr frameId)
                     (fun past => getExprVal env past nameExpr frameId) ;;
      let thName :=
        match match_quoted tmpThName with
        | Some m => m
        | None => tmpThName
        end in
      stackInfo <- getStackInfo thInfo 165 ;;
      curAddr <- gets curThreadAddr ;;
      ulTotal <- gets ulTotalRunTimeVal ;;
      let th := makeThread thInfo threadId thName state stackInfo curAddr ulTotal in
      modify (fun st => set_foundThreads (foundThreads st ++ [th])%list st) ;;
      walk n' (get element "pxPrevious-ref") state frameId
  end.

Definition getThreadInfo (varRef : option RTOSVarHelper) (state : string)
    (frameId : Z) : Async unit :=
  found <- gets foundThreads ;;
  declared <- gets uxCurrentNumberOfTasksVal ;;
  match varRef with
  | None => ret tt
  | Some v =>
      if negb (truthy (varReference v))
         || geb (Int (Z.of_nat (List.length found))) declared
      then ret tt
      else
        prog <- gets progStatus ;;
        if negb (is_stopped prog) then throw (Error "Busy")
        else
          obj <- await (VarChildrenObj v frameId)
                   (fun past => varChildrenObj env past v frameId) ;;
          let threadCount := parseIntV (get obj "uxNumberOfItems-val") in
          let listEndRef := get obj "xListEnd-ref" in
          if leb threadCount (Int 0) || negb (truthy listEndRef) then ret tt
          else
            try_catch
              (listEndObj <- await (GetVarChildrenObj listEndRef "xListEnd")
                               (fun past => getVarChildrenObj env past listEndRef "xListEnd") ;;
               walk (iterations threadCount) (get listEndObj "pxPrevious-ref")
                 state frameId)
              (fun e => console_log "FreeRTOS read thread info error" e ;; never)
  end.

End FreeRTOS.

(** ** [Array.prototype.sort] with a comparison function

    The sort is stable, and a comparison that returns [NaN] counts as [0].
    For a consistent comparison the result is the same in every engine; it
    is computed here by insertion. *)

Definition after (cmp : object -> object -> num) (a b : object) : bool :=
  gtb (cmp a b) (Int 0).

Fixpoint insert (cmp : object -> object -> num) (x : object)
    (l : list object) : list object :=
  match l with
  | [] => [x]
  | y :: r => if after cmp x y then y :: insert cmp x r else x :: l
  end.

Fixpoint sort (cmp : object -> object -> num) (l : list object) : list object :=
  match l with
  | [] => []
  | x :: r => insert cmp x (sort cmp r)
  end.

(** The two comparison functions of [refresh]. *)
Definition byID (a b : FreeRTOSThreadInfo) : num :=
  sub (parseIntV (get a "ID")) (parseIntV (get b "ID")).

Definition byAddress (a b : FreeRTOSThreadInfo) : num :=
  sub (parseIntV (get a "Address")) (parseIntV (get b "Address")).

(** A synchronous method: it returns or throws. *)
Inductive completion (A : Type) : Type :=
| Normal (a : A)
| Thrown (e : exn).

Arguments Normal {A} a.
Arguments Thrown {A} e.

Section Refresh.

Variable env : Env.

(** *** [refresh] *)

Definition undefined_member (what : string) : exn :=
  TypeError ("Cannot read properties of undefined: " ++ what).

(** The traversal part of the pass: the statements of the [if] branch up to
    the last call of [getThreadInfo]. *)
Definition collect (frameId : Z) : Async unit :=
  items <- gets pxReadyTasksListsItems ;;
  match items with
  | Some _ => ret tt
  | None =>
      lists <- gets pxReadyTasksLists ;;
      match lists with
      | None => throw (undefined_member "getVarChildren")
      | Some v =>
          vars <- await env (GetVarChildren v frameId)
                    (fun past => getVarChildren env past v frameId) ;;
          tmpArray <- mapM (fun v =>
                        await env (GetVarIfEmpty frameId (evaluateName v))
                          (fun past => getVarIfEmpty env past frameId (evaluateName v)))
                        vars ;;
          modify (set_pxReadyTasksListsItems (Some tmpArray))
      end
  end ;;
  total <- gets ulTotalRunTime ;;
  match total with
  | Some v =>
      tmp <- await env (GetValue v frameId) (fun past => getValue env past v frameId) ;;
      modify (set_ulTotalRunTimeVal (parseIntV tmp))
  | None => ret tt
  end ;;
  current <- gets pxCurrentTCB ;;
  match current with
  | None => throw (undefined_member "getValue")
  | Some v =>
      cur <- await env (GetValue v frameId) (fun past => getValue env past v frameId) ;;
      modify (set_curThreadAddr (parseIntV cur))
  end ;;
  items <- gets pxReadyTasksListsItems ;;
  match items with
  | None => throw (TypeError "pxReadyTasksListsItems is not iterable")
  | Some l => forM l (fun item => getThreadInfo env item "READY" frameId)
  end ;;
  l1 <- gets xDelayedTaskList1 ;; getThreadInfo env l1 "BLOCKED" frameId ;;
  l2 <- gets xDelayedTaskList2 ;; getThreadInfo env l2 "BLOCKED" frameId ;;
  l3 <- gets xPendingReadyList ;; getThreadInfo env l3 "BLOCKED" frameId ;;
  l4 <- gets xSuspendedTaskList ;; getThreadInfo env l4 "SUSPENDED" frameId ;;
  l5 <- gets xTasksWaitingTermination ;; getThreadInfo env l5 "TERMINATED" frameId.

(** The sort of [foundThreads] in place and its copy into [finalThreads]. *)
Definition publish : Async unit :=
  found <- gets foundThreads ;;
  match found with
  | [] => throw (undefined_member "ID")
  | first :: _ =>
      let sorted :=
        if truthy (get first "ID") then sort byID found
        else sort byAddress found in
      modify (set_foundThreads sorted) ;;
      modify (set_finalThreads sorted)
  end.

(** The body of the [try] in the callback that receives the declared
    count. *)
Definition onCount (frameId : Z) (str : value) : Async unit :=
  modify (set_uxCurrentNumberOfTasksVal
            (if truthy str then parseIntV str else Int MAX_SAFE_INTEGER)) ;;
  declared <- gets uxCurrentNumberOfTasksVal ;;
  (if gtb declared (Int 0) && leb declared maxThreads
   then collect frameId ;; publish
   else modify (set_finalThreads [])) ;;
  modify (set_stale false) ;;
  modify (fun st =>
    set_timeInfo
      (timeInfo st ++ " in " ++ num_toString (deltaMs env (requests st)) ++ " ms") st).

Definition refresh_failed (e : exn) : Async unit :=
  console_log "FreeRTOS.refresh() failed: " e.

Definition refresh (frameId : Z) : Async unit :=
  prog <- gets progStatus ;;
  if negb (is_stopped prog) then ret tt
  else
    modify (set_stale true) ;;
    modify (fun st => set_timeInfo (toISOString env (requests st)) st) ;;
    modify (set_uxCurrentNumberOfTasksVal (Int MAX_SAFE_INTEGER)) ;;
    modify (set_foundThreads []) ;;
    count <- gets uxCurrentNumberOfTasks ;;
    match count with
    | None => throw (undefined_member "getValue")
    | Some v =>
        then_ (await env (GetValue v frameId) (fun past => getValue env past v frameId))
          (fun str => try_catch (onCount frameId str) refresh_failed)
          refresh_failed
    end.

End Refresh.

(** *** [getHTML] *)

(** [makeOneWord], on strings of ASCII characters: there [toLowerCase]
    lowers the letters A to Z and nothing else, and the white space of the
    pattern is one of the six ASCII white-space characters.  [getHTML] calls
    it on the keys of a record, which are such strings. *)
Definition makeOneWord (s : string) : string := dash_spaces false s.

Definition fr_of (k : string) : string :=
  if String.eqb k "ID" then "1"
  else if String.eqb k "Task Name" then "6"
  else if String.eqb k "Prio" then "2"
  else if String.eqb k "Runtime" then "2"
  else "4".

Fixpoint grid_columns (ks : list string) : string :=
  match ks with
  | [] => EmptyString
  | k :: r => fr_of k ++ "fr " ++ grid_columns r
  end.

(** The header cells: one for every key whose value in [th] is not an
    object, numbered from [col]. *)
Fixpoint header_cells (th : object) (ks : list string) (col : Z) : string :=
  match ks with
  | [] => EmptyString
  | key :: r =>
      if negb (is_object (get th key))
      then "    <vscode-data-grid-cell class=" ++
             quoted (name ++ "-header-cell threads-header-cell") ++
             " cell-type=" ++ quoted "columnheader" ++
             " grid-column=" ++ quoted (Z_toString col) ++ ">" ++ key ++
             "</vscode-data-grid-cell>" ++ nl ++ header_cells th r (col + 1)
      else header_cells th r col
  end.

Definition value_is (v : value) (s : string) : bool :=
  match v with
  | VString t => String.eqb t s
  | _ => false
  end.

Fixpoint row_cells (th : object) (ks : list string) (col : Z) : string :=
  match ks with
  | [] => EmptyString
  | key :: r =>
      let v := get th key in
      if negb (is_object v)
      then
        let special :=
          if String.eqb key "Status" && value_is v "RUNNING"
          then "running" else EmptyString in
        let txt :=
          if String.eqb key "Stack Beg"
          then "<vscode-link class=" ++
                 quoted ("threads-link-" ++ makeOneWord key) ++
                 " href=" ++ quoted "#" ++ ">" ++ toStr v ++ "</vscode-link>"
          else toStr v in
        let cls :=
          "class=" ++
          quoted (name ++ "-cell threads-cell threads-cell-" ++
                  makeOneWord key ++ " " ++ special) in
        "    <vscode-data-grid-cell " ++ cls ++ " grid-column=" ++
          quoted (Z_toString col) ++ ">" ++ txt ++ "</vscode-data-grid-cell>" ++ nl ++
          row_cells th r (col + 1)
      else row_cells th r col
  end.

Definition row (ks : list string) (th : object) : string :=
  "  <vscode-data-grid-row class=" ++ quoted (name ++ "-row threads-row") ++ ">" ++ nl ++
  row_cells th ks 1 ++ "  </vscode-data-grid-row>" ++ nl.

Definition header (ks : list string) (th : object) : string :=
  "  <vscode-data-grid-row row-type=" ++ quoted "header" ++ " class=" ++
  quoted (name ++ "-header-row threads-header-row") ++ ">" ++ nl ++
  header_cells th ks 1 ++ "  </vscode-data-grid-row>" ++ nl.

(** The part of [getHTML] from [Object.keys(this.finalThreads[0])] on; [ret0]
    is what the method has put into [ret] before. *)
Definition render (ret0 : string) (st : RTOSFreeRTOS)
    : completion string * RTOSFreeRTOS :=
  match finalThreads st with
  | [] => (Thrown (TypeError "Cannot convert undefined or null to object"), st)
  | first :: _ =>
      let ks := keys first in
      let table :=
        "<vscode-data-grid class=" ++ quoted (name ++ "-grid threads-grid") ++
        " grid-template-columns=" ++ quoted (grid_columns ks) ++ ">" ++ nl ++
        header ks first ++
        String.concat EmptyString (map (row ks) (finalThreads st)) in
      let ret1 := ret0 ++ table ++ "</vscode-data-grid>" ++ nl in
      let ret2 :=
        if negb (String.eqb (timeInfo st) EmptyString)
        then ret1 ++ "<p>Data collected at " ++ timeInfo st ++ "</p>" ++ nl
        else ret1 in
      (Normal ret2, set_lastValidHtml ret2 st)
  end.

Definition getHTML (st : RTOSFreeRTOS) : completion string * RTOSFreeRTOS :=
  let declared := uxCurrentNumberOfTasksVal st in
  let found := Int (Z.of_nat (List.length (finalThreads st))) in
  match status st with
  | StatusNone =>
      (Normal ("<p>RTOS not yet fully initialized. Will occur next time program pauses</p>" ++ nl), st)
  | _ =>
      if stale st then
        let lastHtml := lastValidHtml st in
        let '(msg, lastHtml) :=
          if num_eqb declared (Int MAX_SAFE_INTEGER)
          then ("Count not read " ++ quoted "uxCurrentNumberOfTasks" ++
                ". Perhaps program is busy or did not stop long enough",
                EmptyString)
          else if gtb declared maxThreads
          then ("FreeRTOS variable uxCurrentNumberOfTasks = " ++
                num_toString declared ++ " seems invalid", EmptyString)
          else if negb (String.eqb lastHtml EmptyString)
          then (" Following info from last query may be stale.", lastHtml)
          else (EmptyString, lastHtml) in
        (Normal ("<p>Unable to collect full RTOS information. " ++ msg ++ "</p>" ++ nl ++ lastHtml), st)
      else if negb (num_eqb declared (Int MAX_SAFE_INTEGER))
              && negb (num_eqb found declared)
      then render ("<p>Expecting " ++ num_toString declared ++ " threads, found " ++
                   num_toString found ++ ". Thread data may be unreliable<p>" ++ nl) st
      else if num_eqb found (Int 0)
      then (Normal ("<p>No " ++ name ++
                    " threads detected, perhaps RTOS not yet initialized or tasks yet to be created!</p>" ++ nl), st)
      else render EmptyString st
  end.

(** ** A synthetic target

    A concrete debug session for running the code: one task list
    ([xDelayedTaskList1]) whose nodes are given explicitly, every other list
    empty.  The sentinel of the list has reference 100 and node [k] has
    reference [101 + k]; each node names the reference of its predecessor,
    so that cyclic and broken lists can be written down. *)

Module Synthetic.

(** [hexFormat] of [utils]: the hexadecimal digits, padded to eight, after
    [0x]. *)
Definition hexFormat8 (n : num) : string :=
  "0x" ++ padStart0 8
    match n with
    | Int z => HexadecimalString.NilZero.string_of_int (Z.to_hex_int z)
    | NaN => "NaN"
    end.

Record Node : Type := mkNode {
  pvOwner : string;
  pxPrevious : Z;
  tcb : settled object;
  taskName : string
}.

Record Target : Type := mkTarget {
  declared : settled value;
  numberOfItems : string;
  nodes : list Node;
  memory : settled ReadMemoryResponse;
  totalRunTime : string;
  currentTCB : string;
  resumedAfter : nat
}.

Definition helper (expr : string) (ref : Z) : RTOSVarHelper :=
  mkVarHelper (VString expr) (VNumber (Int ref)).

Definition expression_is (v : RTOSVarHelper) (s : string) : bool :=
  value_is (expression v) s.

Definition node_at (t : Target) (ref : value) : option Node :=
  match ref with
  | VNumber (Int r) => if 101 <=? r then nth_error (nodes t) (Z.to_nat (r - 101)) else None
  | _ => None
  end.

Definition tcb_expr (n : Node) : string :=
  "((TCB_t*)" ++ hexFormat8 (parseInt (pvOwner n)) ++ ")".

Definition unavailable {A : Type} : settled A :=
  Rejected (Error "unavailable").

Definition env_of (t : Target) : Env :=
  {| hexFormat := hexFormat8;
     exponential := fun _ => "1e+21";
     getValue := fun _ v _ =>
       if expression_is v "uxCurrentNumberOfTasks" then declared t
       else if expression_is v "ulTotalRunTime" then Fulfilled (VString (totalRunTime t))
       else if expression_is v "pxCurrentTCB" then Fulfilled (VString (currentTCB t))
       else unavailable;
     getVarChildren := fun _ _ _ => Fulfilled [];
     getVarIfEmpty := fun _ _ _ => Fulfilled None;
     varChildrenObj := fun _ v _ =>
       if expression_is v "xDelayedTaskList1"
       then Fulfilled [("uxNumberOfItems-val", VString (numberOfItems t));
                       ("xListEnd-ref", VNumber (Int 100))]
       else Fulfilled [("uxNumberOfItems-val", VString "0");
                       ("xListEnd-ref", VNumber (Int 0))];
     getVarChildrenObj := fun _ ref _ =>
       match ref with
       | VNumber (Int 100) => Fulfilled [("pxPrevious-ref", VNumber (Int 101))]
       | _ =>
           match node_at t ref with
           | Some n => Fulfilled [("pvOwner-val", VString (pvOwner n));
                                  ("pxPrevious-ref", VNumber (Int (pxPrevious n)))]
           | None => unavailable
           end
       end;
     getExprValChildrenObj := fun _ expr _ =>
       match find (fun n => String.eqb (tcb_expr n) expr) (nodes t) with
       | Some n => tcb n
       | None => unavailable
       end;
     getExprVal := fun _ expr _ =>
       match find (fun n => String.eqb ("(char *)" ++ pvOwner n) expr) (nodes t) with
       | Some n => Fulfilled (taskName n)
       | None => unavailable
       end;
     readMemory := fun _ _ _ => memory t;
     progStatusAfter := fun past p =>
       if Nat.ltb (resumedAfter t) (List.length past) then Running else p;
     toISOString := fun _ => "2024-01-01T00:00:00.000Z";
     deltaMs := fun _ => Int 3 |}.

(** The object before the first pass: detection done, target halted, all
    kernel symbols resolved, nothing published yet. *)
Definition fresh : RTOSFreeRTOS :=
  {| status := StatusInitialized;
     progStatus := Stopped;
     uxCurrentNumberOfTasks := Some (helper "uxCurrentNumberOfTasks" 1);
     uxCurrentNumberOfTasksVal := NaN;
     pxReadyTasksLists := Some (helper "pxReadyTasksLists" 2);
     pxReadyTasksListsItems := None;
     xDelayedTaskList1 := Some (helper "xDelayedTaskList1" 3);
     xDelayedTaskList2 := Some (helper "xDelayedTaskList2" 4);
     xPendingReadyList := Some (helper "xPendingReadyList" 5);
     pxCurrentTCB := Some (helper "pxCurrentTCB" 6);
     xSuspendedTaskList := Some (helper "xSuspendedTaskList" 7);
     xTasksWaitingTermination := None;
     ulTotalRunTime := Some (helper "ulTotalRunTime" 8);
     ulTotalRunTimeVal := NaN;
     stale := false;
     curThreadAddr := NaN;
     foundThreads := [];
     finalThreads := [];
     timeInfo := EmptyString;
     lastValidHtml := EmptyString;
     console := [];
     requests := [] |}.

(** A TCB as the debugger shows it. *)
Definition tcb_fields (id : option string) (prio pxStack pxTop : string)
    (pxEnd counter : option string) (nameExpr : string) : object :=
  (match id with Some i => [("uxTCBNumber-val", VString i)] | None => [] end ++
   [("uxPriority-val", VString prio);
    ("pxStack-val", VString pxStack);
    ("pxTopOfStack-val", VString pxTop);
    ("pcTaskName-exp", VString nameExpr)] ++
   match pxEnd with Some e => [("pxEndOfStack-val", VString e)] | None => [] end ++
   match counter with Some c => [("ulRunTimeCounter-val", VString c)] | None => [] end)%list.

Definition task (id : option string) (owner : string) (previous : Z)
    (pxEnd counter : option string) : Node :=
  {| pvOwner := owner;
     pxPrevious := previous;
     tcb := Fulfilled (tcb_fields id "3" "0x20001000" "0x20001800" pxEnd counter owner);
     taskName := owner ++ " " ++ quoted "task" |}.

Definition filled (used marks : nat) : list byte :=
  (repeat x00 used ++ repeat xa5 marks)%list.

(** Two tasks on a well-formed list, both numbered. *)
Definition two_tasks : Target :=
  {| declared := Fulfilled (VString "2");
     numberOfItems := "2";
     nodes := [ task (Some "2") "0x20000200" 102 (Some "0x20002000") (Some "250");
                task (Some "1") "0x20000100" 100 (Some "0x20002000") (Some "0") ];
     memory := Fulfilled (mkReadMemoryResponse (Some (filled 8 8)));
     totalRunTime := "1000";
     currentTCB := "0x20000100";
     resumedAfter := 1000 |}.

(** The same target with a stack region of 4096 bytes of which the last 100
    still hold the fill byte. *)
Definition deep_stack : Target :=
  {| declared := Fulfilled (VString "2");
     numberOfItems := "2";
     nodes := nodes two_tasks;
     memory := Fulfilled (mkReadMemoryResponse (Some (filled 3996 100)));
     totalRunTime := "1000";
     currentTCB := "0x20000100";
     resumedAfter := 1000 |}.

End Synthetic.

(** ** Vocabulary of the properties

    Names for the intermediate states of a pass and for what the properties
    count and compare. *)

(** The state in which [refresh] sends its first request. *)
Definition begin_pass (env : Env) (st : RTOSFreeRTOS) : RTOSFreeRTOS :=
  set_foundThreads []
    (set_uxCurrentNumberOfTasksVal (Int MAX_SAFE_INTEGER)
       (set_timeInfo (toISOString env (requests st)) (set_stale true st))).

(** The state in which the reply to that request is handled. *)
Definition asked (env : Env) (frameId : Z) (v : RTOSVarHelper)
    (st : RTOSFreeRTOS) : RTOSFreeRTOS :=
  snd (await env (GetValue v frameId) (fun past => getValue env past v frameId)
         (begin_pass env st)).

(** The declared count the callback stores. *)
Definition count_of (str : value) : num :=
  if truthy str then parseIntV str else Int MAX_SAFE_INTEGER.

(** The state in which the traversal starts. *)
Definition counted (env : Env) (frameId : Z) (v : RTOSVarHelper) (str : value)
    (st : RTOSFreeRTOS) : RTOSFreeRTOS :=
  set_uxCurrentNumberOfTasksVal (count_of str) (asked env frameId v st).

(** The test that guards the traversal. *)
Definition plausible (n : num) : bool :=
  gtb n (Int 0) && leb n maxThreads.

(** The pass raises [e]: the first request is rejected with it, or the body
    of the [try] throws it. *)
Definition pass_raises (env : Env) (frameId : Z) (st : RTOSFreeRTOS)
    (e : exn) : Prop :=
  exists v,
    uxCurrentNumberOfTasks st = Some v /\
    (getValue env (requests st) v frameId = Rejected e \/
     exists str,
       getValue env (requests st) v frameId = Fulfilled str /\
       fst (onCount env frameId str (asked env frameId v st)) = Rejected e).

(** What a failed pass must leave alone. *)
Definition same_snapshot (st st' : RTOSFreeRTOS) : Prop :=
  finalThreads st' = finalThreads st /\
  stale st' = stale st /\
  lastValidHtml st' = lastValidHtml st.

(** A computation that leaves the published snapshot alone, however it
    ends. *)
Definition keeps {A : Type} (m : Async A) : Prop :=
  forall st, same_snapshot st (snd (m st)).

(** A read of a list node, as the loop of [getThreadInfo] issues it. *)
Definition is_node_visit (r : Request) : bool :=
  match r with
  | GetVarChildrenObj _ nm => String.eqb nm "pxPrevious"
  | _ => false
  end.

Definition node_visits (st : RTOSFreeRTOS) : nat :=
  List.length (filter is_node_visit (requests st)).

Definition found_count (st : RTOSFreeRTOS) : nat :=
  List.length (foundThreads st).

(** A computation that reads at most [v] list nodes, and that, when it is
    fulfilled, has read exactly [v] nodes and added exactly [f] records. *)
Definition costs {A : Type} (m : Async A) (v f : nat) : Prop :=
  forall st,
    (node_visits (snd (m st)) <= node_visits st + v)%nat /\
    (forall a, fst (m st) = Fulfilled a ->
       node_visits (snd (m st)) = (node_visits st + v)%nat /\
       found_count (snd (m st)) = (found_count st + f)%nat).

(** A computation that is always fulfilled. *)
Definition answers {A : Type} (m : Async A) : Prop :=
  forall st, exists a, fst (m st) = Fulfilled a.

(** Every read the loop can issue is answered. *)
Definition responsive (env : Env) : Prop :=
  (forall past ref nm, exists o, getVarChildrenObj env past ref nm = Fulfilled o) /\
  (forall past expr f, exists o, getExprValChildrenObj env past expr f = Fulfilled o) /\
  (forall past expr f, exists s, getExprVal env past expr f = Fulfilled s) /\
  (forall past ref n, exists m, readMemory env past ref n = Fulfilled m).

(** The numeric sort keys. *)
Definition id_key (th : FreeRTOSThreadInfo) : num := parseIntV (get th "ID").
Definition address_key (th : FreeRTOSThreadInfo) : num :=
  parseIntV (get th "Address").

(** [th] carries a numeric ID. *)
Definition carries_ID (th : FreeRTOSThreadInfo) : Prop :=
  exists s z, get th "ID" = VString s /\ parseInt s = Int z.

Definition numeric_address (th : FreeRTOSThreadInfo) : Prop :=
  exists z, address_key th = Int z.

(** Ascending order of the keys. *)
Definition ascending (key : FreeRTOSThreadInfo -> num)
    (l : list FreeRTOSThreadInfo) : Prop :=
  StronglySorted (fun a b => leb (key a) (key b) = true) l.

Import Synthetic.

(** A list whose single node points back to itself, declared to hold three
    nodes. *)
Definition self_loop : Target :=
  {| declared := Fulfilled (VString "3");
     numberOfItems := "3";
     nodes := [ task (Some "1") "0x20000100" 101 (Some "0x20002000") None ];
     memory := Fulfilled (mkReadMemoryResponse (Some (filled 8 8)));
     totalRunTime := "1000";
     currentTCB := "0x20000100";
     resumedAfter := 1000 |}.

(** A session that answers every request, and in which every node of every
    list names itself as its predecessor: a walk by links never comes back
    to a sentinel. *)
Definition merry_go_round : Env :=
  {| hexFormat := hexFormat8;
     exponential := fun _ => "1e+21";
     getValue := fun _ _ _ => Fulfilled (VString "3");
     getVarChildren := fun _ _ _ => Fulfilled [];
     getVarIfEmpty := fun _ _ _ => Fulfilled None;
     varChildrenObj := fun _ _ _ =>
       Fulfilled [("uxNumberOfItems-val", VString "3");
                  ("xListEnd-ref", VNumber (Int 100))];
     getVarChildrenObj := fun _ _ _ =>
       Fulfilled [("pvOwner-val", VString "0x20000100");
                  ("pxPrevious-ref", VNumber (Int 101))];
     getExprValChildrenObj := fun _ _ _ =>
       Fulfilled (tcb_fields (Some "1") "3" "0x20001000" "0x20001800"
                    None None "0x20000100");
     getExprVal := fun _ _ _ => Fulfilled "0x20000100";
     readMemory := fun _ _ _ => Fulfilled (mkReadMemoryResponse None);
     progStatusAfter := fun _ p => p;
     toISOString := fun _ => "2024-01-01T00:00:00.000Z";
     deltaMs := fun _ => Int 3 |}.

(** A count beyond the cap. *)
Definition too_many : Target :=
  {| declared := Fulfilled (VString "2000");
     numberOfItems := "0";
     nodes := [];
     memory := unavailable;
     totalRunTime := "1000";
     currentTCB := "0x20000100";
     resumedAfter := 1000 |}.

(** A plausible count, but every list is empty. *)
Definition no_tasks : Target :=
  {| declared := Fulfilled (VString "2");
     numberOfItems := "0";
     nodes := [];
     memory := unavailable;
     totalRunTime := "1000";
     currentTCB := "0x20000100";
     resumedAfter := 1000 |}.

(** The count cannot be read. *)
Definition unreadable : Target :=
  {| declared := unavailable;
     numberOfItems := "0";
     nodes := [];
     memory := unavailable;
     totalRunTime := "1000";
     currentTCB := "0x20000100";
     resumedAfter := 1000 |}.

(** Two tasks of a kernel without a static end-of-stack bound, on a target
    whose memory cannot be read. *)
Definition unbounded_unreadable : Target :=
  {| declared := Fulfilled (VString "2");
     numberOfItems := "2";
     nodes := [ task (Some "2") "0x20000200" 102 None None;
                task (Some "1") "0x20000100" 100 None None ];
     memory := unavailable;
     totalRunTime := "1000";
     currentTCB := "0x20000100";
     resumedAfter := 1000 |}.

(** The same two tasks with a static bound. *)
Definition bounded_unreadable : Target :=
  {| declared := Fulfilled (VString "2");
     numberOfItems := "2";
     nodes := [ task (Some "2") "0x20000200" 102 (Some "0x20002000") None;
                task (Some "1") "0x20000100" 100 (Some "0x20002000") None ];
     memory := unavailable;
     totalRunTime := "1000";
     currentTCB := "0x20000100";
     resumedAfter := 1000 |}.

(** Two tasks of which only the first one found shows a task number. *)
Definition mixed_numbering : Target :=
  {| declared := Fulfilled (VString "2");
     numberOfItems := "2";
     nodes := [ task (Some "2") "0x20000200" 102 (Some "0x20002000") None;
                task None "0x20000100" 100 (Some "0x20002000") None ];
     memory := Fulfilled (mkReadMemoryResponse (Some (filled 8 8)));
     totalRunTime := "1000";
     currentTCB := "0x20000100";
     resumedAfter := 1000 |}.

(** The states in which the traversal of three of the targets ends. *)
Definition count_handle : RTOSVarHelper := helper "uxCurrentNumberOfTasks" 1.

Definition no_tasks_collected : RTOSFreeRTOS :=
  Eval vm_compute in
    snd (collect (env_of no_tasks) 0
           (counted (env_of no_tasks) 0 count_handle (VString "2") fresh)).

Definition two_tasks_collected : RTOSFreeRTOS :=
  Eval vm_compute in
    snd (collect (env_of two_tasks) 0
           (counted (env_of two_tasks) 0 count_handle (VString "2") fresh)).

(** The object after a pass over the two tasks. *)
Definition two_tasks_published : RTOSFreeRTOS :=
  Eval vm_compute in snd (refresh (env_of two_tasks) 0 fresh).

(** Three tasks are declared, two are on the first delayed list, and the
    target resumes while the last read of that list is outstanding. *)
Definition resumed_mid_pass : Target :=
  {| declared := Fulfilled (VString "3");
     numberOfItems := "2";
     nodes := nodes two_tasks;
     memory := memory two_tasks;
     totalRunTime := "1000";
     currentTCB := "0x20000100";
     resumedAfter := 13 |}.

(** The object while the target runs. *)
Definition running : RTOSFreeRTOS := set_progStatus Running fresh.

(** ** Detection: [tryDetect]

    Assignment to the fields that only detection writes. *)

Definition set_status (x : Status) (st : RTOSFreeRTOS) : RTOSFreeRTOS :=
  {| status := x; progStatus := progStatus st; uxCurrentNumberOfTasks :=
     uxCurrentNumberOfTasks st; uxCurrentNumberOfTasksVal :=
     uxCurrentNumberOfTasksVal st; pxReadyTasksLists := pxReadyTasksLists st;
     pxReadyTasksListsItems := pxReadyTasksListsItems st; xDelayedTaskList1 :=
     xDelayedTaskList1 st; xDelayedTaskList2 := xDelayedTaskList2 st;
     xPendingReadyList := xPendingReadyList st; pxCurrentTCB := pxCurrentTCB
     st; xSuspendedTaskList := xSuspendedTaskList st; xTasksWaitingTermination
     := xTasksWaitingTermination st; ulTotalRunTime := ulTotalRunTime st;
     ulTotalRunTimeVal := ulTotalRunTimeVal st; stale := stale st;
     curThreadAddr := curThreadAddr st; foundThreads := foundThreads st;
     finalThreads := finalThreads st; timeInfo := timeInfo st; lastValidHtml
     := lastValidHtml st; console := console st; requests := requests st |}.

Definition set_uxCurrentNumberOfTasks (x : option RTOSVarHelper) (st : RTOSFreeRTOS) : RTOSFreeRTOS :=
  {| status := status st; progStatus := progStatus st; uxCurrentNumberOfTasks
     := x; uxCurrentNumberOfTasksVal := uxCurrentNumberOfTasksVal st;
     pxReadyTasksLists := pxReadyTasksLists st; pxReadyTasksListsItems :=
     pxReadyTasksListsItems st; xDelayedTaskList1 := xDelayedTaskList1 st;
     xDelayedTaskList2 := xDelayedTaskList2 st; xPendingReadyList :=
     xPendingReadyList st; pxCurrentTCB := pxCurrentTCB st; xSuspendedTaskList
     := xSuspendedTaskList st; xTasksWaitingTermination :=
     xTasksWaitingTermination st; ulTotalRunTime := ulTotalRunTime st;
     ulTotalRunTimeVal := ulTotalRunTimeVal st; stale := stale st;
     curThreadAddr := curThreadAddr st; foundThreads := foundThreads st;
     finalThreads := finalThreads st; timeInfo := timeInfo st; lastValidHtml
     := lastValidHtml st; console := console st; requests := requests st |}.

Definition set_pxReadyTasksLists (x : option RTOSVarHelper) (st : RTOSFreeRTOS) : RTOSFreeRTOS :=
  {| status := status st; progStatus := progStatus st; uxCurrentNumberOfTasks
     := uxCurrentNumberOfTasks st; uxCurrentNumberOfTasksVal :=
     uxCurrentNumberOfTasksVal st; pxReadyTasksLists := x;
     pxReadyTasksListsItems := pxReadyTasksListsItems st; xDelayedTaskList1 :=
     xDelayedTaskList1 st; xDelayedTaskList2 := xDelayedTaskList2 st;
     xPendingReadyList := xPendingReadyList st; pxCurrentTCB := pxCurrentTCB
     st; xSuspendedTaskList := xSuspendedTaskList st; xTasksWaitingTermination
     := xTasksWaitingTermination st; ulTotalRunTime := ulTotalRunTime st;
     ulTotalRunTimeVal := ulTotalRunTimeVal st; stale := stale st;
     curThreadAddr := curThreadAddr st; foundThreads := foundThreads st;
     finalThreads := finalThreads st; timeInfo := timeInfo st; lastValidHtml
     := lastValidHtml st; console := console st; requests := requests st |}.

Definition set_xDelayedTaskList1 (x : option RTOSVarHelper) (st : RTOSFreeRTOS) : RTOSFreeRTOS :=
  {| status := status st; progStatus := progStatus st; uxCurrentNumberOfTasks
     := uxCurrentNumberOfTasks st; uxCurrentNumberOfTasksVal :=
     uxCurrentNumberOfTasksVal st; pxReadyTasksLists := pxReadyTasksLists st;
     pxReadyTasksListsItems := pxReadyTasksListsItems st; xDelayedTaskList1 :=
     x; xDelayedTaskList2 := xDelayedTaskList2 st; xPendingReadyList :=
     xPendingReadyList st; pxCurrentTCB := pxCurrentTCB st; xSuspendedTaskList
     := xSuspendedTaskList st; xTasksWaitingTermination :=
     xTasksWaitingTermination st; ulTotalRunTime := ulTotalRunTime st;
     ulTotalRunTimeVal := ulTotalRunTimeVal st; stale := stale st;
     curThreadAddr := curThreadAddr st; foundThreads := foundThreads st;
     finalThreads := finalThreads st; timeInfo := timeInfo st; lastValidHtml
     := lastValidHtml st; console := console st; requests := requests st |}.

Definition set_xDelayedTaskList2 (x : option RTOSVarHelper) (st : RTOSFreeRTOS) : RTOSFreeRTOS :=
  {| status := status st; progStatus := progStatus st; uxCurrentNumberOfTasks
     := uxCurrentNumberOfTasks st; uxCurrentNumberOfTasksVal :=
     uxCurrentNumberOfTasksVal st; pxReadyTasksLists := pxReadyTasksLists st;
     pxReadyTasksListsItems := pxReadyTasksListsItems st; xDelayedTaskList1 :=
     xDelayedTaskList1 st; xDelayedTaskList2 := x; xPendingReadyList :=
     xPendingReadyList st; pxCurrentTCB := pxCurrentTCB st; xSuspendedTaskList
     := xSuspendedTaskList st; xTasksWaitingTermination :=
     xTasksWaitingTermination st; ulTotalRunTime := ulTotalRunTime st;
     ulTotalRunTimeVal := ulTotalRunTimeVal st; stale := stale st;
     curThreadAddr := curThreadAddr st; foundThreads := foundThreads st;
     finalThreads := finalThreads st; timeInfo := timeInfo st; lastValidHtml
     := lastValidHtml st; console := console st; requests := requests st |}.

Definition set_xPendingReadyList (x : option RTOSVarHelper) (st : RTOSFreeRTOS) : RTOSFreeRTOS :=
  {| status := status st; progStatus := progStatus st; uxCurrentNumberOfTasks
     := uxCurrentNumberOfTasks st; uxCurrentNumberOfTasksVal :=
     uxCurrentNumberOfTasksVal st; pxReadyTasksLists := pxReadyTasksLists st;
     pxReadyTasksListsItems := pxReadyTasksListsItems st; xDelayedTaskList1 :=
     xDelayedTaskList1 st; xDelayedTaskList2 := xDelayedTaskList2 st;
     xPendingReadyList := x; pxCurrentTCB := pxCurrentTCB st;
     xSuspendedTaskList := xSuspendedTaskList st; xTasksWaitingTermination :=
     xTasksWaitingTermination st; ulTotalRunTime := ulTotalRunTime st;
     ulTotalRunTimeVal := ulTotalRunTimeVal st; stale := stale st;
     curThreadAddr := curThreadAddr st; foundThreads := foundThreads st;
     finalThreads := finalThreads st; timeInfo := timeInfo st; lastValidHtml
     := lastValidHtml st; console := console st; requests := requests st |}.

Definition set_pxCurrentTCB (x : option RTOSVarHelper) (st : RTOSFreeRTOS) : RTOSFreeRTOS :=
  {| status := status st; progStatus := progStatus st; uxCurrentNumberOfTasks
     := uxCurrentNumberOfTasks st; uxCurrentNumberOfTasksVal :=
     uxCurrentNumberOfTasksVal st; pxReadyTasksLists := pxReadyTasksLists st;
     pxReadyTasksListsItems := pxReadyTasksListsItems st; xDelayedTaskList1 :=
     xDelayedTaskList1 st; xDelayedTaskList2 := xDelayedTaskList2 st;
     xPendingReadyList := xPendingReadyList st; pxCurrentTCB := x;
     xSuspendedTaskList := xSuspendedTaskList st; xTasksWaitingTermination :=
     xTasksWaitingTermination st; ulTotalRunTime := ulTotalRunTime st;
     ulTotalRunTimeVal := ulTotalRunTimeVal st; stale := stale st;
     curThreadAddr := curThreadAddr st; foundThreads := foundThreads st;
     finalThreads := finalThreads st; timeInfo := timeInfo st; lastValidHtml
     := lastValidHtml st; console := console st; requests := requests st |}.

Definition set_xSuspendedTaskList (x : option RTOSVarHelper) (st : RTOSFreeRTOS) : RTOSFreeRTOS :=
  {| status := status st; progStatus := progStatus st; uxCurrentNumberOfTasks
     := uxCurrentNumberOfTasks st; uxCurrentNumberOfTasksVal :=
     uxCurrentNumberOfTasksVal st; pxReadyTasksLists := pxReadyTasksLists st;
     pxReadyTasksListsItems := pxReadyTasksListsItems st; xDelayedTaskList1 :=
     xDelayedTaskList1 st; xDelayedTaskList2 := xDelayedTaskList2 st;
     xPendingReadyList := xPendingReadyList st; pxCurrentTCB := pxCurrentTCB
     st; xSuspendedTaskList := x; xTasksWaitingTermination :=
     xTasksWaitingTermination st; ulTotalRunTime := ulTotalRunTime st;
     ulTotalRunTimeVal := ulTotalRunTimeVal st; stale := stale st;
     curThreadAddr := curThreadAddr st; foundThreads := foundThreads st;
     finalThreads := finalThreads st; timeInfo := timeInfo st; lastValidHtml
     := lastValidHtml st; console := console st; requests := requests st |}.

Definition set_xTasksWaitingTermination (x : option RTOSVarHelper) (st : RTOSFreeRTOS) : RTOSFreeRTOS :=
  {| status := status st; progStatus := progStatus st; uxCurrentNumberOfTasks
     := uxCurrentNumberOfTasks st; uxCurrentNumberOfTasksVal :=
     uxCurrentNumberOfTasksVal st; pxReadyTasksLists := pxReadyTasksLists st;
     pxReadyTasksListsItems := pxReadyTasksListsItems st; xDelayedTaskList1 :=
     xDelayedTaskList1 st; xDelayedTaskList2 := xDelayedTaskList2 st;
     xPendingReadyList := xPendingReadyList st; pxCurrentTCB := pxCurrentTCB
     st; xSuspendedTaskList := xSuspendedTaskList st; xTasksWaitingTermination
     := x; ulTotalRunTime := ulTotalRunTime st; ulTotalRunTimeVal :=
     ulTotalRunTimeVal st; stale := stale st; curThreadAddr := curThreadAddr
     st; foundThreads := foundThreads st; finalThreads := finalThreads st;
     timeInfo := timeInfo st; lastValidHtml := lastValidHtml st; console :=
     console st; requests := requests st |}.

Definition set_ulTotalRunTime (x : option RTOSVarHelper) (st : RTOSFreeRTOS) : RTOSFreeRTOS :=
  {| status := status st; progStatus := progStatus st; uxCurrentNumberOfTasks
     := uxCurrentNumberOfTasks st; uxCurrentNumberOfTasksVal :=
     uxCurrentNumberOfTasksVal st; pxReadyTasksLists := pxReadyTasksLists st;
     pxReadyTasksListsItems := pxReadyTasksListsItems st; xDelayedTaskList1 :=
     xDelayedTaskList1 st; xDelayedTaskList2 := xDelayedTaskList2 st;
     xPendingReadyList := xPendingReadyList st; pxCurrentTCB := pxCurrentTCB
     st; xSuspendedTaskList := xSuspendedTaskList st; xTasksWaitingTermination
     := xTasksWaitingTermination st; ulTotalRunTime := x; ulTotalRunTimeVal :=
     ulTotalRunTimeVal st; stale := stale st; curThreadAddr := curThreadAddr
     st; foundThreads := foundThreads st; finalThreads := finalThreads st;
     timeInfo := timeInfo st; lastValidHtml := lastValidHtml st; console :=
     console st; requests := requests st |}.

(** The nine kernel symbols in the order in which [tryDetect] resolves them,
    with the flag that marks a symbol as optional. *)
Definition kernel_symbols : list (string * bool) :=
  [ ("uxCurrentNumberOfTasks", false);
    ("pxReadyTasksLists", false);
    ("xDelayedTaskList1", false);
    ("xDelayedTaskList2", false);
    ("xPendingReadyList", false);
    ("pxCurrentTCB", false);
    ("xSuspendedTaskList", true);
    ("xTasksWaitingTermination", true);
    ("ulTotalRunTime", true) ].

Section Detection.

Variable env : Env.

(** [getVarIfEmpty(prev, fId, expr, opt)] of the base class, which is not
    defined in the file: its reply is a parameter that may depend on the
    requests issued before, on the handle held so far and on the flag. *)
Variable getVarIfEmptyReply :
  list Request -> option RTOSVarHelper -> Z -> string -> bool ->
  settled (option RTOSVarHelper).

Definition getVarIfEmptyOf (prev : option RTOSVarHelper) (fId : Z)
    (expr : string) (opt : bool) : Async (option RTOSVarHelper) :=
  await env (GetVarIfEmpty fId (VString expr))
    (fun past => getVarIfEmptyReply past prev fId expr opt).

(** The nine assignments of the [try] block. *)
Definition resolveAll (useFrameId : Z) : Async unit :=
  h <- gets uxCurrentNumberOfTasks ;;
  r <- getVarIfEmptyOf h useFrameId "uxCurrentNumberOfTasks" false ;;
  modify (set_uxCurrentNumberOfTasks r) ;;
  h <- gets pxReadyTasksLists ;;
  r <- getVarIfEmptyOf h useFrameId "pxReadyTasksLists" false ;;
  modify (set_pxReadyTasksLists r) ;;
  h <- gets xDelayedTaskList1 ;;
  r <- getVarIfEmptyOf h useFrameId "xDelayedTaskList1" false ;;
  modify (set_xDelayedTaskList1 r) ;;
  h <- gets xDelayedTaskList2 ;;
  r <- getVarIfEmptyOf h useFrameId "xDelayedTaskList2" false ;;
  modify (set_xDelayedTaskList2 r) ;;
  h <- gets xPendingReadyList ;;
  r <- getVarIfEmptyOf h useFrameId "xPendingReadyList" false ;;
  modify (set_xPendingReadyList r) ;;
  h <- gets pxCurrentTCB ;;
  r <- getVarIfEmptyOf h useFrameId "pxCurrentTCB" false ;;
  modify (set_pxCurrentTCB r) ;;
  h <- gets xSuspendedTaskList ;;
  r <- getVarIfEmptyOf h useFrameId "xSuspendedTaskList" true ;;
  modify (set_xSuspendedTaskList r) ;;
  h <- gets xTasksWaitingTermination ;;
  r <- getVarIfEmptyOf h useFrameId "xTasksWaitingTermination" true ;;
  modify (set_xTasksWaitingTermination r) ;;
  h <- gets ulTotalRunTime ;;
  r <- getVarIfEmptyOf h useFrameId "ulTotalRunTime" true ;;
  modify (set_ulTotalRunTime r) ;;
  modify (set_status StatusInitialized).

(** [tryDetect].  The method returns [this]; [failedWhy] of the base class
    is not among the fields above, so the value the [catch] assigns to it is
    what the computation returns ([None] when nothing is assigned). *)
Definition tryDetect (useFrameId : Z) : Async (option exn) :=
  modify (set_progStatus Stopped) ;;
  try_catch
    (s <- gets status ;;
     match s with
     | StatusNone => resolveAll useFrameId
     | _ => ret tt
     end ;;
     ret None)
    (fun e => modify (set_status StatusFailed) ;; ret (Some e)).

End Detection.

(** ** Vocabulary of the further properties *)

(** [isNullOrUndefined]; both [null] and [undefined] are [VUndefined]
    here. *)
Definition isNullOrUndefined (x : value) : bool :=
  match x with
  | VUndefined => true
  | _ => false
  end.

(** The name [getThreadInfo] gives a task, from the text the debugger shows
    for its name buffer. *)
Definition thName_of (tmpThName : string) : string :=
  match match_quoted tmpThName with
  | Some m => m
  | None => tmpThName
  end.

(** A computation whose every run relates the state before to the state
    after by [R], however it ends. *)
Definition preserved (R : RTOSFreeRTOS -> RTOSFreeRTOS -> Prop) {A : Type}
    (m : Async A) : Prop :=
  forall st, R st (snd (m st)).

(** The traversal only adds: found records, requests and console lines of
    before are still there, in place. *)
Definition grows (st st' : RTOSFreeRTOS) : Prop :=
  (exists l, foundThreads st' = (foundThreads st ++ l)%list) /\
  (exists q, requests st' = (q ++ requests st)%list) /\
  (exists c, console st' = (c ++ console st)%list).

(** What the traversal of one list never writes. *)
Definition same_session (st st' : RTOSFreeRTOS) : Prop :=
  status st' = status st /\
  uxCurrentNumberOfTasksVal st' = uxCurrentNumberOfTasksVal st /\
  uxCurrentNumberOfTasks st' = uxCurrentNumberOfTasks st /\
  pxReadyTasksLists st' = pxReadyTasksLists st /\
  xDelayedTaskList1 st' = xDelayedTaskList1 st /\
  xDelayedTaskList2 st' = xDelayedTaskList2 st /\
  xPendingReadyList st' = xPendingReadyList st /\
  pxCurrentTCB st' = pxCurrentTCB st /\
  xSuspendedTaskList st' = xSuspendedTaskList st /\
  xTasksWaitingTermination st' = xTasksWaitingTermination st /\
  ulTotalRunTime st' = ulTotalRunTime st /\
  timeInfo st' = timeInfo st.

(** A request that resolves the buckets of the ready list. *)
Definition is_bucket_query (r : Request) : bool :=
  match r with
  | GetVarChildren _ _ => true
  | GetVarIfEmpty _ _ => true
  | _ => false
  end.

Definition bucket_queries (st : RTOSFreeRTOS) : nat :=
  List.length (filter is_bucket_query (requests st)).

(** The ready-list buckets are resolved and no request for them is added. *)
Definition same_buckets (st st' : RTOSFreeRTOS) : Prop :=
  pxReadyTasksListsItems st' = pxReadyTasksListsItems st /\
  bucket_queries st' = bucket_queries st.

Definition is_upper (c : ascii) : bool :=
  let n := nat_of_ascii c in (Nat.leb 65 n && Nat.leb n 90)%bool.

(** No character of [s] is white space or an upper-case letter. *)
Fixpoint one_word (s : string) : bool :=
  match s with
  | EmptyString => true
  | String c r => negb (is_space c) && negb (is_upper c) && one_word r
  end.

Fixpoint no_char (x : ascii) (s : string) : bool :=
  match s with
  | EmptyString => true
  | String c r => negb (Ascii.eqb c x) && no_char x r
  end.

(** A target whose stack regions still hold the watermark in every byte. *)
Definition untouched : Target :=
  {| declared := Fulfilled (VString "2");
     numberOfItems := "2";
     nodes := nodes two_tasks;
     memory := Fulfilled (mkReadMemoryResponse (Some (filled 0 16)));
     totalRunTime := "1000";
     currentTCB := "0x20000100";
     resumedAfter := 1000 |}.

(** The stack fields of a TCB with a static bound sixteen bytes above the
    start of the stack. *)
Definition small_stack : object :=
  [("pxStack-val", VString "0x20001000");
   ("pxTopOfStack-val", VString "0x20001008");
   ("pxEndOfStack-val", VString "0x20001010")].

(** What a pass never writes: the outcome of detection and the page kept
    for a stale display. *)
Definition same_detection (st st' : RTOSFreeRTOS) : Prop :=
  status st' = status st /\
  uxCurrentNumberOfTasks st' = uxCurrentNumberOfTasks st /\
  pxReadyTasksLists st' = pxReadyTasksLists st /\
  xDelayedTaskList1 st' = xDelayedTaskList1 st /\
  xDelayedTaskList2 st' = xDelayedTaskList2 st /\
  xPendingReadyList st' = xPendingReadyList st /\
  pxCurrentTCB st' = pxCurrentTCB st /\
  xSuspendedTaskList st' = xSuspendedTaskList st /\
  xTasksWaitingTermination st' = xTasksWaitingTermination st /\
  ulTotalRunTime st' = ulTotalRunTime st /\
  lastValidHtml st' = lastValidHtml st.

(** The line a stale page starts with when the count of the failed pass was
    read and is plausible. *)
Definition stale_notice : string :=
  "<p>Unable to collect full RTOS information.  Following info from last query may be stale.</p>" ++ nl.

(** The request of [tryDetect] for one kernel symbol. *)
Definition detection_request (useFrameId : Z) (symbol : string * bool) : Request :=
  GetVarIfEmpty useFrameId (VString (fst symbol)).

(** The first [n] lookups of [symbols] were sent between [st] and [st'],
    in that order and nothing else. *)
Definition lookups_sent (useFrameId : Z) (symbols : list (string * bool))
    (n : nat) (st st' : RTOSFreeRTOS) : Prop :=
  requests st' =
  (rev (firstn n (map (detection_request useFrameId) symbols)) ++ requests st)%list.

(** What a chain of lookups ending in [status = 'initialized'] does: either
    every lookup is fulfilled and the status is set, or the chain stops at
    the first lookup that is not, with the status as it was. *)
Definition detects (useFrameId : Z) (symbols : list (string * bool))
    (m : Async unit) : Prop :=
  forall st,
    let r := m st in
    match fst r with
    | Fulfilled _ =>
        status (snd r) = StatusInitialized /\
        lookups_sent useFrameId symbols (List.length symbols) st (snd r)
    | _ =>
        status (snd r) = status st /\
        exists n, (n < List.length symbols)%nat /\
          lookups_sent useFrameId symbols (S n) st (snd r)
    end.

(** An object on which detection has not run yet. *)
Definition undetected : RTOSFreeRTOS := set_status StatusNone fresh.

(** A debugger in which one symbol cannot be resolved: the lookup of that
    symbol is rejected, every other lookup keeps the handle held so far or
    makes one. *)
Definition symbol_missing (missing : string) :
    list Request -> option RTOSVarHelper -> Z -> string -> bool ->
    settled (option RTOSVarHelper) :=
  fun _ prev _ expr _ =>
    if String.eqb expr missing then Rejected (Error "symbol not found")
    else match prev with
         | Some h => Fulfilled (Some h)
         | None => Fulfilled (Some (helper expr 0))
         end.

(** ** The reads of list links

    Logs hold the newest request first. *)

(** A read of a list link, [getVarChildrenObj(ref, name)], as the log of
    the session shows it: the reference it was sent for, the name it was
    sent under, and the [pxPrevious-ref] of its answer ([None] when the read
    was not fulfilled). *)
Record LinkRead : Type := mkLinkRead {
  link_ref : value;
  link_name : string;
  link_next : option value
}.

(** The link reads among the requests [new] sent after [base], oldest
    first, each with the answer the session gave at that point of the
    log. *)
Fixpoint link_reads (env : Env) (base new : list Request) : list LinkRead :=
  match new with
  | [] => []
  | r :: older =>
      (link_reads env base older ++
       match r with
       | GetVarChildrenObj ref nm =>
           [mkLinkRead ref nm
              match getVarChildrenObj env (older ++ base) ref nm with
              | Fulfilled o => Some (get o "pxPrevious-ref")
              | _ => None
              end]
       | _ => []
       end)%list
  end.

(** Every read of [l] is the read of a node ([pxPrevious]) sent for the
    reference that the read before it answered; [prev] is the answer before
    the first of them. *)
Fixpoint follows (prev : option value) (l : list LinkRead) : Prop :=
  match l with
  | [] => True
  | x :: r =>
      prev = Some (link_ref x) /\ link_name x = "pxPrevious" /\
      follows (link_next x) r
  end.

(** The reads of one traversal: the sentinel [listEndRef] first, then the
    nodes along the backward links. *)
Definition backward_chain (listEndRef : value) (l : list LinkRead) : Prop :=
  match l with
  | [] => False
  | s :: r =>
      link_ref s = listEndRef /\ link_name s = "xListEnd" /\
      follows (link_next s) r
  end.

(** Between [st] and [st'] requests were only added, and no link read was
    among them. *)
Definition quiet (env : Env) (st st' : RTOSFreeRTOS) : Prop :=
  exists new,
    requests st' = (new ++ requests st)%list /\
    link_reads env (requests st) new = [].

(** Whatever [m] sends is added to the log, and its link reads follow the
    backward links from [cur]. *)
Definition links_from (env : Env) (cur : value) {A : Type} (m : Async A) : Prop :=
  forall st,
    exists new,
      requests (snd (m st)) = (new ++ requests st)%list /\
      follows (Some cur) (link_reads env (requests st) new).

(** A list that declares three nodes and whose first node names a
    predecessor that cannot be read. *)
Definition broken_link : Target :=
  {| declared := Fulfilled (VString "3");
     numberOfItems := "3";
     nodes := [ task (Some "1") "0x20000100" 199 (Some "0x20002000") None ];
     memory := Fulfilled (mkReadMemoryResponse (Some (filled 8 8)));
     totalRunTime := "1000";
     currentTCB := "0x20000100";
     resumedAfter := 1000 |}.

(** The state in which the traversal of that target starts. *)
Definition broken_link_counted : RTOSFreeRTOS :=
  Eval vm_compute in
    counted (env_of broken_link) 0 count_handle (VString "3") fresh.

(** Every character of [s] is an ASCII character. *)
Fixpoint ascii_only (s : string) : bool :=
  match s with
  | EmptyString => true
  | String c r => Nat.ltb (nat_of_ascii c) 128 && ascii_only r
  end.

(** * Properties *)

(** ** The JavaScript primitives on examples *)

Example parseInt_pointer :
  parseInt "0x20001000 <ucHeap+16>" = Int 536875008.
Proof. reflexivity. Qed.

Example parseInt_signed_prefix : parseInt "  -42px" = Int (-42).
Proof. reflexivity. Qed.

Example parseInt_no_digit :
  parseInt "undefined" = NaN /\ parseInt EmptyString = NaN /\ parseInt "0x" = NaN.
Proof. repeat split. Qed.

Example num_toString_examples :
  num_toString (Int 4096) = "4096" /\ num_toString (Int 0) = "0" /\
  num_toString (Int (-7)) = "-7" /\ num_toString NaN = "NaN".
Proof. repeat split. Qed.

Example hexFormat8_examples :
  hexFormat8 (Int 536871168) = "0x20000100" /\ hexFormat8 (Int 0) = "0x00000000".
Proof. repeat split. Qed.

(** Binary64 and exact arithmetic part ways: 201 / 20000 * 100 is just
    below 1.005 and prints as 1.00. *)
Example toFixed2_examples :
  let pct a b :=
    toFixed2 (fun _ => "1e+21")
      (fmul (fdiv (to_double (Int a)) (to_double (Int b))) (to_double (Int 100))) in
  pct 250 1000 = "25.00" /\ pct 1 3 = "33.33" /\ pct 1 800 = "0.13" /\
  pct 201 20000 = "1.00" /\ pct 0 7 = "0.00" /\ pct (-1) 3 = "-33.33".
Proof. vm_compute. repeat split. Qed.

Example match_quoted_examples :
  match_quoted ("0x20000a10 " ++ quoted "IDLE") = Some "IDLE" /\
  match_quoted "0x20000a10 <ucHeap+100>" = None /\
  match_quoted (quoted "a*" ++ "b" ++ dq) = Some "b".
Proof. vm_compute. repeat split. Qed.

Example makeOneWord_example : makeOneWord "Stack  Beg" = "stack-beg".
Proof. reflexivity. Qed.

(** ** Objects *)

Lemma has_app (o p : object) (k : string) :
  has (o ++ p)%list k = has o k || has p k.
Proof.
  induction o as [| [k' v] o IH]; simpl; [reflexivity |].
  rewrite IH, orb_assoc; reflexivity.
Qed.

Lemma has_replace (o : object) (k k' : string) (v : value) :
  has (replace o k v) k' = has o k'.
Proof.
  induction o as [| [j w] o IH]; simpl; [reflexivity |].
  destruct (String.eqb j k); simpl; [reflexivity | rewrite IH; reflexivity].
Qed.

Lemma has_set (o : object) (k k' : string) (v : value) :
  has (set o k v) k' = has o k' || String.eqb k k'.
Proof.
  unfold set. destruct (has o k) eqn:E.
  - rewrite has_replace. destruct (String.eqb k k') eqn:K.
    + apply String.eqb_eq in K; subst; rewrite E; reflexivity.
    + rewrite orb_false_r; reflexivity.
  - rewrite has_app; simpl. rewrite orb_false_r; reflexivity.
Qed.

Lemma get_replace_same (o : object) (k : string) (v : value) :
  has o k = true -> get (replace o k v) k = v.
Proof.
  induction o as [| [j w] o IH]; simpl; [discriminate |].
  destruct (String.eqb j k) eqn:E; simpl; rewrite E; [reflexivity | exact IH].
Qed.

Lemma get_app_absent (o p : object) (k : string) :
  has o k = false -> get (o ++ p)%list k = get p k.
Proof.
  induction o as [| [j w] o IH]; simpl; [reflexivity |].
  destruct (String.eqb j k); simpl; [discriminate | exact IH].
Qed.

Lemma get_set_same (o : object) (k : string) (v : value) :
  get (set o k v) k = v.
Proof.
  unfold set. destruct (has o k) eqn:E.
  - apply get_replace_same; exact E.
  - rewrite get_app_absent by exact E. simpl. rewrite String.eqb_refl; reflexivity.
Qed.

Lemma get_absent (o : object) (k : string) :
  has o k = false -> get o k = VUndefined.
Proof.
  induction o as [| [j w] o IH]; simpl; [reflexivity |].
  destruct (String.eqb j k); simpl; [discriminate | exact IH].
Qed.

(** ** The stack analyser *)

Lemma byte_value_mark (b : byte) : byte_value b = 165 -> b = xa5.
Proof.
  unfold byte_value. intros H.
  assert (E : Byte.to_N b = 165%N) by lia.
  pose proof (Byte.of_to_N b) as R. rewrite E in R.
  vm_compute in R. congruence.
Qed.

Lemma nth_error_marks (used : list byte) (m j : nat) :
  (j < m)%nat ->
  nth_error (used ++ repeat xa5 m) (List.length used + j) = Some xa5.
Proof.
  intros H. rewrite nth_error_app2 by lia.
  replace (List.length used + j - List.length used)%nat with j by lia.
  rewrite nth_error_repeat by lia. reflexivity.
Qed.

(** The loop stops at the last byte that differs from the watermark. *)
Lemma scan_marks (used : list byte) (m j : nat) :
  (j <= m)%nat ->
  (forall u b, used = (u ++ [b])%list -> b <> xa5) ->
  scan (used ++ repeat xa5 m) 165 (List.length used + j) = List.length used.
Proof.
  intros Hj Hlast. induction j as [| j IH].
  - rewrite Nat.add_0_r.
    destruct used as [| b0 used0] using rev_ind; [reflexivity |].
    rewrite length_app; simpl. rewrite Nat.add_1_r. simpl.
    rewrite <- app_assoc. rewrite nth_error_app2 by lia.
    rewrite Nat.sub_diag. simpl.
    destruct (byte_value b0 =? 165) eqn:E; [| reflexivity].
    apply Z.eqb_eq, byte_value_mark in E.
    exfalso. exact (Hlast used0 b0 eq_refl E).
  - rewrite Nat.add_succ_r. simpl.
    rewrite nth_error_marks by lia.
    change (byte_value xa5 =? 165) with true. simpl.
    apply IH. lia.
Qed.

Lemma await_eq {A : Type} (env : Env) (r : Request)
    (reply : list Request -> settled A) (st : RTOSFreeRTOS) :
  await env r reply st =
  (reply (requests st),
   set_progStatus (progStatusAfter env (r :: requests st) (progStatus st))
     (set_requests (r :: requests st) st)).
Proof. reflexivity. Qed.

(** C7: when the TCB exposes a static end-of-stack bound, the analyser
    returns (as soon as the memory read settles, whatever its outcome)
    stack information with stackCurUsed = |stackStart - stackTopCurrent|,
    stackSize = |stackStart - stackEnd| and
    stackFree = stackSize - stackCurUsed, the three addresses being the
    parsed TCB fields. *)
Theorem stack_metrics_with_static_bound
    (env : Env) (thInfo : object) (waterMark : Z) (st : RTOSFreeRTOS) :
  truthy (get thInfo "pxEndOfStack-val") = true ->
  (forall ref n, readMemory env (requests st) ref n <> Pending) ->
  exists si st',
    getStackInfo env thInfo waterMark st = (Fulfilled si, st') /\
    stackStart si = parseIntV (get thInfo "pxStack-val") /\
    stackTopCurrent si = parseIntV (get thInfo "pxTopOfStack-val") /\
    stackEnd si = Some (parseIntV (get thInfo "pxEndOfStack-val")) /\
    stackCurUsed si = abs (sub (stackStart si) (stackTopCurrent si)) /\
    stackSize si = Some (abs (sub (stackStart si) (the (stackEnd si)))) /\
    stackFree si = Some (sub (the (stackSize si)) (stackCurUsed si)).
Proof.
  intros Hend Hsettles. unfold getStackInfo. rewrite Hend.
  unfold try_catch, bind. rewrite await_eq.
  match goal with
  | |- context [readMemory env (requests st) ?r ?n] =>
      pose proof (Hsettles r n) as Hs;
      destruct (readMemory env (requests st) r n) as [resp | e |]
  end.
  - destruct (data resp) as [buf |]; simpl;
      eexists; eexists; repeat split; reflexivity.
  - simpl. eexists; eexists; repeat split; reflexivity.
  - contradiction.
Qed.

(** The example of C7: start 0x2000, end 0x1000, top 0x1800. *)
Lemma stack_metrics_with_static_bound_witness :
  exists si st',
    getStackInfo (env_of two_tasks)
      [("pxStack-val", VString "0x2000"); ("pxTopOfStack-val", VString "0x1800");
       ("pxEndOfStack-val", VString "0x1000")] 165 fresh = (Fulfilled si, st') /\
    stackSize si = Some (Int 4096) /\
    stackCurUsed si = Int 2048 /\
    stackFree si = Some (Int 2048).
Proof.
  destruct (stack_metrics_with_static_bound (env_of two_tasks)
      [("pxStack-val", VString "0x2000"); ("pxTopOfStack-val", VString "0x1800");
       ("pxEndOfStack-val", VString "0x1000")] 165 fresh)
    as (si & st' & E & Hs & Ht & He & Hu & Hz & Hf).
  - reflexivity.
  - intros ref n; simpl; discriminate.
  - exists si, st'. split; [exact E |].
    rewrite Hf, Hz, Hu, He, Hs, Ht. repeat split; reflexivity.
Defined.

(** C8: when the region of a bounded stack is read successfully, the bytes
    are reversed unless stackStart is below stackEnd, and stackPeakUsed is
    the length of the region minus the number of bytes at its end that
    still equal the fill byte 0xA5 (the byte before them, if any, being
    different). *)
Theorem watermark_peak
    (env : Env) (thInfo : object) (st : RTOSFreeRTOS)
    (buf used : list byte) (k : nat) :
  truthy (get thInfo "pxEndOfStack-val") = true ->
  (forall ref n,
     readMemory env (requests st) ref n =
     Fulfilled (mkReadMemoryResponse (Some buf))) ->
  (if ltb (sub (parseIntV (get thInfo "pxStack-val"))
               (parseIntV (get thInfo "pxEndOfStack-val"))) (Int 0)
   then buf else rev buf) = (used ++ repeat xa5 k)%list ->
  (forall u b, used = (u ++ [b])%list -> b <> xa5) ->
  exists si st',
    getStackInfo env thInfo 165 st = (Fulfilled si, st') /\
    bytes si = Some (used ++ repeat xa5 k)%list /\
    stackPeakUsed si = Some (Int (Z.of_nat (List.length buf) - Z.of_nat k)).
Proof.
  intros Hend Hread Hregion Hlast.
  assert (Hlen : List.length buf = (List.length used + k)%nat).
  { transitivity (List.length (used ++ repeat xa5 k)%list).
    - rewrite <- Hregion.
      destruct (ltb _ _); [reflexivity | rewrite length_rev; reflexivity].
    - rewrite length_app, repeat_length; reflexivity. }
  unfold getStackInfo. rewrite Hend.
  unfold try_catch, bind. rewrite await_eq, Hread. cbn [data].
  destruct (ltb (sub (parseIntV (get thInfo "pxStack-val"))
                     (parseIntV (get thInfo "pxEndOfStack-val"))) (Int 0));
    cbn [Z.ltb Z.compare]; rewrite Hregion;
    (eexists; eexists; split; [reflexivity |]); cbn [bytes stackPeakUsed];
    (split; [reflexivity |]);
    rewrite length_app, repeat_length, scan_marks by (lia || assumption);
    do 2 f_equal; lia.
Qed.

(** The example of C8: a region of 4096 bytes whose last 100 bytes are 0xA5
    and whose byte before them is not. *)
Lemma watermark_peak_witness :
  exists si st',
    getStackInfo (env_of deep_stack)
      [("pxStack-val", VString "0x20001000");
       ("pxTopOfStack-val", VString "0x20001800");
       ("pxEndOfStack-val", VString "0x20002000")] 165 fresh = (Fulfilled si, st') /\
    List.length (filled 3996 100) = 4096%nat /\
    stackPeakUsed si = Some (Int 3996).
Proof.
  destruct (watermark_peak (env_of deep_stack)
      [("pxStack-val", VString "0x20001000");
       ("pxTopOfStack-val", VString "0x20001800");
       ("pxEndOfStack-val", VString "0x20002000")] fresh
      (filled 3996 100) (repeat x00 3996) 100)
    as (si & st' & E & _ & Hp).
  - reflexivity.
  - intros ref n; reflexivity.
  - reflexivity.
  - intros u b Hu Hb. subst b.
    assert (Hin : In xa5 (repeat x00 3996)).
    { rewrite Hu. apply in_or_app. right. left. reflexivity. }
    apply repeat_spec in Hin. discriminate.
  - exists si, st'. split; [exact E |]. split; [vm_compute; reflexivity |].
    rewrite Hp. vm_compute. reflexivity.
Defined.

(** ** The record of one task *)

(** The percentage the code writes into the Runtime field. *)
Lemma makeThread_has_Runtime
    (env : Env) (thInfo : object) (threadId : num) (thName state : string)
    (si : RTOSStackInfo) (cur total : num) :
  has (makeThread env thInfo threadId thName state si cur total) "Runtime" =
  truthy (get thInfo "ulRunTimeCounter-val") && num_truthy total.
Proof.
  unfold makeThread.
  destruct (truthy (get thInfo "ulRunTimeCounter-val") && num_truthy total).
  - rewrite has_set, String.eqb_refl, orb_true_r. reflexivity.
  - destruct (opt_truthy (stackSize si));
      destruct (truthy (get thInfo "uxBasePriority-val"));
      repeat rewrite has_set;
      cbn [get String.eqb Ascii.eqb Bool.eqb];
      destruct (is_string (get thInfo "uxTCBNumber-val"));
      reflexivity.
Qed.

(** C4, as the code has it: the Runtime field is present exactly when the
    per-task counter string is present and not empty and the total counter is
    a number other than zero; it is then the quotient of the two counters
    times 100 in binary64, printed with two decimals, padded with zeros to
    five characters and followed by a percent sign, and it is absent (not
    zero) otherwise.  A per-task counter of 250 with a total of 1000 gives
    25.00%, and a total of 0 gives no field. *)
Theorem runtime_field
    (env : Env) (thInfo : object) (threadId : num) (thName state : string)
    (si : RTOSStackInfo) (cur total : num) :
  let th := makeThread env thInfo threadId thName state si cur total in
  let counter := get thInfo "ulRunTimeCounter-val" in
  (has th "Runtime" = true <->
   truthy counter = true /\ exists z, total = Int z /\ z <> 0) /\
  (has th "Runtime" = true ->
   get th "Runtime" =
   VString (padStart0 5
              (toFixed2 (exponential env)
                 (fmul (fdiv (to_double (parseIntV counter)) (to_double total))
                       (to_double (Int 100)))) ++ "%")) /\
  (has th "Runtime" = false -> get th "Runtime" = VUndefined) /\
  get (makeThread env (set thInfo "ulRunTimeCounter-val" (VString "250"))
         threadId thName state si cur (Int 1000)) "Runtime" = VString "25.00%" /\
  has (makeThread env thInfo threadId thName state si cur (Int 0)) "Runtime" = false.
Proof.
  cbv zeta.
  split; [split | split; [| split; [| split]]].
  - rewrite makeThread_has_Runtime. intros H.
    apply andb_true_iff in H. destruct H as [Hc Ht]. split; [exact Hc |].
    destruct total as [| z]; [discriminate |].
    exists z. split; [reflexivity |]. simpl in Ht.
    intros ->. discriminate.
  - rewrite makeThread_has_Runtime. intros [H (z & -> & Hz)].
    rewrite H. simpl. apply Z.eqb_neq in Hz. rewrite Hz. reflexivity.
  - intros H. rewrite makeThread_has_Runtime in H.
    unfold makeThread. rewrite H. apply get_set_same.
  - apply get_absent.
  - unfold makeThread. rewrite get_set_same.
    cbn [truthy String.eqb negb num_truthy Z.eqb andb].
    rewrite get_set_same. reflexivity.
  - rewrite makeThread_has_Runtime. simpl. apply andb_false_r.
Qed.

(** C4 fails as stated: a per-task counter of zero is a non-empty string, so
    the field is present and reads 00.00%. *)
Lemma runtime_field_zero_counter :
  let thInfo := tcb_fields (Some "1") "3" "0x20001000" "0x20001800"
                  (Some "0x20002000") (Some "0") "0x20000100" in
  let th := makeThread (env_of two_tasks) thInfo (Int 536871168) "task" "BLOCKED"
              (mkStackInfo (Int 536875008) (Int 536877056) (Int 2048)
                 None None None None None)
              (Int 0) (Int 1000) in
  parseIntV (get thInfo "ulRunTimeCounter-val") = Int 0 /\
  has th "Runtime" = true /\
  get th "Runtime" = VString "00.00%".
Proof. vm_compute. repeat split; reflexivity. Qed.

(** ** A traversal started while the target runs *)

(** C5, as the code has it: a list traversal invoked while the target is not
    halted fails at once with Busy when its list handle is resolved (with a
    non-zero variable reference) and fewer records were found than the
    declared count; with an absent handle or the declared count reached it
    returns as a no-op instead, the guard for that standing first.  In both
    cases nothing is read and the object, with every record collected so
    far, is unchanged. *)
Theorem traversal_while_running
    (env : Env) (varRef : option RTOSVarHelper) (state : string)
    (frameId : Z) (st : RTOSFreeRTOS) :
  is_stopped (progStatus st) = false ->
  let live :=
    match varRef with
    | Some v =>
        truthy (varReference v) &&
        negb (geb (Int (Z.of_nat (List.length (foundThreads st))))
                  (uxCurrentNumberOfTasksVal st))
    | None => false
    end in
  getThreadInfo env varRef state frameId st =
  (if live then Rejected (Error "Busy") else Fulfilled tt, st).
Proof.
  intros Hrun. cbv zeta. unfold getThreadInfo, bind, gets.
  destruct varRef as [v |]; [| reflexivity].
  destruct (truthy (varReference v)); simpl; [| reflexivity].
  destruct (geb _ _); simpl; [reflexivity |].
  rewrite Hrun. reflexivity.
Qed.

Lemma traversal_while_running_witness :
  getThreadInfo (env_of two_tasks) (xDelayedTaskList1 running) "BLOCKED" 0 running =
  (Rejected (Error "Busy"), running).
Proof.
  exact (traversal_while_running (env_of two_tasks) (xDelayedTaskList1 running)
           "BLOCKED" 0 running eq_refl).
Defined.

(** C5 fails as stated: with an unresolved list handle the traversal of a
    running target is fulfilled, not rejected with Busy. *)
Lemma traversal_while_running_no_handle :
  is_stopped (progStatus running) = false /\
  xTasksWaitingTermination running = None /\
  getThreadInfo (env_of two_tasks) (xTasksWaitingTermination running)
    "TERMINATED" 0 running = (Fulfilled tt, running).
Proof. repeat split. Qed.

(** ** What the steps of a pass leave alone *)

Lemma same_snapshot_refl (st : RTOSFreeRTOS) : same_snapshot st st.
Proof. repeat split. Qed.

Lemma same_snapshot_trans (a b c : RTOSFreeRTOS) :
  same_snapshot a b -> same_snapshot b c -> same_snapshot a c.
Proof.
  unfold same_snapshot. intros (F1 & S1 & L1) (F2 & S2 & L2).
  repeat split; congruence.
Qed.

Lemma keeps_ret {A : Type} (a : A) : keeps (ret a).
Proof. intros st. apply same_snapshot_refl. Qed.

Lemma keeps_throw {A : Type} (e : exn) : keeps (@throw A e).
Proof. intros st. apply same_snapshot_refl. Qed.

Lemma keeps_never {A : Type} : keeps (@never A).
Proof. intros st. apply same_snapshot_refl. Qed.

Lemma keeps_gets {A : Type} (f : RTOSFreeRTOS -> A) : keeps (gets f).
Proof. intros st. apply same_snapshot_refl. Qed.

Lemma keeps_modify (f : RTOSFreeRTOS -> RTOSFreeRTOS) :
  (forall st, same_snapshot st (f st)) -> keeps (modify f).
Proof. intros H st. apply H. Qed.

Lemma keeps_bind {A B : Type} (m : Async A) (k : A -> Async B) :
  keeps m -> (forall a, keeps (k a)) -> keeps (bind m k).
Proof.
  intros Hm Hk st. unfold bind. specialize (Hm st).
  destruct (m st) as [[a | e |] st1]; simpl in *; try exact Hm.
  eapply same_snapshot_trans; [exact Hm | apply Hk].
Qed.

Lemma keeps_try_catch {A : Type} (m : Async A) (h : exn -> Async A) :
  keeps m -> (forall e, keeps (h e)) -> keeps (try_catch m h).
Proof.
  intros Hm Hh st. unfold try_catch. specialize (Hm st).
  destruct (m st) as [[a | e |] st1]; simpl in *; try exact Hm.
  eapply same_snapshot_trans; [exact Hm | apply Hh].
Qed.

Lemma keeps_await {A : Type} (env : Env) (r : Request)
    (reply : list Request -> settled A) : keeps (await env r reply).
Proof. intros st. repeat split. Qed.

Lemma keeps_console_log (text : string) (e : exn) : keeps (console_log text e).
Proof. intros st. repeat split. Qed.

Lemma keeps_mapM {A B : Type} (f : A -> Async B) (l : list A) :
  (forall a, keeps (f a)) -> keeps (mapM f l).
Proof.
  intros Hf. induction l as [| x l IH]; simpl.
  - apply keeps_ret.
  - apply keeps_bind; [apply Hf | intros y].
    apply keeps_bind; [exact IH | intros ys; apply keeps_ret].
Qed.

Lemma keeps_forM {A : Type} (l : list A) (f : A -> Async unit) :
  (forall a, keeps (f a)) -> keeps (forM l f).
Proof.
  intros Hf. induction l as [| x l IH]; simpl.
  - apply keeps_ret.
  - apply keeps_bind; [apply Hf | intros _; exact IH].
Qed.

(** Splits a computation along its binds, branches and handlers. *)
Ltac keeps_step :=
  match goal with
  | |- keeps (bind _ _) => apply keeps_bind; [| intros ?]
  | |- keeps (try_catch _ _) => apply keeps_try_catch; [| intros ?]
  | |- keeps (ret _) => apply keeps_ret
  | |- keeps (throw _) => apply keeps_throw
  | |- keeps never => apply keeps_never
  | |- keeps (gets _) => apply keeps_gets
  | |- keeps (await _ _ _) => apply keeps_await
  | |- keeps (console_log _ _) => apply keeps_console_log
  | |- keeps (modify _) => apply keeps_modify; intros ?; repeat split
  | |- keeps (if ?c then _ else _) => destruct c
  | |- keeps (match ?x with _ => _ end) => destruct x
  end.

Lemma keeps_getStackInfo (env : Env) (thInfo : object) (waterMark : Z) :
  keeps (getStackInfo env thInfo waterMark).
Proof. unfold getStackInfo. repeat keeps_step. Qed.

Lemma keeps_walk (env : Env) (n : nat) (curRef : value) (state : string)
    (frameId : Z) : keeps (walk env n curRef state frameId).
Proof.
  revert curRef. induction n as [| n IH]; intros curRef; simpl.
  - apply keeps_ret.
  - repeat first [apply IH | apply keeps_getStackInfo | keeps_step].
Qed.

Lemma keeps_getThreadInfo (env : Env) (varRef : option RTOSVarHelper)
    (state : string) (frameId : Z) :
  keeps (getThreadInfo env varRef state frameId).
Proof.
  unfold getThreadInfo. repeat first [apply keeps_walk | keeps_step].
Qed.

Lemma keeps_collect (env : Env) (frameId : Z) : keeps (collect env frameId).
Proof.
  unfold collect.
  repeat first [ apply keeps_getThreadInfo
               | apply keeps_forM; intros ?
               | apply keeps_mapM; intros ?
               | keeps_step ].
Qed.

(** ** The walk over a task list *)

Lemma costs_ret {A : Type} (a : A) : costs (ret a) 0 0.
Proof. intros st. simpl. split; [lia | intros _ _; split; lia]. Qed.

Lemma costs_gets {A : Type} (f : RTOSFreeRTOS -> A) : costs (gets f) 0 0.
Proof. intros st. simpl. split; [lia | intros _ _; split; lia]. Qed.

Lemma costs_throw {A : Type} (e : exn) (v f : nat) : costs (@throw A e) v f.
Proof. intros st. simpl. split; [lia | intros a H; discriminate]. Qed.

Lemma costs_never {A : Type} (v f : nat) : costs (@never A) v f.
Proof. intros st. simpl. split; [lia | intros a H; discriminate]. Qed.

Lemma costs_bind {A B : Type} (m : Async A) (k : A -> Async B)
    (v1 f1 v2 f2 v f : nat) :
  costs m v1 f1 -> (forall a, costs (k a) v2 f2) ->
  (v1 + v2 = v)%nat -> (f1 + f2 = f)%nat ->
  costs (bind m k) v f.
Proof.
  intros Hm Hk <- <- st. unfold bind.
  destruct (Hm st) as [Hle Heq].
  destruct (m st) as [[a | e |] st1]; simpl in *.
  - destruct (Heq a eq_refl) as [Hv Hf].
    destruct (Hk a st1) as [Hle2 Heq2]. split; [lia |].
    intros b Hb. destruct (Heq2 b Hb). split; lia.
  - split; [lia | intros b Hb; discriminate].
  - split; [lia | intros b Hb; discriminate].
Qed.

(** A handler that reads and collects nothing, around a body that does
    neither. *)
Lemma costs_try_catch_free {A : Type} (m : Async A) (h : exn -> Async A) :
  (forall st, node_visits (snd (m st)) = node_visits st /\
              found_count (snd (m st)) = found_count st) ->
  (forall e, costs (h e) 0 0) ->
  costs (try_catch m h) 0 0.
Proof.
  intros Hm Hh st. unfold try_catch. destruct (Hm st) as [Hv Hf].
  destruct (m st) as [[a | e |] st1]; simpl in *.
  - split; [lia | intros _ _; split; lia].
  - destruct (Hh e st1) as [Hle Heq]. split; [lia |].
    intros b Hb. destruct (Heq b Hb). split; lia.
  - split; [lia | intros b Hb; discriminate].
Qed.

(** A handler that never settles, around any body. *)
Lemma costs_try_catch_never {A : Type} (m : Async A) (h : exn -> Async A)
    (v f : nat) :
  costs m v f ->
  (forall e st, fst (h e st) = Pending /\
                node_visits (snd (h e st)) = node_visits st) ->
  costs (try_catch m h) v f.
Proof.
  intros Hm Hh st. unfold try_catch. destruct (Hm st) as [Hle Heq].
  destruct (m st) as [[a | e |] st1]; simpl in *.
  - split; [exact Hle | exact Heq].
  - destruct (Hh e st1) as [Hp Hv]. split; [lia |].
    intros b Hb. rewrite Hp in Hb. discriminate.
  - split; [lia | intros b Hb; discriminate].
Qed.

Lemma costs_await {A : Type} (env : Env) (r : Request)
    (reply : list Request -> settled A) :
  costs (await env r reply) (if is_node_visit r then 1 else 0) 0.
Proof.
  intros st. rewrite await_eq. unfold node_visits, found_count. simpl.
  destruct (is_node_visit r); simpl; split; try lia; intros _ _; split; lia.
Qed.

Lemma costs_console_log (text : string) (e : exn) :
  costs (console_log text e) 0 0.
Proof.
  intros st. unfold console_log, modify, node_visits, found_count. simpl.
  split; [lia | intros _ _; split; lia].
Qed.

Lemma costs_push (th : FreeRTOSThreadInfo) :
  costs (modify (fun st => set_foundThreads (foundThreads st ++ [th])%list st)) 0 1.
Proof.
  intros st. unfold modify, node_visits, found_count. simpl.
  split; [lia |]. intros _ _. rewrite length_app. simpl. split; lia.
Qed.

Lemma getStackInfo_reads_no_node (env : Env) (thInfo : object) (waterMark : Z) :
  costs (getStackInfo env thInfo waterMark) 0 0.
Proof.
  unfold getStackInfo. destruct (truthy (get thInfo "pxEndOfStack-val")).
  - apply costs_try_catch_free.
    + intros st. unfold bind. rewrite await_eq.
      destruct (readMemory env _ _ _) as [resp | e |]; simpl;
        [destruct (data resp) | |]; split; reflexivity.
    + intros e. eapply costs_bind;
        [apply costs_console_log | intros _; apply costs_ret | |]; reflexivity.
  - eapply costs_bind;
      [apply (costs_await env (ReadMemory _ _)) | intros _; apply costs_ret | |];
      reflexivity.
Qed.

(** The loop reads one node per iteration and nothing brings it back for
    more: [n] iterations read at most [n] nodes, and exactly [n] (adding [n]
    records) when the loop runs to its end. *)
Lemma walk_costs (env : Env) (n : nat) (curRef : value) (state : string)
    (frameId : Z) :
  costs (walk env n curRef state frameId) n n.
Proof.
  revert curRef. induction n as [| n IH]; intros curRef; simpl.
  - apply costs_ret.
  - eapply costs_bind;
      [apply (costs_await env (GetVarChildrenObj curRef "pxPrevious")) | intros element | |].
    2: change (if is_node_visit (GetVarChildrenObj curRef "pxPrevious") then 1 else 0)%nat
         with 1%nat; reflexivity.
    2: reflexivity.
    eapply costs_bind;
      [apply (costs_await env (GetExprValChildrenObj _ _)) | intros thInfo | |];
      [| simpl; reflexivity | reflexivity].
    eapply costs_bind;
      [apply (costs_await env (GetExprVal _ _)) | intros tmpThName | |];
      [| simpl; reflexivity | reflexivity].
    eapply costs_bind;
      [apply getStackInfo_reads_no_node | intros stackInfo | |];
      [| simpl; reflexivity | reflexivity].
    eapply costs_bind; [apply costs_gets | intros curAddr | |];
      [| simpl; reflexivity | reflexivity].
    eapply costs_bind; [apply costs_gets | intros ulTotal | |];
      [| simpl; reflexivity | reflexivity].
    eapply costs_bind; [apply costs_push | intros _; apply IH | |];
      reflexivity.
Qed.

Lemma answers_ret {A : Type} (a : A) : answers (ret a).
Proof. intros st. exists a. reflexivity. Qed.

Lemma answers_gets {A : Type} (f : RTOSFreeRTOS -> A) : answers (gets f).
Proof. intros st. eexists. reflexivity. Qed.

Lemma answers_modify (f : RTOSFreeRTOS -> RTOSFreeRTOS) : answers (modify f).
Proof. intros st. exists tt. reflexivity. Qed.

Lemma answers_bind {A B : Type} (m : Async A) (k : A -> Async B) :
  answers m -> (forall a, answers (k a)) -> answers (bind m k).
Proof.
  intros Hm Hk st. unfold bind. destruct (Hm st) as [a Ha].
  destruct (m st) as [r st1]. simpl in Ha. subst r. apply Hk.
Qed.

Lemma answers_await {A : Type} (env : Env) (r : Request)
    (reply : list Request -> settled A) :
  (forall past, exists a, reply past = Fulfilled a) ->
  answers (await env r reply).
Proof. intros H st. rewrite await_eq. simpl. apply H. Qed.

Section Responsive.

Variable env : Env.
Hypothesis Hresp : responsive env.

Lemma getStackInfo_answers (thInfo : object) (waterMark : Z) :
  answers (getStackInfo env thInfo waterMark).
Proof.
  destruct Hresp as (_ & _ & _ & Hmem).
  unfold getStackInfo. destruct (truthy (get thInfo "pxEndOfStack-val")).
  - intros st. unfold try_catch, bind. rewrite await_eq.
    match goal with
    | |- context [readMemory env ?p ?r ?n] => destruct (Hmem p r n) as [m ->]
    end.
    destruct (data m); simpl; eexists; reflexivity.
  - apply answers_bind; [| intros _; apply answers_ret].
    apply answers_await. intros past. apply Hmem.
Qed.

Lemma walk_answers (n : nat) (curRef : value) (state : string) (frameId : Z) :
  answers (walk env n curRef state frameId).
Proof.
  destruct Hresp as (Hnode & Htcb & Hname & _).
  revert curRef. induction n as [| n IH]; intros curRef; simpl.
  - apply answers_ret.
  - apply answers_bind; [apply answers_await; intros; apply Hnode | intros element].
    apply answers_bind; [apply answers_await; intros; apply Htcb | intros thInfo].
    apply answers_bind; [apply answers_await; intros; apply Hname | intros nm].
    apply answers_bind; [apply getStackInfo_answers | intros si].
    apply answers_bind; [apply answers_gets | intros cur].
    apply answers_bind; [apply answers_gets | intros total].
    apply answers_bind; [apply answers_modify | intros _; apply IH].
Qed.

End Responsive.

(** What [getThreadInfo] does once its guards are passed and the list header
    is read. *)
Lemma getThreadInfo_enters
    (env : Env) (v : RTOSVarHelper) (state : string) (frameId : Z)
    (st : RTOSFreeRTOS) (obj : object) (n : Z) :
  truthy (varReference v) = true ->
  geb (Int (Z.of_nat (List.length (foundThreads st))))
      (uxCurrentNumberOfTasksVal st) = false ->
  progStatus st = Stopped ->
  varChildrenObj env (requests st) v frameId = Fulfilled obj ->
  parseIntV (get obj "uxNumberOfItems-val") = Int n ->
  0 < n ->
  truthy (get obj "xListEnd-ref") = true ->
  getThreadInfo env (Some v) state frameId st =
  try_catch
    (bind (await env (GetVarChildrenObj (get obj "xListEnd-ref") "xListEnd")
             (fun past => getVarChildrenObj env past (get obj "xListEnd-ref") "xListEnd"))
       (fun listEndObj =>
          walk env (Z.to_nat n) (get listEndObj "pxPrevious-ref") state frameId))
    (fun e => bind (console_log "FreeRTOS read thread info error" e)
                (fun _ => never))
    (snd (await env (VarChildrenObj v frameId)
            (fun past => varChildrenObj env past v frameId) st)).
Proof.
  intros Href Hcap Hstop Hobj Hn Hpos Hend.
  unfold getThreadInfo. unfold bind at 1 2. unfold gets at 1 2.
  rewrite Href, Hcap. cbn [negb orb].
  unfold bind at 1. unfold gets at 1. rewrite Hstop. cbn [is_stopped negb].
  unfold bind at 1. rewrite await_eq, Hobj, Hn, Hend.
  replace (leb (Int n) (Int 0)) with false
    by (symmetry; apply Z.leb_gt; exact Hpos).
  reflexivity.
Qed.

(** ** Sorting *)

Lemma insert_perm (cmp : object -> object -> num) (x : object) (l : list object) :
  Permutation (x :: l) (insert cmp x l).
Proof.
  induction l as [| y l IH]; simpl; [reflexivity |].
  destruct (after cmp x y); [| reflexivity].
  rewrite perm_swap. apply perm_skip. exact IH.
Qed.

Lemma sort_perm (cmp : object -> object -> num) (l : list object) :
  Permutation l (sort cmp l).
Proof.
  induction l as [| x l IH]; simpl; [reflexivity |].
  rewrite <- insert_perm. apply perm_skip. exact IH.
Qed.

Section SortByKey.

Variable key : object -> num.

Let cmp (a b : object) : num := sub (key a) (key b).
Let le (a b : object) : Prop := leb (key a) (key b) = true.
Let numeric (a : object) : Prop := exists z, key a = Int z.

Lemma key_le_trans (a b c : object) : le a b -> le b c -> le a c.
Proof.
  unfold le. destruct (key a), (key b), (key c); simpl; try discriminate.
  intros H1 H2. apply Z.leb_le in H1, H2. apply Z.leb_le. lia.
Qed.

Lemma after_false (a b : object) :
  numeric a -> numeric b -> after cmp a b = false -> le a b.
Proof.
  intros [x Hx] [y Hy]. unfold after, cmp, le, gtb. rewrite Hx, Hy. simpl.
  intros H. apply Z.ltb_ge in H. apply Z.leb_le. lia.
Qed.

Lemma after_true (a b : object) :
  numeric a -> numeric b -> after cmp a b = true -> le b a.
Proof.
  intros [x Hx] [y Hy]. unfold after, cmp, le, gtb. rewrite Hx, Hy. simpl.
  intros H. apply Z.ltb_lt in H. apply Z.leb_le. lia.
Qed.

Lemma insert_sorted (x : object) (l : list object) :
  numeric x -> Forall numeric l ->
  StronglySorted le l -> StronglySorted le (insert cmp x l).
Proof.
  intros Hx Hl Hs. induction Hs as [| y l Hs IH Hy]; simpl.
  - constructor; constructor.
  - inversion Hl as [| ? ? Hny Hnl]; subst.
    destruct (after cmp x y) eqn:E.
    + constructor; [apply IH; exact Hnl |].
      apply (Permutation_Forall (insert_perm cmp x l)).
      constructor; [apply after_true; assumption | exact Hy].
    + assert (Hxy : le x y) by (apply after_false; assumption).
      constructor; [constructor; assumption |].
      constructor; [exact Hxy |].
      eapply Forall_impl; [| exact Hy].
      intros c Hc. eapply key_le_trans; eassumption.
Qed.

Lemma sort_sorted (l : list object) :
  Forall numeric l -> StronglySorted le (sort cmp l).
Proof.
  induction l as [| x l IH]; intros H; simpl; [constructor |].
  inversion H as [| ? ? Hx Hl]; subst.
  apply insert_sorted; [exact Hx | | apply IH; exact Hl].
  apply (Permutation_Forall (sort_perm cmp l)). exact Hl.
Qed.

End SortByKey.

Lemma sort_byID_ascending (l : list FreeRTOSThreadInfo) :
  Forall carries_ID l -> ascending id_key (sort byID l).
Proof.
  intros H. apply (sort_sorted id_key).
  eapply Forall_impl; [| exact H].
  intros th (s & z & Hs & Hz). exists z. unfold id_key, parseIntV.
  rewrite Hs. exact Hz.
Qed.

Lemma sort_byAddress_ascending (l : list FreeRTOSThreadInfo) :
  Forall numeric_address l -> ascending address_key (sort byAddress l).
Proof. intros H. apply (sort_sorted address_key). exact H. Qed.

(** A string that parses to a number is not empty. *)
Lemma carries_ID_truthy (th : FreeRTOSThreadInfo) :
  carries_ID th -> truthy (get th "ID") = true.
Proof.
  intros (s & z & Hs & Hz). rewrite Hs. destruct s; [discriminate | reflexivity].
Qed.

(** ** The pass *)

Lemma refresh_unfold (env : Env) (frameId : Z) (st : RTOSFreeRTOS)
    (v : RTOSVarHelper) :
  progStatus st = Stopped ->
  uxCurrentNumberOfTasks st = Some v ->
  refresh env frameId st =
  match getValue env (requests st) v frameId with
  | Fulfilled str =>
      try_catch (onCount env frameId str) refresh_failed (asked env frameId v st)
  | Rejected e => refresh_failed e (asked env frameId v st)
  | Pending => (Pending, asked env frameId v st)
  end.
Proof.
  intros Hstop Hv. unfold refresh, bind, gets, modify. rewrite Hstop. simpl.
  rewrite Hv. unfold then_, asked, begin_pass. rewrite !await_eq. simpl.
  destruct (getValue env (requests st) v frameId); reflexivity.
Qed.

Lemma asked_snapshot (env : Env) (frameId : Z) (v : RTOSVarHelper)
    (st : RTOSFreeRTOS) :
  finalThreads (asked env frameId v st) = finalThreads st /\
  lastValidHtml (asked env frameId v st) = lastValidHtml st /\
  stale (asked env frameId v st) = true /\
  foundThreads (asked env frameId v st) = [].
Proof. repeat split. Qed.

Lemma publish_empty (st : RTOSFreeRTOS) :
  foundThreads st = [] -> publish st = (Rejected (undefined_member "ID"), st).
Proof. intros H. unfold publish, bind, gets. rewrite H. reflexivity. Qed.

Lemma publish_found (st : RTOSFreeRTOS) (first : FreeRTOSThreadInfo)
    (rest : list FreeRTOSThreadInfo) :
  foundThreads st = first :: rest ->
  let sorted :=
    if truthy (get first "ID") then sort byID (first :: rest)
    else sort byAddress (first :: rest) in
  publish st = (Fulfilled tt, set_finalThreads sorted (set_foundThreads sorted st)).
Proof. intros H. unfold publish, bind, gets, modify. rewrite H. reflexivity. Qed.

(** The body of the [try] with a plausible count, split at the end of the
    traversal. *)
Lemma onCount_plausible (env : Env) (frameId : Z) (str : value)
    (s0 : RTOSFreeRTOS) :
  plausible (count_of str) = true ->
  onCount env frameId str s0 =
  match collect env frameId (set_uxCurrentNumberOfTasksVal (count_of str) s0) with
  | (Fulfilled _, s1) =>
      match publish s1 with
      | (Fulfilled _, s2) =>
          (Fulfilled tt,
           set_timeInfo
             (timeInfo s2 ++ " in " ++ num_toString (deltaMs env (requests s2)) ++ " ms")
             (set_stale false s2))
      | (Rejected e, s2) => (Rejected e, s2)
      | (Pending, s2) => (Pending, s2)
      end
  | (Rejected e, s1) => (Rejected e, s1)
  | (Pending, s1) => (Pending, s1)
  end.
Proof.
  intros Hp. unfold onCount. unfold bind at 1 2. unfold modify at 1. unfold gets at 1.
  cbn [uxCurrentNumberOfTasksVal set_uxCurrentNumberOfTasksVal].
  fold (count_of str). unfold plausible in Hp. rewrite Hp.
  unfold bind.
  destruct (collect env frameId _) as [[[] | e |] s1]; reflexivity.
Qed.

Lemma onCount_implausible (env : Env) (frameId : Z) (str : value)
    (s0 : RTOSFreeRTOS) :
  plausible (count_of str) = false ->
  onCount env frameId str s0 =
  (Fulfilled tt,
   let s2 := set_finalThreads [] (set_uxCurrentNumberOfTasksVal (count_of str) s0) in
   set_timeInfo
     (timeInfo s2 ++ " in " ++ num_toString (deltaMs env (requests s2)) ++ " ms")
     (set_stale false s2)).
Proof.
  intros Hp. unfold onCount. unfold bind at 1 2. unfold modify at 1. unfold gets at 1.
  cbn [uxCurrentNumberOfTasksVal set_uxCurrentNumberOfTasksVal].
  fold (count_of str). unfold plausible in Hp. rewrite Hp. reflexivity.
Qed.

Lemma counted_snapshot (env : Env) (frameId : Z) (v : RTOSVarHelper)
    (str : value) (st s1 : RTOSFreeRTOS) (r : settled unit) :
  collect env frameId (counted env frameId v str st) = (r, s1) ->
  finalThreads s1 = finalThreads st /\
  lastValidHtml s1 = lastValidHtml st /\
  stale s1 = true.
Proof.
  intros H. pose proof (keeps_collect env frameId (counted env frameId v str st)) as K.
  rewrite H in K. destruct K as (F & S & L). simpl in F, S, L.
  repeat split; assumption.
Qed.

(** C10: when the declared count is plausible (1 to 1024) and the traversal
    of all the lists ends without a single record, the pass throws where it
    reads the ID of the first found record; the exception is caught and
    logged, the pass is fulfilled, and the published records, the last
    rendered page and the stale mark (set) are those of a failed pass: no
    empty snapshot is published. *)
Theorem empty_traversal_is_not_published
    (env : Env) (frameId : Z) (st : RTOSFreeRTOS) (v : RTOSVarHelper)
    (str : value) (s1 : RTOSFreeRTOS) :
  progStatus st = Stopped ->
  uxCurrentNumberOfTasks st = Some v ->
  getValue env (requests st) v frameId = Fulfilled str ->
  plausible (count_of str) = true ->
  collect env frameId (counted env frameId v str st) = (Fulfilled tt, s1) ->
  foundThreads s1 = [] ->
  exists st',
    refresh env frameId st = (Fulfilled tt, st') /\
    onCount env frameId str (asked env frameId v st) =
      (Rejected (undefined_member "ID"), s1) /\
    console st' =
      mkLog "FreeRTOS.refresh() failed: " (undefined_member "ID") :: console s1 /\
    finalThreads st' = finalThreads st /\
    lastValidHtml st' = lastValidHtml st /\
    stale st' = true.
Proof.
  intros Hstop Hv Hget Hp Hcollect Hempty.
  destruct (counted_snapshot env frameId v str st s1 _ Hcollect) as (F & L & S).
  assert (Hbody : onCount env frameId str (asked env frameId v st) =
                  (Rejected (undefined_member "ID"), s1)).
  { rewrite onCount_plausible by exact Hp.
    change (set_uxCurrentNumberOfTasksVal (count_of str) (asked env frameId v st))
      with (counted env frameId v str st).
    rewrite Hcollect, (publish_empty s1 Hempty). reflexivity. }
  rewrite (refresh_unfold env frameId st v Hstop Hv), Hget.
  unfold try_catch. rewrite Hbody.
  eexists. split; [reflexivity |]. split; [reflexivity |].
  simpl. repeat split; assumption.
Qed.

(** C2, as the code has it: a completed pass that collected at least one
    record publishes a permutation of the collected records; it is in
    ascending order of the numeric ID when all records carry one, and in
    ascending order of the TCB address when the first record collected has
    no ID (the addresses being numeric).  The key is chosen by the first
    collected record alone. *)
Theorem published_order
    (env : Env) (frameId : Z) (st : RTOSFreeRTOS) (v : RTOSVarHelper)
    (str : value) (s1 : RTOSFreeRTOS)
    (first : FreeRTOSThreadInfo) (rest : list FreeRTOSThreadInfo) :
  progStatus st = Stopped ->
  uxCurrentNumberOfTasks st = Some v ->
  getValue env (requests st) v frameId = Fulfilled str ->
  plausible (count_of str) = true ->
  collect env frameId (counted env frameId v str st) = (Fulfilled tt, s1) ->
  foundThreads s1 = first :: rest ->
  exists st',
    refresh env frameId st = (Fulfilled tt, st') /\
    stale st' = false /\
    Permutation (first :: rest) (finalThreads st') /\
    (Forall carries_ID (first :: rest) -> ascending id_key (finalThreads st')) /\
    (truthy (get first "ID") = false ->
     Forall numeric_address (first :: rest) ->
     ascending address_key (finalThreads st')).
Proof.
  intros Hstop Hv Hget Hp Hcollect Hfound.
  rewrite (refresh_unfold env frameId st v Hstop Hv), Hget.
  unfold try_catch. rewrite onCount_plausible by exact Hp.
  change (set_uxCurrentNumberOfTasksVal (count_of str) (asked env frameId v st))
    with (counted env frameId v str st).
  rewrite Hcollect, (publish_found s1 first rest Hfound). cbv zeta.
  eexists. split; [reflexivity |]. split; [reflexivity |].
  cbn [finalThreads set_timeInfo set_stale set_finalThreads].
  split; [| split].
  - destruct (truthy (get first "ID")); apply sort_perm.
  - intros Hall.
    rewrite (carries_ID_truthy first) by (inversion Hall; assumption).
    apply sort_byID_ascending. exact Hall.
  - intros Hno Hnum. rewrite Hno. apply sort_byAddress_ascending. exact Hnum.
Qed.


Lemma empty_traversal_is_not_published_witness :
  exists st',
    refresh (env_of no_tasks) 0 fresh = (Fulfilled tt, st') /\
    stale st' = true /\
    finalThreads st' = finalThreads fresh /\
    hd_error (console st') =
      Some (mkLog "FreeRTOS.refresh() failed: " (undefined_member "ID")).
Proof.
  destruct (empty_traversal_is_not_published (env_of no_tasks) 0 fresh
              count_handle (VString "2") no_tasks_collected)
    as (st' & R & _ & C & F & _ & S);
    try (vm_compute; reflexivity).
  exists st'. repeat split; try assumption. rewrite C. reflexivity.
Defined.

Lemma published_order_witness :
  exists st',
    refresh (env_of two_tasks) 0 fresh = (Fulfilled tt, st') /\
    stale st' = false /\
    ascending id_key (finalThreads st').
Proof.
  destruct (published_order (env_of two_tasks) 0 fresh
              count_handle (VString "2") two_tasks_collected
              (hd [] (foundThreads two_tasks_collected))
              (tl (foundThreads two_tasks_collected)))
    as (st' & R & S & _ & Hid & _); try (vm_compute; reflexivity).
  exists st'. split; [exact R |]. split; [exact S |].
  apply Hid. repeat constructor; eexists; eexists; split; vm_compute; reflexivity.
Defined.

(** C2 fails as stated: of two collected records the first carries an ID
    and the second does not; the pass sorts by ID, and the published records
    are in descending order of their addresses. *)
Lemma published_order_mixed_numbering :
  exists st',
    refresh (env_of mixed_numbering) 0 fresh = (Fulfilled tt, st') /\
    stale st' = false /\
    map (fun th => has th "ID") (finalThreads st') = [true; false] /\
    map address_key (finalThreads st') = [Int 536871424; Int 536871168] /\
    (ascending address_key (finalThreads st') -> False).
Proof.
  eexists. split; [vm_compute; reflexivity |].
  split; [reflexivity |]. split; [reflexivity |]. split; [reflexivity |].
  intros H. inversion H as [| a l _ Hall]; subst.
  inversion Hall as [| b l' Hab _]; subst.
  vm_compute in Hab. discriminate.
Qed.

(** How the body of the [try] can end. *)
Lemma onCount_outcome (env : Env) (frameId : Z) (str : value)
    (s0 : RTOSFreeRTOS) :
  foundThreads s0 = [] ->
  let r := onCount env frameId str s0 in
  (fst r = Fulfilled tt /\
   stale (snd r) = false /\
   finalThreads (snd r) = foundThreads (snd r) /\
   exists found,
     finalThreads (snd r) = sort byID found \/
     finalThreads (snd r) = sort byAddress found) \/
  (fst r <> Fulfilled tt /\ same_snapshot s0 (snd r)).
Proof.
  intros Hnone. cbv zeta. destruct (plausible (count_of str)) eqn:P.
  - rewrite onCount_plausible by exact P.
    pose proof (keeps_collect env frameId
                  (set_uxCurrentNumberOfTasksVal (count_of str) s0)) as K.
    destruct (collect env frameId _) as [[[] | e |] s1]; simpl in K.
    + destruct (foundThreads s1) as [| first rest] eqn:F.
      * rewrite (publish_empty s1 F). right. split; [discriminate | exact K].
      * rewrite (publish_found s1 first rest F). left. cbv zeta.
        split; [reflexivity |]. split; [reflexivity |]. split; [reflexivity |].
        exists (first :: rest). simpl.
        destruct (truthy (get first "ID")); [left | right]; reflexivity.
    + right. split; [discriminate | exact K].
    + right. split; [discriminate | exact K].
  - rewrite onCount_implausible by exact P. left. simpl.
    split; [reflexivity |]. split; [reflexivity |].
    split; [symmetry; exact Hnone |]. exists []. left. reflexivity.
Qed.



(** ** Two defects *)

(** The page for a pass that left no record while the declared count says
    otherwise cannot be rendered. *)
Lemma getHTML_throws_without_records (st : RTOSFreeRTOS) :
  status st = StatusInitialized ->
  stale st = false ->
  finalThreads st = [] ->
  num_eqb (uxCurrentNumberOfTasksVal st) (Int MAX_SAFE_INTEGER) = false ->
  num_eqb (Int 0) (uxCurrentNumberOfTasksVal st) = false ->
  getHTML st =
  (Thrown (TypeError "Cannot convert undefined or null to object"), st).
Proof.
  intros Hs Hst Hf Hm Hz. unfold getHTML, render. rewrite Hs, Hst, Hf.
  destruct (uxCurrentNumberOfTasksVal st) as [| z]; simpl in *.
  - reflexivity.
  - rewrite Hm, Hz. reflexivity.
Qed.

(** C1 (the code against the claim): with a declared count of 2000 the pass
    is fulfilled and publishes no record with the stale mark cleared, and
    rendering that snapshot throws a TypeError instead of returning a
    diagnostic; only a rejected first request yields the diagnostic for an
    unreadable count. *)
Theorem implausible_count_page_throws :
  let r := refresh (env_of too_many) 0 fresh in
  fst r = Fulfilled tt /\
  uxCurrentNumberOfTasksVal (snd r) = Int 2000 /\
  finalThreads (snd r) = [] /\
  stale (snd r) = false /\
  getHTML (snd r) =
    (Thrown (TypeError "Cannot convert undefined or null to object"), snd r) /\
  fst (getHTML (snd (refresh (env_of unreadable) 0 fresh))) =
    Normal ("<p>Unable to collect full RTOS information. Count not read " ++
            quoted "uxCurrentNumberOfTasks" ++
            ". Perhaps program is busy or did not stop long enough</p>" ++ nl).
Proof.
  vm_compute. repeat split; reflexivity.
Qed.

(** C3 (the code against the claim): for tasks without a static
    end-of-stack bound a failed memory read is not caught by the stack
    analyser; the first record is dropped, the traversal stops after one
    node, the pass never settles and publishes nothing.  With a static bound
    the same failure costs only the peak field of each record. *)
Theorem unbounded_read_failure_aborts :
  let r := refresh (env_of unbounded_unreadable) 0 fresh in
  let b := refresh (env_of bounded_unreadable) 0 fresh in
  fst r = Pending /\
  foundThreads (snd r) = [] /\
  finalThreads (snd r) = [] /\
  node_visits (snd r) = 1%nat /\
  console (snd r) =
    [mkLog "FreeRTOS read thread info error" (Error "unavailable")] /\
  fst b = Fulfilled tt /\
  map (fun th => get th "Stack Peak") (finalThreads (snd b)) =
    [VString "Read mem fail"; VString "Read mem fail"].
Proof. vm_compute. repeat split; reflexivity. Qed.

(** A pass in which the target resumes after the first list was read: the
    next traversal is rejected with Busy, the pass logs it and keeps the two
    records found so far in [foundThreads]; nothing is published. *)
Example busy_mid_pass_keeps_found :
  let r := refresh (env_of resumed_mid_pass) 0 fresh in
  fst r = Fulfilled tt /\
  progStatus (snd r) = Running /\
  List.length (foundThreads (snd r)) = 2%nat /\
  finalThreads (snd r) = [] /\
  stale (snd r) = true /\
  console (snd r) = [mkLog "FreeRTOS.refresh() failed: " (Error "Busy")].
Proof. vm_compute. repeat split. Qed.

(** * Further properties *)

(** ** [makeOneWord] *)

Lemma lower_char (c : ascii) :
  is_upper (lower c) = false /\
  is_space (lower c) = is_space c /\
  (is_upper c = false -> lower c = c).
Proof.
  destruct c as [[] [] [] [] [] [] [] []]; vm_compute;
    repeat split; try reflexivity; intros H; discriminate H.
Qed.

Lemma dash_spaces_one_word (in_run : bool) (s : string) :
  one_word (dash_spaces in_run s) = true.
Proof.
  revert in_run. induction s as [| c r IH]; intros in_run; simpl; [reflexivity |].
  destruct (is_space c) eqn:E.
  - destruct in_run; simpl; [apply IH | apply IH].
  - simpl. destruct (lower_char c) as (U & S & _).
    rewrite S, E, U. simpl. apply IH.
Qed.

Lemma dash_spaces_fixes_one_word (in_run : bool) (s : string) :
  one_word s = true -> dash_spaces in_run s = s.
Proof.
  revert in_run. induction s as [| c r IH]; intros in_run H; simpl; [reflexivity |].
  simpl in H. apply andb_true_iff in H. destruct H as [H Hr].
  apply andb_true_iff in H. destruct H as [Hs Hu].
  apply negb_true_iff in Hs, Hu. rewrite Hs.
  destruct (lower_char c) as (_ & _ & L). rewrite (L Hu), (IH false Hr).
  reflexivity.
Qed.

(** ** The task name *)

Lemma append_cons (c : ascii) (a b : string) :
  (String c a ++ b)%string = String c (a ++ b).
Proof. reflexivity. Qed.

Lemma quoted_tail_step (c c' : ascii) (r : string) :
  quoted_tail (String c (String c' r)) =
  if Ascii.eqb c "*" then None
  else option_map (String c) (quoted_tail (String c' r)).
Proof. reflexivity. Qed.

Lemma quoted_tail_closes (body : string) :
  no_char "*" body = true -> quoted_tail (body ++ dq) = Some body.
Proof.
  induction body as [| c r IH]; intros H; [reflexivity |].
  simpl in H. apply andb_true_iff in H. destruct H as [Hc Hr].
  apply negb_true_iff in Hc.
  rewrite append_cons. specialize (IH Hr).
  destruct (r ++ dq)%string as [| c' r'] eqn:E.
  - destruct r; discriminate E.
  - rewrite quoted_tail_step, Hc, IH. reflexivity.
Qed.

Lemma quoted_tail_inv (s body : string) :
  quoted_tail s = Some body ->
  s = (body ++ dq)%string /\ no_char "*" body = true.
Proof.
  revert body. induction s as [| c r IH]; intros body H; [discriminate |].
  destruct r as [| c' r'].
  - simpl in H. destruct (Ascii.eqb c dquote) eqn:E; [| discriminate].
    apply Ascii.eqb_eq in E. inversion H; subst. split; reflexivity.
  - rewrite quoted_tail_step in H.
    destruct (Ascii.eqb c "*") eqn:E; [discriminate |].
    destruct (quoted_tail (String c' r')) as [b |] eqn:Q; [| discriminate].
    inversion H; subst. destruct (IH b eq_refl) as [Hs Hn].
    rewrite Hs. split; [reflexivity |]. simpl. rewrite E, Hn. reflexivity.
Qed.

(** X2: when the text the debugger shows for the name buffer is some
    prefix without a double quote, followed by the name between double
    quotes, and the name holds no star, the task is given exactly that
    name. *)
Theorem thName_of_quoted_name (prefix body : string) :
  no_char dquote prefix = true ->
  no_char "*" body = true ->
  thName_of (prefix ++ dq ++ body ++ dq) = body.
Proof.
  intros Hp Hb. unfold thName_of.
  assert (H : match_quoted (prefix ++ dq ++ body ++ dq) = Some body).
  { induction prefix as [| c r IH].
    - simpl. change (Ascii.eqb dquote dquote) with true. cbv iota.
      rewrite (quoted_tail_closes body Hb). reflexivity.
    - simpl in Hp. apply andb_true_iff in Hp. destruct Hp as [Hc Hr].
      apply negb_true_iff in Hc. rewrite append_cons. simpl.
      rewrite Hc. apply IH. exact Hr. }
  rewrite H. reflexivity.
Qed.

Lemma thName_of_quoted_name_witness :
  thName_of ("0x20000a10 " ++ dq ++ "IDLE" ++ dq) = "IDLE".
Proof.
  apply (thName_of_quoted_name "0x20000a10 " "IDLE"); reflexivity.
Defined.

(** X3: whenever the pattern matches, the text ends with a double quote,
    the captured name, and a double quote, and the name holds no star;
    otherwise the whole text is the name. *)
Theorem match_quoted_shape (s : string) :
  (forall body,
     match_quoted s = Some body ->
     no_char "*" body = true /\
     exists prefix, s = (prefix ++ dq ++ body ++ dq)%string) /\
  (match_quoted s = None -> thName_of s = s).
Proof.
  split.
  - induction s as [| c r IH]; intros body H; [discriminate |].
    simpl in H. destruct (Ascii.eqb c dquote) eqn:E.
    + destruct (quoted_tail r) as [b |] eqn:Q.
      * inversion H; subst. apply Ascii.eqb_eq in E. subst c.
        destruct (quoted_tail_inv r body Q) as [Hs Hn].
        split; [exact Hn |]. exists EmptyString. rewrite Hs. reflexivity.
      * destruct (IH body H) as [Hn [p Hp]]. split; [exact Hn |].
        exists (String c p). rewrite Hp. reflexivity.
    + destruct (IH body H) as [Hn [p Hp]]. split; [exact Hn |].
      exists (String c p). rewrite Hp. reflexivity.
  - intros H. unfold thName_of. rewrite H. reflexivity.
Qed.

(** ** More on the stack analyser *)

(** What the watermark loop returns on any buffer. *)
Lemma scan_spec (bs : list byte) (w : Z) (top : nat) :
  (top <= List.length bs)%nat ->
  (scan bs w top <= top)%nat /\
  (forall i, (scan bs w top <= i < top)%nat ->
     exists b, nth_error bs i = Some b /\ byte_value b = w) /\
  ((0 < scan bs w top)%nat ->
     exists b, nth_error bs (scan bs w top - 1) = Some b /\ byte_value b <> w).
Proof.
  induction top as [| t IH]; intros Hlen.
  - simpl. split; [lia |]. split; [intros i Hi; lia | intros H; lia].
  - simpl. destruct (nth_error bs t) as [b |] eqn:E.
    + destruct (byte_value b =? w) eqn:Hb.
      * destruct IH as (Hle & Hmarks & Hstop); [lia |].
        split; [lia |]. split; [| exact Hstop].
        intros i Hi. destruct (Nat.eq_dec i t) as [-> | Hne].
        -- exists b. split; [exact E | apply Z.eqb_eq; exact Hb].
        -- apply Hmarks. lia.
      * split; [lia |]. split; [intros i Hi; lia |].
        intros _. simpl. rewrite Nat.sub_0_r. exists b.
        split; [exact E | apply Z.eqb_neq; exact Hb].
    + apply nth_error_None in E. lia.
Qed.

Lemma scan_all_marks (bs : list byte) (top : nat) :
  Forall (fun b => b = xa5) bs ->
  (top <= List.length bs)%nat ->
  scan bs 165 top = O.
Proof.
  intros Hall Hlen.
  destruct (scan_spec bs 165 top Hlen) as (_ & _ & Hstop).
  destruct (scan bs 165 top) as [| p]; [reflexivity |].
  destruct Hstop as (b & Hb & Hne); [lia |].
  apply nth_error_In in Hb. rewrite Forall_forall in Hall.
  rewrite (Hall b Hb) in Hne. contradiction Hne. reflexivity.
Qed.

(** How [getStackInfo] ends when the TCB has a static bound, by the reply
    to its memory read. *)
Lemma getStackInfo_bounded (env : Env) (thInfo : object) (w : Z)
    (st : RTOSFreeRTOS) :
  truthy (get thInfo "pxEndOfStack-val") = true ->
  let start := parseIntV (get thInfo "pxStack-val") in
  let top := parseIntV (get thInfo "pxTopOfStack-val") in
  let end_ := parseIntV (get thInfo "pxEndOfStack-val") in
  let up := ltb (sub start end_) (Int 0) in
  let ref := if up then hexFormat env start else hexFormat env end_ in
  let size := abs (sub start end_) in
  let st1 := snd (await env (ReadMemory ref size)
                    (fun past => readMemory env past ref size) st) in
  let unread :=
    {| stackStart := start; stackTopCurrent := top;
       stackCurUsed := abs (sub start top);
       stackEnd := Some end_; stackSize := Some size;
       stackFree := Some (sub size (abs (sub start top)));
       stackPeakUsed := None; bytes := None |} in
  getStackInfo env thInfo w st =
  match readMemory env (requests st) ref size with
  | Fulfilled resp =>
      match data resp with
      | Some buf =>
          let bs := if up then buf else rev buf in
          (Fulfilled
             {| stackStart := start; stackTopCurrent := top;
                stackCurUsed := abs (sub start top);
                stackEnd := Some end_; stackSize := Some size;
                stackFree := Some (sub size (abs (sub start top)));
                stackPeakUsed := Some (Int (Z.of_nat (scan bs w (List.length bs))));
                bytes := Some bs |}, st1)
      | None =>
          (Fulfilled unread,
           set_console
             (mkLog EmptyString (TypeError "The first argument must be of type string")
                :: console st1) st1)
      end
  | Rejected e =>
      (Fulfilled unread, set_console (mkLog EmptyString e :: console st1) st1)
  | Pending => (Pending, st1)
  end.
Proof.
  intros Hend. cbv zeta. unfold getStackInfo. rewrite Hend.
  unfold try_catch, bind. rewrite await_eq.
  destruct (ltb (sub (parseIntV (get thInfo "pxStack-val"))
                     (parseIntV (get thInfo "pxEndOfStack-val"))) (Int 0));
    cbn [Z.ltb Z.compare];
    (match goal with
     | |- context [readMemory env ?p ?r ?n] => destruct (readMemory env p r n) as [resp | e |]
     end);
    try reflexivity; destruct (data resp); reflexivity.
Qed.

Lemma getStackInfo_unbounded (env : Env) (thInfo : object) (w : Z)
    (st : RTOSFreeRTOS) (si : RTOSStackInfo) :
  truthy (get thInfo "pxEndOfStack-val") = false ->
  fst (getStackInfo env thInfo w st) = Fulfilled si ->
  stackEnd si = None /\ stackSize si = None /\ stackFree si = None /\
  stackPeakUsed si = None /\ bytes si = None.
Proof.
  intros Hend. unfold getStackInfo. rewrite Hend. unfold bind.
  rewrite await_eq. destruct (readMemory env _ _ _); simpl; intros H;
    inversion H; subst; repeat split.
Qed.

(** X4: whenever the analyser reports a peak, it has kept the bytes it
    scanned; the peak is at most their number, every byte from the peak to
    the end equals the watermark, and the byte just before the peak (if
    there is one) differs from it. *)
Theorem peak_is_watermark_boundary
    (env : Env) (thInfo : object) (w : Z) (st : RTOSFreeRTOS)
    (si : RTOSStackInfo) (peak : num) :
  fst (getStackInfo env thInfo w st) = Fulfilled si ->
  stackPeakUsed si = Some peak ->
  exists bs p,
    bytes si = Some bs /\
    peak = Int (Z.of_nat p) /\
    (p <= List.length bs)%nat /\
    (forall i, (p <= i < List.length bs)%nat ->
       exists b, nth_error bs i = Some b /\ byte_value b = w) /\
    ((0 < p)%nat ->
       exists b, nth_error bs (p - 1) = Some b /\ byte_value b <> w).
Proof.
  intros Hful Hpeak.
  destruct (truthy (get thInfo "pxEndOfStack-val")) eqn:Hend.
  - rewrite (getStackInfo_bounded env thInfo w st Hend) in Hful. cbv zeta in Hful.
    destruct (readMemory env _ _ _) as [resp | e |]; simpl in Hful;
      [destruct (data resp) as [buf |] | |]; simpl in Hful;
      inversion Hful; subst si; simpl in Hpeak; try discriminate.
    inversion Hpeak; subst peak. clear Hful Hpeak.
    match goal with
    | |- context [scan ?bs w (List.length ?bs)] =>
        exists bs, (scan bs w (List.length bs));
        destruct (scan_spec bs w (List.length bs) (le_n _)) as (Hle & Hm & Hs)
    end.
    simpl. repeat split; assumption.
  - destruct (getStackInfo_unbounded env thInfo w st si Hend Hful)
      as (_ & _ & _ & Hp & _).
    rewrite Hp in Hpeak. discriminate.
Qed.

Lemma peak_is_watermark_boundary_witness :
  exists si bs,
    fst (getStackInfo (env_of two_tasks)
           [("pxStack-val", VString "0x20001000");
            ("pxTopOfStack-val", VString "0x20001800");
            ("pxEndOfStack-val", VString "0x20002000")] 165 fresh) = Fulfilled si /\
    bytes si = Some bs /\
    stackPeakUsed si = Some (Int 8) /\
    List.length bs = 16%nat.
Proof.
  eexists.
  destruct (peak_is_watermark_boundary (env_of two_tasks)
              [("pxStack-val", VString "0x20001000");
               ("pxTopOfStack-val", VString "0x20001800");
               ("pxEndOfStack-val", VString "0x20002000")] 165 fresh
              _ (Int 8) eq_refl eq_refl)
    as (bs & p & Hb & _).
  exists bs. split; [reflexivity |]. split; [exact Hb |]. split; [reflexivity |].
  simpl in Hb. inversion Hb. reflexivity.
Defined.

(** X5: with a static bound, a memory read that is rejected, or answered
    without data, does not fail the analysis: it is fulfilled with the
    bounds, size and free bytes computed as usual, no peak and no bytes, one
    console line, and exactly one request issued. *)
Theorem bounded_read_failure_is_caught
    (env : Env) (thInfo : object) (w : Z) (st : RTOSFreeRTOS)
    (reply : settled ReadMemoryResponse) :
  truthy (get thInfo "pxEndOfStack-val") = true ->
  (forall ref n, readMemory env (requests st) ref n = reply) ->
  (exists e, reply = Rejected e) \/ reply = Fulfilled (mkReadMemoryResponse None) ->
  exists si st' e ref n,
    getStackInfo env thInfo w st = (Fulfilled si, st') /\
    stackPeakUsed si = None /\ bytes si = None /\
    stackSize si = Some (abs (sub (stackStart si) (the (stackEnd si)))) /\
    stackFree si = Some (sub (the (stackSize si)) (stackCurUsed si)) /\
    console st' = mkLog EmptyString e :: console st /\
    requests st' = ReadMemory ref n :: requests st /\
    foundThreads st' = foundThreads st.
Proof.
  intros Hend Hreply Hkind.
  rewrite (getStackInfo_bounded env thInfo w st Hend). cbv zeta.
  rewrite Hreply. destruct Hkind as [[e ->] | ->]; simpl;
    do 5 eexists; repeat split.
Qed.

Lemma bounded_read_failure_is_caught_witness :
  exists si st',
    getStackInfo (env_of bounded_unreadable)
      [("pxStack-val", VString "0x20001000");
       ("pxTopOfStack-val", VString "0x20001800");
       ("pxEndOfStack-val", VString "0x20002000")] 165 fresh = (Fulfilled si, st') /\
    stackPeakUsed si = None /\
    stackSize si = Some (Int 4096).
Proof.
  destruct (bounded_read_failure_is_caught (env_of bounded_unreadable)
              [("pxStack-val", VString "0x20001000");
               ("pxTopOfStack-val", VString "0x20001800");
               ("pxEndOfStack-val", VString "0x20002000")] 165 fresh
              (Rejected (Error "unavailable")))
    as (si & st' & e & ref & n & E & Hp & _ & Hs & _).
  - reflexivity.
  - intros ref n. reflexivity.
  - left. eexists. reflexivity.
  - exists si, st'. split; [exact E |]. split; [exact Hp |].
    rewrite Hs. vm_compute in E. inversion E. reflexivity.
Defined.

(** ** More on the record of one task *)

(** Destructs the tests [makeThread] branches on. *)
Ltac makeThread_cases thInfo si total :=
  unfold makeThread; cbv zeta;
  cbn [get String.eqb Ascii.eqb Bool.eqb];
  destruct (is_string (get thInfo "uxTCBNumber-val"));
  destruct (truthy (get thInfo "uxBasePriority-val"));
  destruct (opt_truthy (stackSize si));
  destruct (truthy (get thInfo "ulRunTimeCounter-val") && num_truthy total).


(** X7: the properties of a record, in the order [Object.keys] lists them
    (the order of the columns of the page): ID only when the TCB shows a
    task number as a string, then the nine fixed ones, then the size, peak
    and free bytes only when the stack size is known and not zero, then
    Runtime only when both counters allow it. *)
Theorem record_keys
    (env : Env) (thInfo : object) (threadId : num) (thName state : string)
    (si : RTOSStackInfo) (cur total : num) :
  keys (makeThread env thInfo threadId thName state si cur total) =
  ((if is_string (get thInfo "uxTCBNumber-val") then ["ID"] else []) ++
   ["Address"; "Task Name"; "Status"; "Prio"; "Stack Beg"; "Stack Top";
    "Stack Used"; "stackInfo"; "Stack End"] ++
   (if opt_truthy (stackSize si)
    then ["Stack Size"; "Stack Peak"; "Stack Free"] else []) ++
   (if truthy (get thInfo "ulRunTimeCounter-val") && num_truthy total
    then ["Runtime"] else []))%list.
Proof. makeThread_cases thInfo si total; reflexivity. Qed.

(** X8: a bounded stack whose bytes all still hold the watermark (also a
    read that returns no byte at all) has a peak of zero, and the record
    then reads Read mem fail in its Stack Peak field although the read
    succeeded. *)
Theorem untouched_stack_reads_as_failure
    (env : Env) (thInfo : object) (st : RTOSFreeRTOS) (buf : list byte)
    (threadId : num) (thName state : string) (cur total : num) :
  truthy (get thInfo "pxEndOfStack-val") = true ->
  num_truthy (sub (parseIntV (get thInfo "pxStack-val"))
                  (parseIntV (get thInfo "pxEndOfStack-val"))) = true ->
  (forall ref n,
     readMemory env (requests st) ref n =
     Fulfilled (mkReadMemoryResponse (Some buf))) ->
  Forall (fun b => b = xa5) buf ->
  exists si st',
    getStackInfo env thInfo 165 st = (Fulfilled si, st') /\
    stackPeakUsed si = Some (Int 0) /\
    console st' = console st /\
    get (makeThread env thInfo threadId thName state si cur total) "Stack Peak" =
      VString "Read mem fail".
Proof.
  intros Hend Hsize Hread Hall.
  rewrite (getStackInfo_bounded env thInfo 165 st Hend). cbv zeta.
  rewrite Hread. cbn [data].
  match goal with
  | |- context [scan ?bs 165 (List.length ?bs)] =>
      assert (Hz : scan bs 165 (List.length bs) = O)
  end.
  { apply scan_all_marks; [| apply le_n].
    destruct (ltb _ _); [exact Hall |].
    apply Forall_forall. intros b Hb. apply in_rev in Hb.
    rewrite Forall_forall in Hall. exact (Hall b Hb). }
  rewrite Hz. eexists. eexists. split; [reflexivity |].
  split; [reflexivity |]. split; [reflexivity |].
  assert (Ht : num_truthy (abs (sub (parseIntV (get thInfo "pxStack-val"))
                                    (parseIntV (get thInfo "pxEndOfStack-val")))) = true).
  { destruct (sub _ _) as [| z]; [discriminate |]. simpl in *.
    destruct (Z.eqb_spec z 0); [discriminate |].
    destruct (Z.eqb_spec (Z.abs z) 0); [lia | reflexivity]. }
  unfold makeThread. cbv zeta. cbn [stackSize stackPeakUsed opt_truthy].
  rewrite Ht. cbn [num_truthy Z.of_nat Z.eqb negb].
  destruct (truthy (get thInfo "ulRunTimeCounter-val") && num_truthy total);
    cbn [get String.eqb Ascii.eqb Bool.eqb];
    destruct (is_string (get thInfo "uxTCBNumber-val"));
    destruct (truthy (get thInfo "uxBasePriority-val"));
    reflexivity.
Qed.

Lemma untouched_stack_reads_as_failure_witness :
  exists si st',
    getStackInfo (env_of untouched) small_stack 165 fresh = (Fulfilled si, st') /\
    stackSize si = Some (Int 16) /\
    stackPeakUsed si = Some (Int 0) /\
    get (makeThread (env_of untouched) small_stack (Int 536871168) "task"
           "BLOCKED" si NaN NaN) "Stack Peak" = VString "Read mem fail".
Proof.
  destruct (untouched_stack_reads_as_failure (env_of untouched) small_stack
              fresh (filled 0 16) (Int 536871168) "task" "BLOCKED" NaN NaN)
    as (si & st' & E & Hp & _ & Hr).
  - reflexivity.
  - reflexivity.
  - intros ref n. reflexivity.
  - repeat constructor.
  - exists si, st'. split; [exact E |].
    split; [vm_compute in E; inversion E; reflexivity |].
    split; assumption.
Defined.

Lemma makeThread_without_size
    (env : Env) (thInfo : object) (threadId : num) (thName state : string)
    (si : RTOSStackInfo) (cur total : num) :
  opt_truthy (stackSize si) = false ->
  let th := makeThread env thInfo threadId thName state si cur total in
  get th "Stack End" = VString "&lt;Unknown&gt;" /\
  has th "Stack Size" = false /\
  has th "Stack Peak" = false /\
  has th "Stack Free" = false.
Proof.
  intros H. unfold makeThread. cbv zeta. rewrite H.
  cbn [get String.eqb Ascii.eqb Bool.eqb].
  destruct (is_string (get thInfo "uxTCBNumber-val"));
    destruct (truthy (get thInfo "uxBasePriority-val"));
    destruct (truthy (get thInfo "ulRunTimeCounter-val") && num_truthy total);
    repeat split.
Qed.

(** X9: when the TCB shows no end-of-stack bound, or shows one that is not
    a number or equals the start of the stack, the record of the task reads
    Unknown in its Stack End field and has no Stack Size, Stack Peak and
    Stack Free field at all. *)
Theorem stack_end_unknown
    (env : Env) (thInfo : object) (w : Z) (st : RTOSFreeRTOS)
    (si : RTOSStackInfo) (threadId : num) (thName state : string)
    (cur total : num) :
  fst (getStackInfo env thInfo w st) = Fulfilled si ->
  truthy (get thInfo "pxEndOfStack-val") = false \/
  num_truthy (sub (parseIntV (get thInfo "pxStack-val"))
                  (parseIntV (get thInfo "pxEndOfStack-val"))) = false ->
  let th := makeThread env thInfo threadId thName state si cur total in
  get th "Stack End" = VString "&lt;Unknown&gt;" /\
  has th "Stack Size" = false /\
  has th "Stack Peak" = false /\
  has th "Stack Free" = false.
Proof.
  intros Hful Hcase. apply makeThread_without_size.
  destruct (truthy (get thInfo "pxEndOfStack-val")) eqn:Hend.
  - destruct Hcase as [Hc | Hc]; [discriminate |].
    rewrite (getStackInfo_bounded env thInfo w st Hend) in Hful. cbv zeta in Hful.
    assert (Hz : num_truthy (abs (sub (parseIntV (get thInfo "pxStack-val"))
                                      (parseIntV (get thInfo "pxEndOfStack-val")))) = false).
    { destruct (sub _ _) as [| z]; [reflexivity |]. simpl in *.
      destruct (Z.eqb_spec z 0); [subst; reflexivity | discriminate]. }
    destruct (readMemory env _ _ _) as [resp | e |]; simpl in Hful;
      [destruct (data resp) | |]; simpl in Hful; inversion Hful; subst si;
      simpl; exact Hz.
  - destruct (getStackInfo_unbounded env thInfo w st si Hend Hful) as (_ & Hs & _).
    rewrite Hs. reflexivity.
Qed.

Lemma stack_end_unknown_witness :
  let thInfo := tcb_fields (Some "1") "3" "0x20001000" "0x20001800"
                  None None "0x20000100" in
  exists si,
    fst (getStackInfo merry_go_round thInfo 165 fresh) = Fulfilled si /\
    keys (makeThread merry_go_round thInfo (Int 536871168) "task" "BLOCKED"
            si NaN NaN) =
    ["ID"; "Address"; "Task Name"; "Status"; "Prio"; "Stack Beg"; "Stack Top";
     "Stack Used"; "stackInfo"; "Stack End"].
Proof.
  cbv zeta. eexists. split; [reflexivity |].
  destruct (stack_end_unknown merry_go_round
              (tcb_fields (Some "1") "3" "0x20001000" "0x20001800"
                 None None "0x20000100") 165 fresh _
              (Int 536871168) "task" "BLOCKED" NaN NaN eq_refl (or_introl eq_refl))
    as (_ & _ & _ & _).
  reflexivity.
Defined.

(** ** How a traversal and a pass can end *)

(** X10: a list traversal is rejected in two cases only, both with a
    resolved handle and room below the declared count: with Busy when the
    target is not halted, and with the reason of the session when the read
    of the list header is rejected.  A failure at any later read never
    rejects it. *)
Theorem getThreadInfo_rejections
    (env : Env) (varRef : option RTOSVarHelper) (state : string)
    (frameId : Z) (st : RTOSFreeRTOS) (e : exn) :
  fst (getThreadInfo env varRef state frameId st) = Rejected e <->
  exists v,
    varRef = Some v /\
    truthy (varReference v) = true /\
    geb (Int (Z.of_nat (List.length (foundThreads st))))
        (uxCurrentNumberOfTasksVal st) = false /\
    ((is_stopped (progStatus st) = false /\ e = Error "Busy") \/
     (is_stopped (progStatus st) = true /\
      varChildrenObj env (requests st) v frameId = Rejected e)).
Proof.
  unfold getThreadInfo. unfold bind at 1 2. unfold gets at 1 2.
  destruct varRef as [v |].
  2: { split; [discriminate | intros (v & H & _); discriminate]. }
  destruct (truthy (varReference v)) eqn:Href; cbn [negb orb].
  2: { split; [discriminate |].
       intros (v' & Hv & H & _). inversion Hv; subst v'. cbn [fst]. congruence. }
  destruct (geb _ _) eqn:Hcap.
  { split; [discriminate |].
    intros (v' & Hv & H1 & H2 & _). inversion Hv; subst v'. cbn [fst]. congruence. }
  unfold bind at 1. unfold gets at 1.
  destruct (is_stopped (progStatus st)) eqn:Hstop; cbn [negb].
  - unfold bind at 1. rewrite await_eq.
    destruct (varChildrenObj env (requests st) v frameId) as [obj | e' |] eqn:Hobj.
    + split.
      * intros H. exfalso.
        destruct (leb _ _ || negb _); [discriminate |].
        unfold try_catch in H.
        match type of H with
        | fst (match ?m with _ => _ end) = _ => destruct m as [[[] | e2 |] s2]
        end; discriminate.
      * intros (v' & Hv & _ & _ & [[H _] | [_ H]]); [discriminate |].
        inversion Hv; subst v'. cbn [fst]. congruence.
    + split.
      * intros H. inversion H; subst e'. exists v.
        do 3 (split; [first [reflexivity | assumption] |]).
        right. split; first [reflexivity | assumption].
      * intros (v' & Hv & _ & _ & [[H _] | [_ H]]); [discriminate |].
        inversion Hv; subst v'. cbn [fst]. congruence.
    + split; [discriminate |].
      intros (v' & Hv & _ & _ & [[H _] | [_ H]]); [discriminate |].
      inversion Hv; subst v'. cbn [fst]. congruence.
  - split.
    + intros H. inversion H. exists v.
      do 3 (split; [first [reflexivity | assumption] |]).
      left. split; reflexivity.
    + intros (v' & Hv & _ & _ & [[_ ->] | [H _]]); [reflexivity | discriminate].
Qed.

(** X11: a pass on a target that is not halted is fulfilled at once and
    changes nothing; a pass on a halted target is rejected only when the
    handle of uxCurrentNumberOfTasks is unresolved (the method call on it
    throws), and with a resolved handle it is never rejected, whatever the
    session answers. *)
Theorem refresh_rejects_only_without_handle
    (env : Env) (frameId : Z) (st : RTOSFreeRTOS) :
  (is_stopped (progStatus st) = false ->
   refresh env frameId st = (Fulfilled tt, st)) /\
  (progStatus st = Stopped -> uxCurrentNumberOfTasks st = None ->
   fst (refresh env frameId st) = Rejected (undefined_member "getValue")) /\
  (forall v e, uxCurrentNumberOfTasks st = Some v ->
   fst (refresh env frameId st) <> Rejected e).
Proof.
  split; [| split].
  - intros H. unfold refresh, bind, gets. simpl. rewrite H. reflexivity.
  - intros Hstop Hv. unfold refresh, bind, gets, modify. rewrite Hstop. simpl.
    rewrite Hv. reflexivity.
  - intros v e Hv. destruct (is_stopped (progStatus st)) eqn:Hs.
    + assert (Hstop : progStatus st = Stopped)
        by (destruct (progStatus st); try discriminate; reflexivity).
      rewrite (refresh_unfold env frameId st v Hstop Hv).
      destruct (getValue env (requests st) v frameId) as [str | e' |];
        try discriminate.
      unfold try_catch.
      destruct (onCount env frameId str (asked env frameId v st))
        as [[[] | e' |] s1]; discriminate.
    + unfold refresh, bind, gets. simpl. rewrite Hs. discriminate.
Qed.

(** X12: when the declared count is read but is not between 1 and 1024
    (zero, negative, too large, not a number, or an empty reply), the pass
    sends no request besides the one for the count: no list is traversed;
    it publishes no record, clears the stale mark and stores the count. *)
Theorem implausible_count_skips_traversal
    (env : Env) (frameId : Z) (st : RTOSFreeRTOS) (v : RTOSVarHelper)
    (str : value) :
  progStatus st = Stopped ->
  uxCurrentNumberOfTasks st = Some v ->
  getValue env (requests st) v frameId = Fulfilled str ->
  plausible (count_of str) = false ->
  exists st',
    refresh env frameId st = (Fulfilled tt, st') /\
    requests st' = GetValue v frameId :: requests st /\
    finalThreads st' = [] /\
    foundThreads st' = [] /\
    stale st' = false /\
    uxCurrentNumberOfTasksVal st' = count_of str /\
    console st' = console st /\
    pxReadyTasksListsItems st' = pxReadyTasksListsItems st.
Proof.
  intros Hstop Hv Hget Hp.
  rewrite (refresh_unfold env frameId st v Hstop Hv), Hget.
  unfold try_catch. rewrite (onCount_implausible env frameId str _ Hp).
  eexists. split; [reflexivity |]. repeat split.
Qed.

Lemma implausible_count_skips_traversal_witness :
  exists st',
    refresh (env_of too_many) 0 fresh = (Fulfilled tt, st') /\
    List.length (requests st') = 1%nat /\
    uxCurrentNumberOfTasksVal st' = Int 2000.
Proof.
  destruct (implausible_count_skips_traversal (env_of too_many) 0 fresh
              count_handle (VString "2000"))
    as (st' & R & Q & _ & _ & _ & C & _); try reflexivity.
  exists st'. split; [exact R |]. rewrite Q, C. split; reflexivity.
Defined.

(** X13: once as many records are found as the kernel declares, the
    traversal of any further lists, one or many, halted or not, sends no
    request and changes nothing. *)
Theorem declared_count_reached_stops_traversal
    (env : Env) (items : list (option RTOSVarHelper)) (state : string)
    (frameId : Z) (st : RTOSFreeRTOS) :
  geb (Int (Z.of_nat (List.length (foundThreads st))))
      (uxCurrentNumberOfTasksVal st) = true ->
  forM items (fun item => getThreadInfo env item state frameId) st =
  (Fulfilled tt, st).
Proof.
  intros Hcap. induction items as [| item items IH]; [reflexivity |].
  simpl. unfold bind at 1.
  assert (H : getThreadInfo env item state frameId st = (Fulfilled tt, st)).
  { unfold getThreadInfo, bind, gets. destruct item as [v |]; [| reflexivity].
    rewrite Hcap, orb_true_r. reflexivity. }
  rewrite H. exact IH.
Qed.

Lemma declared_count_reached_stops_traversal_witness :
  List.length (foundThreads two_tasks_collected) = 2%nat /\
  uxCurrentNumberOfTasksVal two_tasks_collected = Int 2 /\
  forM [xDelayedTaskList1 fresh; xDelayedTaskList2 fresh]
    (fun item => getThreadInfo (env_of two_tasks) item "BLOCKED" 0)
    two_tasks_collected = (Fulfilled tt, two_tasks_collected).
Proof.
  split; [reflexivity |]. split; [reflexivity |].
  apply (declared_count_reached_stops_traversal (env_of two_tasks)). reflexivity.
Defined.

(** ** Relations every step of a traversal keeps *)

Section Preserved.

Variable R : RTOSFreeRTOS -> RTOSFreeRTOS -> Prop.
Hypothesis R_refl : forall st, R st st.
Hypothesis R_trans : forall a b c, R a b -> R b c -> R a c.

Lemma preserved_ret {A : Type} (a : A) : preserved R (ret a).
Proof. intros st. apply R_refl. Qed.

Lemma preserved_throw {A : Type} (e : exn) : preserved R (@throw A e).
Proof. intros st. apply R_refl. Qed.

Lemma preserved_never {A : Type} : preserved R (@never A).
Proof. intros st. apply R_refl. Qed.

Lemma preserved_gets {A : Type} (f : RTOSFreeRTOS -> A) : preserved R (gets f).
Proof. intros st. apply R_refl. Qed.

Lemma preserved_bind {A B : Type} (m : Async A) (k : A -> Async B) :
  preserved R m -> (forall a, preserved R (k a)) -> preserved R (bind m k).
Proof.
  intros Hm Hk st. unfold bind. specialize (Hm st).
  destruct (m st) as [[a | e |] st1]; simpl in *; try exact Hm.
  eapply R_trans; [exact Hm | apply Hk].
Qed.

Lemma preserved_try_catch {A : Type} (m : Async A) (h : exn -> Async A) :
  preserved R m -> (forall e, preserved R (h e)) -> preserved R (try_catch m h).
Proof.
  intros Hm Hh st. unfold try_catch. specialize (Hm st).
  destruct (m st) as [[a | e |] st1]; simpl in *; try exact Hm.
  eapply R_trans; [exact Hm | apply Hh].
Qed.

Lemma preserved_forM {A : Type} (l : list A) (f : A -> Async unit) :
  (forall a, preserved R (f a)) -> preserved R (forM l f).
Proof.
  intros Hf. induction l as [| x l IH]; simpl.
  - apply preserved_ret.
  - apply preserved_bind; [apply Hf | intros _; exact IH].
Qed.

Lemma preserved_mapM {A B : Type} (f : A -> Async B) (l : list A) :
  (forall a, preserved R (f a)) -> preserved R (mapM f l).
Proof.
  intros Hf. induction l as [| x l IH]; simpl.
  - apply preserved_ret.
  - apply preserved_bind; [apply Hf | intros y].
    apply preserved_bind; [exact IH | intros ys; apply preserved_ret].
Qed.

Lemma preserved_then {A B : Type} (m : Async A) (ok : A -> Async B)
    (ko : exn -> Async B) :
  preserved R m -> (forall a, preserved R (ok a)) ->
  (forall e, preserved R (ko e)) -> preserved R (then_ m ok ko).
Proof.
  intros Hm Hok Hko st. unfold then_. specialize (Hm st).
  destruct (m st) as [[a | e |] st1]; simpl in *; try exact Hm.
  - eapply R_trans; [exact Hm | apply Hok].
  - eapply R_trans; [exact Hm | apply Hko].
Qed.

End Preserved.

(** Splits a computation along its binds, branches and handlers; [leaf]
    closes the obligation of a single assignment or request. *)
Ltac preserved_step Hrefl Htrans leaf :=
  match goal with
  | |- preserved _ (bind _ _) => apply (preserved_bind _ Htrans); [| intros ?]
  | |- preserved _ (try_catch _ _) => apply (preserved_try_catch _ Htrans); [| intros ?]
  | |- preserved _ (then_ _ _ _) =>
      apply (preserved_then _ Htrans); [| intros ? | intros ?]
  | |- preserved _ (forM _ _) => apply (preserved_forM _ Hrefl Htrans); intros ?
  | |- preserved _ (mapM _ _) => apply (preserved_mapM _ Hrefl Htrans); intros ?
  | |- preserved _ (ret _) => apply (preserved_ret _ Hrefl)
  | |- preserved _ (throw _) => apply (preserved_throw _ Hrefl)
  | |- preserved _ never => apply (preserved_never _ Hrefl)
  | |- preserved _ (gets _) => apply (preserved_gets _ Hrefl)
  | |- preserved _ (await _ _ _) => intros ?; rewrite await_eq; leaf
  | |- preserved _ (console_log _ _) => intros ?; unfold console_log, modify; leaf
  | |- preserved _ (modify _) => intros ?; unfold modify; leaf
  | |- preserved _ (if ?c then _ else _) => destruct c
  | |- preserved _ (match ?x with _ => _ end) => destruct x
  end.

Lemma grows_refl (st : RTOSFreeRTOS) : grows st st.
Proof. repeat split; exists []; reflexivity || (rewrite app_nil_r; reflexivity). Qed.

Lemma grows_trans (a b c : RTOSFreeRTOS) : grows a b -> grows b c -> grows a c.
Proof.
  intros ([l1 F1] & [q1 Q1] & [c1 C1]) ([l2 F2] & [q2 Q2] & [c2 C2]).
  repeat split.
  - exists (l1 ++ l2)%list. rewrite F2, F1, app_assoc. reflexivity.
  - exists (q2 ++ q1)%list. rewrite Q2, Q1, app_assoc. reflexivity.
  - exists (c2 ++ c1)%list. rewrite C2, C1, app_assoc. reflexivity.
Qed.

Ltac grows_leaf :=
  unfold grows; cbn [fst snd foundThreads requests console set_foundThreads
                     set_requests set_progStatus set_console
                     set_pxReadyTasksListsItems set_ulTotalRunTimeVal
                     set_curThreadAddr];
  repeat split;
  first [ exists []; rewrite ?app_nil_r; reflexivity
        | eexists; reflexivity
        | eexists (cons _ nil); reflexivity ].

Ltac grows_tac lemmas :=
  repeat first [ lemmas | preserved_step grows_refl grows_trans grows_leaf ].

Lemma grows_getStackInfo (env : Env) (thInfo : object) (w : Z) :
  preserved grows (getStackInfo env thInfo w).
Proof. unfold getStackInfo. grows_tac fail. Qed.

Lemma grows_walk (env : Env) (n : nat) (curRef : value) (state : string)
    (frameId : Z) : preserved grows (walk env n curRef state frameId).
Proof.
  revert curRef. induction n as [| n IH]; intros curRef; simpl.
  - apply (preserved_ret _ grows_refl).
  - grows_tac ltac:(first [apply IH | apply grows_getStackInfo]).
Qed.

Lemma grows_getThreadInfo (env : Env) (varRef : option RTOSVarHelper)
    (state : string) (frameId : Z) :
  preserved grows (getThreadInfo env varRef state frameId).
Proof. unfold getThreadInfo. grows_tac ltac:(apply grows_walk). Qed.

(** X14: a traversal only adds.  Whatever one list traversal or the whole
    traversal of a pass does and however it ends (fulfilled, rejected, never
    settled), the records found before are still in [foundThreads], in the
    same places at its front, and so are the earlier requests and console
    lines in their logs. *)
Theorem traversal_only_adds
    (env : Env) (varRef : option RTOSVarHelper) (state : string)
    (frameId : Z) (st : RTOSFreeRTOS) :
  grows st (snd (getThreadInfo env varRef state frameId st)) /\
  grows st (snd (collect env frameId st)).
Proof.
  split; [apply grows_getThreadInfo |].
  assert (H : preserved grows (collect env frameId)); [| apply H].
  unfold collect. grows_tac ltac:(apply grows_getThreadInfo).
Qed.

Lemma same_session_refl (st : RTOSFreeRTOS) : same_session st st.
Proof. repeat split. Qed.

Lemma same_session_trans (a b c : RTOSFreeRTOS) :
  same_session a b -> same_session b c -> same_session a c.
Proof.
  unfold same_session. intros H1 H2.
  repeat match goal with H : _ /\ _ |- _ => destruct H end.
  repeat split; congruence.
Qed.

Ltac session_tac lemmas :=
  repeat first [ lemmas
               | preserved_step same_session_refl same_session_trans
                   ltac:(repeat split) ].

Lemma same_session_getStackInfo (env : Env) (thInfo : object) (w : Z) :
  preserved same_session (getStackInfo env thInfo w).
Proof. unfold getStackInfo. session_tac fail. Qed.

Lemma same_session_walk (env : Env) (n : nat) (curRef : value)
    (state : string) (frameId : Z) :
  preserved same_session (walk env n curRef state frameId).
Proof.
  revert curRef. induction n as [| n IH]; intros curRef; simpl.
  - apply (preserved_ret _ same_session_refl).
  - session_tac ltac:(first [apply IH | apply same_session_getStackInfo]).
Qed.

Lemma same_session_getThreadInfo (env : Env) (varRef : option RTOSVarHelper)
    (state : string) (frameId : Z) :
  preserved same_session (getThreadInfo env varRef state frameId).
Proof. unfold getThreadInfo. session_tac ltac:(apply same_session_walk). Qed.

(** X15: a traversal (of one list, or of all the lists of a pass) writes
    neither the detection status, nor any of the nine handles of the kernel
    symbols, nor the declared count, nor the time stamp of the pass. *)
Theorem traversal_keeps_session
    (env : Env) (varRef : option RTOSVarHelper) (state : string)
    (frameId : Z) (st : RTOSFreeRTOS) :
  same_session st (snd (getThreadInfo env varRef state frameId st)) /\
  same_session st (snd (collect env frameId st)).
Proof.
  split; [apply same_session_getThreadInfo |].
  assert (H : preserved same_session (collect env frameId)); [| apply H].
  unfold collect. session_tac ltac:(apply same_session_getThreadInfo).
Qed.

Lemma same_buckets_refl (st : RTOSFreeRTOS) : same_buckets st st.
Proof. split; reflexivity. Qed.

Lemma same_buckets_trans (a b c : RTOSFreeRTOS) :
  same_buckets a b -> same_buckets b c -> same_buckets a c.
Proof. unfold same_buckets. intros [H1 H2] [H3 H4]. split; congruence. Qed.

Ltac buckets_tac lemmas :=
  repeat first [ lemmas
               | preserved_step same_buckets_refl same_buckets_trans
                   ltac:(split; reflexivity) ].

Lemma same_buckets_getStackInfo (env : Env) (thInfo : object) (w : Z) :
  preserved same_buckets (getStackInfo env thInfo w).
Proof. unfold getStackInfo. buckets_tac fail. Qed.

Lemma same_buckets_walk (env : Env) (n : nat) (curRef : value)
    (state : string) (frameId : Z) :
  preserved same_buckets (walk env n curRef state frameId).
Proof.
  revert curRef. induction n as [| n IH]; intros curRef; simpl.
  - apply (preserved_ret _ same_buckets_refl).
  - buckets_tac ltac:(first [apply IH | apply same_buckets_getStackInfo]).
Qed.

Lemma same_buckets_getThreadInfo (env : Env) (varRef : option RTOSVarHelper)
    (state : string) (frameId : Z) :
  preserved same_buckets (getThreadInfo env varRef state frameId).
Proof. unfold getThreadInfo. buckets_tac ltac:(apply same_buckets_walk). Qed.

(** X16: once the buckets of the ready list are resolved, the traversal of
    a pass keeps them as they are and sends no request to resolve them
    again. *)
Theorem resolved_buckets_are_reused
    (env : Env) (frameId : Z) (st : RTOSFreeRTOS)
    (items : list (option RTOSVarHelper)) :
  pxReadyTasksListsItems st = Some items ->
  pxReadyTasksListsItems (snd (collect env frameId st)) = Some items /\
  bucket_queries (snd (collect env frameId st)) = bucket_queries st.
Proof.
  intros Hitems.
  assert (H : same_buckets st (snd (collect env frameId st))).
  { unfold collect. unfold bind at 1. unfold gets at 1. rewrite Hitems.
    unfold bind at 1. unfold ret at 1.
    match goal with
    | |- same_buckets st (snd (?m st)) =>
        assert (P : preserved same_buckets m); [| apply P]
    end.
    buckets_tac ltac:(apply same_buckets_getThreadInfo). }
  destruct H as [H1 H2]. rewrite H1. split; [exact Hitems | exact H2].
Qed.

Lemma resolved_buckets_are_reused_witness :
  pxReadyTasksListsItems two_tasks_published = Some [] /\
  bucket_queries two_tasks_published = 1%nat /\
  bucket_queries
    (snd (collect (env_of two_tasks) 0 two_tasks_published)) = 1%nat.
Proof.
  destruct (resolved_buckets_are_reused (env_of two_tasks) 0 two_tasks_published
              [] eq_refl) as [_ H].
  split; [reflexivity |]. split; [reflexivity |]. rewrite H. reflexivity.
Defined.

(** ** Sorting again *)

Lemma sort_fixes_sorted (key : object -> num) (l : list object) :
  StronglySorted (fun a b => leb (key a) (key b) = true) l ->
  sort (fun a b => sub (key a) (key b)) l = l.
Proof.
  intros H. induction H as [| x l Hs IH Hx]; [reflexivity |].
  simpl. rewrite IH. destruct l as [| y r]; [reflexivity |].
  simpl. inversion Hx as [| ? ? Hxy _]; subst.
  unfold after, gtb. destruct (key x) as [| a], (key y) as [| b];
    try discriminate. simpl in *.
  apply Z.leb_le in Hxy. destruct (Z.ltb_spec 0 (a - b)); [lia | reflexivity].
Qed.

(** X17: sorting and publishing is idempotent.  When every found record
    carries a numeric ID, publishing a second time, from the records as the
    first publication left them, changes nothing; the same holds when no
    record has an ID and every address is numeric. *)
Theorem publish_twice
    (st st1 : RTOSFreeRTOS) :
  foundThreads st <> [] ->
  Forall carries_ID (foundThreads st) \/
  (Forall (fun th => truthy (get th "ID") = false) (foundThreads st) /\
   Forall numeric_address (foundThreads st)) ->
  publish st = (Fulfilled tt, st1) ->
  publish st1 = (Fulfilled tt, st1) /\
  foundThreads st1 = finalThreads st1.
Proof.
  intros Hne Hkeys Hpub.
  destruct (foundThreads st) as [| first rest] eqn:Hfound; [contradiction |].
  rewrite (publish_found st first rest Hfound) in Hpub. cbv zeta in Hpub.
  remember (if truthy (get first "ID") then sort byID (first :: rest)
            else sort byAddress (first :: rest)) as sorted eqn:Es0.
  apply (f_equal snd) in Hpub. cbn [snd] in Hpub. subst st1.
  assert (Hperm : Permutation (first :: rest) sorted)
    by (rewrite Es0; destruct (truthy (get first "ID")); apply sort_perm).
  destruct sorted as [| f' r'].
  { apply Permutation_sym, Permutation_nil in Hperm. discriminate. }
  assert (Hfix :
    (if truthy (get f' "ID") then sort byID (f' :: r')
     else sort byAddress (f' :: r')) = f' :: r').
  { destruct Hkeys as [Hall | [Hnone Hnum]].
    - assert (Hf : truthy (get first "ID") = true)
        by (apply carries_ID_truthy; inversion Hall; assumption).
      assert (Hall' : Forall carries_ID (f' :: r'))
        by (apply (Permutation_Forall Hperm); exact Hall).
      rewrite (carries_ID_truthy f') by (inversion Hall'; assumption).
      apply (sort_fixes_sorted id_key). rewrite Es0, Hf.
      apply sort_byID_ascending. exact Hall.
    - assert (Hf : truthy (get first "ID") = false)
        by (inversion Hnone; assumption).
      assert (Hnone' : Forall (fun th => truthy (get th "ID") = false) (f' :: r'))
        by (apply (Permutation_Forall Hperm); exact Hnone).
      replace (truthy (get f' "ID")) with false
        by (inversion Hnone'; symmetry; assumption).
      apply (sort_fixes_sorted address_key). rewrite Es0, Hf.
      apply sort_byAddress_ascending. exact Hnum. }
  split; [| reflexivity].
  rewrite (publish_found _ f' r') by reflexivity.
  cbv zeta. unfold FreeRTOSThreadInfo in *. rewrite Hfix. reflexivity.
Qed.

Lemma publish_twice_witness :
  exists st1,
    publish two_tasks_collected = (Fulfilled tt, st1) /\
    publish st1 = (Fulfilled tt, st1) /\
    map id_key (finalThreads st1) = [Int 1; Int 2].
Proof.
  eexists. split; [vm_compute; reflexivity |].
  split; [| vm_compute; reflexivity].
  refine (proj1 (publish_twice two_tasks_collected _ _ _ _)).
  - discriminate.
  - left. repeat constructor; eexists; eexists; split; vm_compute; reflexivity.
  - vm_compute. reflexivity.
Defined.

(** ** What a pass never writes *)

Lemma same_detection_refl (st : RTOSFreeRTOS) : same_detection st st.
Proof. repeat split. Qed.

Lemma same_detection_trans (a b c : RTOSFreeRTOS) :
  same_detection a b -> same_detection b c -> same_detection a c.
Proof.
  unfold same_detection. intros H1 H2.
  repeat match goal with H : _ /\ _ |- _ => destruct H end.
  repeat split; congruence.
Qed.

Ltac detection_tac lemmas :=
  repeat first [ lemmas
               | preserved_step same_detection_refl same_detection_trans
                   ltac:(repeat split) ].

Lemma same_detection_getStackInfo (env : Env) (thInfo : object) (w : Z) :
  preserved same_detection (getStackInfo env thInfo w).
Proof. unfold getStackInfo. detection_tac fail. Qed.

Lemma same_detection_walk (env : Env) (n : nat) (curRef : value)
    (state : string) (frameId : Z) :
  preserved same_detection (walk env n curRef state frameId).
Proof.
  revert curRef. induction n as [| n IH]; intros curRef; simpl.
  - apply (preserved_ret _ same_detection_refl).
  - detection_tac ltac:(first [apply IH | apply same_detection_getStackInfo]).
Qed.

Lemma same_detection_getThreadInfo (env : Env) (varRef : option RTOSVarHelper)
    (state : string) (frameId : Z) :
  preserved same_detection (getThreadInfo env varRef state frameId).
Proof. unfold getThreadInfo. detection_tac ltac:(apply same_detection_walk). Qed.

Lemma same_detection_refresh (env : Env) (frameId : Z) :
  preserved same_detection (refresh env frameId).
Proof.
  unfold refresh, onCount, refresh_failed, publish, collect.
  detection_tac ltac:(apply same_detection_getThreadInfo).
Qed.

(** X18: a pass, however it ends, writes neither the detection status, nor
    any of the nine handles of the kernel symbols, nor the page kept from
    the last successful rendering. *)
Theorem refresh_keeps_detection
    (env : Env) (frameId : Z) (st : RTOSFreeRTOS) :
  same_detection st (snd (refresh env frameId st)).
Proof. exact (same_detection_refresh env frameId st). Qed.

(** ** The page *)

Lemma set_lastValidHtml_same (st : RTOSFreeRTOS) :
  set_lastValidHtml (lastValidHtml st) st = st.
Proof. destruct st. reflexivity. Qed.

(** Without a table to show, rendering leaves the object alone. *)
Lemma getHTML_unchanged (st : RTOSFreeRTOS) :
  status st = StatusNone \/ stale st = true \/ finalThreads st = [] ->
  snd (getHTML st) = st.
Proof.
  intros H. unfold getHTML, render.
  destruct (status st) eqn:Hs; [| | reflexivity].
  all: destruct (stale st) eqn:Hst;
    [ destruct (num_eqb _ _); [reflexivity |];
      destruct (gtb _ _); [reflexivity |];
      destruct (negb _); reflexivity |].
  all: destruct H as [H | [H | H]]; try discriminate.
  all: rewrite H; destruct (_ && _); [reflexivity |];
    destruct (num_eqb _ _); reflexivity.
Qed.

(** With records to show, the page is the table after an optional warning
    about the count. *)
Lemma getHTML_with_records (st : RTOSFreeRTOS) (first : FreeRTOSThreadInfo)
    (rest : list FreeRTOSThreadInfo) :
  stale st = false ->
  status st <> StatusNone ->
  finalThreads st = first :: rest ->
  getHTML st =
  render
    (if negb (num_eqb (uxCurrentNumberOfTasksVal st) (Int MAX_SAFE_INTEGER))
        && negb (num_eqb (Int (Z.of_nat (List.length (finalThreads st))))
                         (uxCurrentNumberOfTasksVal st))
     then "<p>Expecting " ++ num_toString (uxCurrentNumberOfTasksVal st) ++
          " threads, found " ++
          num_toString (Int (Z.of_nat (List.length (finalThreads st)))) ++
          ". Thread data may be unreliable<p>" ++ nl
     else EmptyString) st.
Proof.
  intros Hst Hs Hf. unfold getHTML. rewrite Hst.
  destruct (status st); try (contradiction Hs; reflexivity);
    (destruct (_ && _); [reflexivity |]);
    rewrite Hf; reflexivity.
Qed.

Lemma render_with_records (ret0 : string) (st : RTOSFreeRTOS)
    (first : FreeRTOSThreadInfo) (rest : list FreeRTOSThreadInfo) :
  finalThreads st = first :: rest ->
  exists page,
    render ret0 st = (Normal page, set_lastValidHtml page st) /\
    page <> EmptyString /\
    forall h,
      render ret0 (set_lastValidHtml h st) = (Normal page, set_lastValidHtml page st).
Proof.
  intros Hf. unfold render.
  cbn [finalThreads timeInfo set_lastValidHtml]. rewrite Hf.
  eexists. split; [reflexivity |]. split; [| intros h; reflexivity].
  destruct (negb (String.eqb (timeInfo st) EmptyString));
    (destruct ret0; [cbn [append]; discriminate | discriminate]).
Qed.

Lemma getHTML_effect (st : RTOSFreeRTOS) :
  let r := getHTML st in
  getHTML (snd r) = r /\
  snd r = set_lastValidHtml (lastValidHtml (snd r)) st /\
  (snd r <> st ->
   fst r = Normal (lastValidHtml (snd r)) /\
   lastValidHtml (snd r) <> EmptyString /\
   status st <> StatusNone /\
   stale st = false /\ finalThreads st <> []).
Proof.
  cbv zeta.
  assert (Hcase :
    (status st = StatusNone \/ stale st = true \/ finalThreads st = []) \/
    (status st <> StatusNone /\ stale st = false /\
     exists first rest, finalThreads st = first :: rest)).
  { destruct (status st) eqn:Hs; [| | left; left; reflexivity];
      (destruct (stale st); [left; right; left; reflexivity |]);
      (destruct (finalThreads st) as [| first rest];
         [left; right; right; reflexivity |]);
      right; (split; [discriminate |]); (split; [reflexivity |]);
      exists first, rest; reflexivity. }
  destruct Hcase as [Hsame | (Hs & Hst & first & rest & Hf)].
  - pose proof (getHTML_unchanged st Hsame) as Hu. rewrite Hu.
    split; [reflexivity |].
    split; [symmetry; apply set_lastValidHtml_same |].
    intros H. contradiction H. reflexivity.
  - rewrite (getHTML_with_records st first rest Hst Hs Hf).
    match goal with
    | |- context [render ?ret0 st] =>
        destruct (render_with_records ret0 st first rest Hf)
          as (page & Hr & Hne & Hagain);
        pose proof (Hagain page) as Ha
    end.
    rewrite Hr. cbn [fst snd].
    split.
    + rewrite (getHTML_with_records (set_lastValidHtml page st) first rest
                 Hst Hs Hf).
      exact Ha.
    + split; [reflexivity |]. intros _.
      split; [reflexivity |]. split; [exact Hne |]. split; [exact Hs |].
      split; [exact Hst |]. rewrite Hf. discriminate.
Qed.

(** X19: rendering changes at most the page kept for later
    ([lastValidHtml]), and it changes it only by returning a page with a
    table, which is not empty, for a snapshot that is not stale and not
    empty; rendering again right away returns the same result and changes
    nothing more. *)
Theorem getHTML_is_repeatable (st : RTOSFreeRTOS) :
  let r := getHTML st in
  getHTML (snd r) = r /\
  snd r = set_lastValidHtml (lastValidHtml (snd r)) st /\
  (snd r <> st ->
   fst r = Normal (lastValidHtml (snd r)) /\
   lastValidHtml (snd r) <> EmptyString /\
   status st <> StatusNone /\
   stale st = false /\ finalThreads st <> []).
Proof. exact (getHTML_effect st). Qed.

(** X20: after a page with a table was rendered, a pass that fails (the
    stale mark stays set) with a plausible declared count changes nothing of
    that page: the next rendering returns the notice that the information
    may be stale, followed by exactly the page rendered before. *)
Theorem stale_page_shows_last_render
    (env : Env) (frameId : Z) (st0 st1 st2 : RTOSFreeRTOS) (html : string)
    (r : settled unit) :
  getHTML st0 = (Normal html, st1) ->
  st1 <> st0 ->
  refresh env frameId st1 = (r, st2) ->
  stale st2 = true ->
  plausible (uxCurrentNumberOfTasksVal st2) = true ->
  getHTML st2 = (Normal (stale_notice ++ html), st2).
Proof.
  intros Hget Hne Hpass Hstale Hcount.
  destruct (getHTML_effect st0) as (_ & Hset & Hnew).
  assert (H1 : snd (getHTML st0) = st1) by (rewrite Hget; reflexivity).
  assert (H2 : fst (getHTML st0) = Normal html) by (rewrite Hget; reflexivity).
  rewrite H1 in Hset, Hnew. rewrite H2 in Hnew.
  destruct (Hnew Hne) as (Hpage & Hhtml & Hs0 & _).
  assert (Hlast : lastValidHtml st1 = html) by congruence.
  assert (Hs1 : status st1 = status st0) by (rewrite Hset; reflexivity).
  pose proof (same_detection_refresh env frameId st1) as Hd.
  rewrite Hpass in Hd.
  destruct Hd as (Hs2 & _ & _ & _ & _ & _ & _ & _ & _ & _ & Hl2).
  cbn [snd] in Hs2, Hl2.
  unfold getHTML. rewrite Hstale, Hl2, Hlast, Hs2, Hs1.
  unfold plausible in Hcount. apply andb_true_iff in Hcount.
  destruct Hcount as [Hpos Hcap].
  destruct (uxCurrentNumberOfTasksVal st2) as [| z]; [discriminate |].
  unfold gtb, maxThreads in *. cbn [ltb leb] in *.
  apply Z.ltb_lt in Hpos. apply Z.leb_le in Hcap.
  assert (E1 : num_eqb (Int z) (Int MAX_SAFE_INTEGER) = false).
  { apply Z.eqb_neq. intros ->. vm_compute in Hcap. apply Hcap. reflexivity. }
  assert (E2 : (1024 <? z) = false) by (apply Z.ltb_ge; lia).
  assert (E3 : negb (String.eqb html EmptyString) = true).
  { apply negb_true_iff. apply String.eqb_neq. congruence. }
  rewrite E1, E2, E3.
  destruct (status st0); try (contradiction Hs0; reflexivity); reflexivity.
Qed.

Lemma stale_page_shows_last_render_witness :
  let st1 := snd (getHTML two_tasks_published) in
  let st2 := snd (refresh (env_of no_tasks) 0 st1) in
  exists html,
    fst (getHTML two_tasks_published) = Normal html /\
    fst (getHTML st2) = Normal (stale_notice ++ html).
Proof.
  cbv zeta.
  destruct (getHTML two_tasks_published) as [c st1] eqn:Hg. cbn [fst snd].
  destruct (refresh (env_of no_tasks) 0 st1) as [r st2] eqn:Hr. cbn [fst snd].
  assert (Hc : exists html, c = Normal html).
  { apply (f_equal fst) in Hg. vm_compute in Hg. eexists. symmetry. exact Hg. }
  destruct Hc as [html ->]. exists html. split; [reflexivity |]. cbn [snd].
  rewrite (stale_page_shows_last_render (env_of no_tasks) 0 two_tasks_published
             st1 st2 html r); [reflexivity | exact Hg | | exact Hr | |].
  - intros H. apply (f_equal snd) in Hg. cbn [snd] in Hg. rewrite H in Hg.
    apply (f_equal lastValidHtml) in Hg. vm_compute in Hg. discriminate.
  - apply (f_equal snd) in Hr. apply (f_equal snd) in Hg. cbn [snd] in *.
    subst st2 st1. vm_compute. reflexivity.
  - apply (f_equal snd) in Hr. apply (f_equal snd) in Hg. cbn [snd] in *.
    subst st2 st1. vm_compute. reflexivity.
Defined.

(** ** Detection *)

Section DetectionFacts.

Variable env : Env.
Variable reply :
  list Request -> option RTOSVarHelper -> Z -> string -> bool ->
  settled (option RTOSVarHelper).
Variable useFrameId : Z.

Lemma detects_done :
  detects useFrameId [] (modify (set_status StatusInitialized)).
Proof.
  intros st. cbv zeta. unfold modify, lookups_sent. cbn. split; reflexivity.
Qed.

Lemma lookup_eq
    (get : RTOSFreeRTOS -> option RTOSVarHelper)
    (set : option RTOSVarHelper -> RTOSFreeRTOS -> RTOSFreeRTOS)
    (name : string) (opt : bool) (k : Async unit) (st : RTOSFreeRTOS) :
  (h <- gets get ;;
   r <- getVarIfEmptyOf env reply h useFrameId name opt ;;
   modify (set r) ;;
   k) st =
  let request := GetVarIfEmpty useFrameId (VString name) in
  let st1 :=
    set_progStatus
      (progStatusAfter env (request :: requests st) (progStatus st))
      (set_requests (request :: requests st) st) in
  match reply (requests st) (get st) useFrameId name opt with
  | Fulfilled r => k (set r st1)
  | Rejected e => (Rejected e, st1)
  | Pending => (Pending, st1)
  end.
Proof.
  unfold bind, gets, modify, getVarIfEmptyOf. rewrite await_eq.
  destruct (reply (requests st) (get st) useFrameId name opt); reflexivity.
Qed.

Lemma tryDetect_eq (st : RTOSFreeRTOS) :
  tryDetect env reply useFrameId st =
  let st0 := set_progStatus Stopped st in
  match status st with
  | StatusNone =>
      match resolveAll env reply useFrameId st0 with
      | (Fulfilled _, st1) => (Fulfilled None, st1)
      | (Rejected e, st1) => (Fulfilled (Some e), set_status StatusFailed st1)
      | (Pending, st1) => (Pending, st1)
      end
  | _ => (Fulfilled None, st0)
  end.
Proof.
  unfold tryDetect, try_catch. unfold bind at 1. unfold modify at 1.
  unfold bind at 1 2. unfold gets at 1. cbv zeta.
  change (status (set_progStatus Stopped st)) with (status st).
  destruct (status st); try reflexivity.
  destruct (resolveAll env reply useFrameId (set_progStatus Stopped st))
    as [[u | e |] st1]; reflexivity.
Qed.

Lemma detects_lookup
    (get : RTOSFreeRTOS -> option RTOSVarHelper)
    (set : option RTOSVarHelper -> RTOSFreeRTOS -> RTOSFreeRTOS)
    (name : string) (opt : bool) (rest : list (string * bool))
    (k : Async unit) :
  (forall r st, status (set r st) = status st /\
                requests (set r st) = requests st) ->
  detects useFrameId rest k ->
  detects useFrameId ((name, opt) :: rest)
    (h <- gets get ;;
     r <- getVarIfEmptyOf env reply h useFrameId name opt ;;
     modify (set r) ;;
     k).
Proof.
  intros Hset Hk st. cbv zeta. rewrite lookup_eq. cbv zeta.
  set (st1 := set_progStatus _ _).
  assert (H1 : status st1 = status st /\
               requests st1 =
               detection_request useFrameId (name, opt) :: requests st).
  { subst st1. split; reflexivity. }
  clearbody st1. destruct H1 as [Hs1 Hr1].
  destruct (reply (requests st) (get st) useFrameId name opt) as [r | e |].
  - destruct (Hset r st1) as [Hs2 Hr2].
    set (st2 := set r st1) in *. clearbody st2.
    specialize (Hk st2). cbv zeta in Hk.
    destruct (k st2) as [[u | e |] st3]; cbn [fst snd] in *.
    + destruct Hk as [Hs3 Hr3]. split; [exact Hs3 |].
      unfold lookups_sent in *. rewrite Hr3, Hr2, Hr1.
      cbn [List.length firstn map rev]. rewrite <- app_assoc. reflexivity.
    + destruct Hk as [Hs3 [n [Hn Hr3]]]. split; [congruence |].
      exists (S n). split; [cbn [List.length]; lia |].
      unfold lookups_sent in *. rewrite Hr3, Hr2, Hr1.
      cbn [List.length firstn map rev]. rewrite <- app_assoc. reflexivity.
    + destruct Hk as [Hs3 [n [Hn Hr3]]]. split; [congruence |].
      exists (S n). split; [cbn [List.length]; lia |].
      unfold lookups_sent in *. rewrite Hr3, Hr2, Hr1.
      cbn [List.length firstn map rev]. rewrite <- app_assoc. reflexivity.
  - cbn [fst snd]. split; [exact Hs1 |].
    exists 0%nat. split; [cbn [List.length]; lia |].
    unfold lookups_sent. rewrite Hr1. reflexivity.
  - cbn [fst snd]. split; [exact Hs1 |].
    exists 0%nat. split; [cbn [List.length]; lia |].
    unfold lookups_sent. rewrite Hr1. reflexivity.
Qed.

Lemma resolveAll_detects :
  detects useFrameId kernel_symbols (resolveAll env reply useFrameId).
Proof.
  unfold resolveAll, kernel_symbols.
  repeat (apply detects_lookup; [intros r st; split; reflexivity |]).
  apply detects_done.
Qed.

Lemma tryDetect_settled_status (st : RTOSFreeRTOS) :
  status st <> StatusNone ->
  tryDetect env reply useFrameId st = (Fulfilled None, set_progStatus Stopped st).
Proof.
  intros Hs. rewrite tryDetect_eq. cbv zeta.
  destruct (status st); [reflexivity | reflexivity | congruence].
Qed.

Lemma tryDetect_from_none (st : RTOSFreeRTOS) :
  status st = StatusNone ->
  let r := tryDetect env reply useFrameId st in
  match fst r with
  | Fulfilled None =>
      status (snd r) = StatusInitialized /\
      lookups_sent useFrameId kernel_symbols 9 st (snd r)
  | Fulfilled (Some e) =>
      status (snd r) = StatusFailed /\
      exists n, (n < 9)%nat /\
        lookups_sent useFrameId kernel_symbols (S n) st (snd r)
  | Rejected _ => False
  | Pending =>
      status (snd r) = StatusNone /\
      exists n, (n < 9)%nat /\
        lookups_sent useFrameId kernel_symbols (S n) st (snd r)
  end.
Proof.
  intros Hs. cbv zeta. rewrite tryDetect_eq. cbv zeta. rewrite Hs.
  set (st0 := set_progStatus Stopped st).
  assert (H0 : status st0 = StatusNone /\ requests st0 = requests st).
  { subst st0. split; [exact Hs | reflexivity]. }
  clearbody st0. destruct H0 as [Hs0 Hr0].
  pose proof (resolveAll_detects st0) as H. cbv zeta in H.
  destruct (resolveAll env reply useFrameId st0) as [[u | e |] st1];
    cbn [fst snd] in H |- *; unfold lookups_sent in *; rewrite <- Hr0.
  - exact H.
  - destruct H as [_ H]. split; [reflexivity | exact H].
  - destruct H as [H1 H]. split; [congruence | exact H].
Qed.

End DetectionFacts.

(** X21: a detection that starts with status 'none' looks the nine kernel
    symbols up in the order of the source and nothing else.  If all nine
    lookups are fulfilled the status becomes 'initialized'; if one is
    rejected the lookups stop there, the status becomes 'failed' and the
    error is what the method reports; if one never settles the lookups stop
    there and the status stays 'none'.  The promise is never rejected. *)
Theorem detection_looks_up_kernel_symbols_in_order
    (env : Env)
    (reply : list Request -> option RTOSVarHelper -> Z -> string -> bool ->
             settled (option RTOSVarHelper))
    (useFrameId : Z) (st : RTOSFreeRTOS) :
  status st = StatusNone ->
  let r := tryDetect env reply useFrameId st in
  match fst r with
  | Fulfilled None =>
      status (snd r) = StatusInitialized /\
      lookups_sent useFrameId kernel_symbols 9 st (snd r)
  | Fulfilled (Some e) =>
      status (snd r) = StatusFailed /\
      exists n, (n < 9)%nat /\
        lookups_sent useFrameId kernel_symbols (S n) st (snd r)
  | Rejected _ => False
  | Pending =>
      status (snd r) = StatusNone /\
      exists n, (n < 9)%nat /\
        lookups_sent useFrameId kernel_symbols (S n) st (snd r)
  end.
Proof.
  exact (tryDetect_from_none env reply useFrameId st).
Qed.

Lemma detection_looks_up_kernel_symbols_in_order_witness :
  status undetected = StatusNone /\
  let r := tryDetect (env_of no_tasks) (symbol_missing "pxCurrentTCB") 0
             undetected in
  fst r = Fulfilled (Some (Error "symbol not found")) /\
  status (snd r) = StatusFailed /\
  exists n, (n < 9)%nat /\ lookups_sent 0 kernel_symbols (S n) undetected (snd r).
Proof.
  split; [reflexivity |].
  pose proof (detection_looks_up_kernel_symbols_in_order (env_of no_tasks)
                (symbol_missing "pxCurrentTCB") 0 undetected eq_refl) as H.
  cbv zeta in H |- *.
  assert (E : fst (tryDetect (env_of no_tasks) (symbol_missing "pxCurrentTCB") 0
                     undetected) = Fulfilled (Some (Error "symbol not found"))).
  { vm_compute. reflexivity. }
  rewrite E in H. split; [exact E | exact H].
Defined.

(** X22: [tryDetect] never rejects, and unless the status is 'none' it sends
    no request at all: it fulfils at once and the only field it writes is
    progStatus, set to 'stopped'. *)
Theorem detection_runs_only_from_status_none
    (env : Env)
    (reply : list Request -> option RTOSVarHelper -> Z -> string -> bool ->
             settled (option RTOSVarHelper))
    (useFrameId : Z) (st : RTOSFreeRTOS) :
  (forall e, fst (tryDetect env reply useFrameId st) <> Rejected e) /\
  (status st <> StatusNone ->
   tryDetect env reply useFrameId st =
   (Fulfilled None, set_progStatus Stopped st)).
Proof.
  split; [| exact (tryDetect_settled_status env reply useFrameId st)].
  intros e. destruct (status st) eqn:Hs.
  1, 2: (rewrite (tryDetect_settled_status env reply useFrameId st);
         [cbn [fst]; discriminate | congruence]).
  pose proof (tryDetect_from_none env reply useFrameId st Hs) as H.
  cbv zeta in H. intros E. rewrite E in H. exact H.
Qed.

(** X23: a failed detection is final.  When [tryDetect] reports an error,
    the status is 'failed', and every later [tryDetect], with whatever frame
    and whatever the debugger would answer, sends no lookup and reports no
    error: it only sets progStatus to 'stopped'. *)
Theorem failed_detection_is_not_retried
    (env env' : Env)
    (reply reply' : list Request -> option RTOSVarHelper -> Z -> string -> bool ->
                    settled (option RTOSVarHelper))
    (useFrameId useFrameId' : Z) (st st1 : RTOSFreeRTOS) (e : exn) :
  tryDetect env reply useFrameId st = (Fulfilled (Some e), st1) ->
  status st1 = StatusFailed /\
  tryDetect env' reply' useFrameId' st1 =
  (Fulfilled None, set_progStatus Stopped st1).
Proof.
  intros E.
  assert (Hf : status st1 = StatusFailed).
  { destruct (status st) eqn:Hs.
    1, 2: (rewrite (tryDetect_settled_status env reply useFrameId st) in E;
           [discriminate | congruence]).
    pose proof (tryDetect_from_none env reply useFrameId st Hs) as H.
    cbv zeta in H. rewrite E in H. cbn [fst snd] in H. exact (proj1 H). }
  split; [exact Hf |].
  apply tryDetect_settled_status. rewrite Hf. discriminate.
Qed.

Lemma failed_detection_is_not_retried_witness :
  let r := tryDetect (env_of no_tasks) (symbol_missing "pxCurrentTCB") 0
             undetected in
  status (snd r) = StatusFailed /\
  tryDetect (env_of no_tasks) (symbol_missing "none") 0 (snd r) =
  (Fulfilled None, set_progStatus Stopped (snd r)).
Proof.
  cbv zeta.
  apply (failed_detection_is_not_retried (env_of no_tasks) (env_of no_tasks)
           (symbol_missing "pxCurrentTCB") (symbol_missing "none") 0 0
           undetected _ (Error "symbol not found")).
  vm_compute. reflexivity.
Defined.

(** ** The links a traversal reads *)

Lemma bind_await {A B : Type} (env : Env) (r : Request)
    (reply : list Request -> settled A) (k : A -> Async B) (st : RTOSFreeRTOS) :
  bind (await env r reply) k st =
  match reply (requests st) with
  | Fulfilled a =>
      k a (set_progStatus (progStatusAfter env (r :: requests st) (progStatus st))
             (set_requests (r :: requests st) st))
  | Rejected e =>
      (Rejected e,
       set_progStatus (progStatusAfter env (r :: requests st) (progStatus st))
         (set_requests (r :: requests st) st))
  | Pending =>
      (Pending,
       set_progStatus (progStatusAfter env (r :: requests st) (progStatus st))
         (set_requests (r :: requests st) st))
  end.
Proof.
  unfold bind. rewrite await_eq. destruct (reply (requests st)); reflexivity.
Qed.

Lemma link_reads_app (env : Env) (base new1 new2 : list Request) :
  link_reads env base (new2 ++ new1) =
  (link_reads env base new1 ++ link_reads env (new1 ++ base) new2)%list.
Proof.
  induction new2 as [| r new2 IH]; simpl.
  - rewrite app_nil_r. reflexivity.
  - rewrite IH, <- !app_assoc. reflexivity.
Qed.

Lemma quiet_refl (env : Env) (st : RTOSFreeRTOS) : quiet env st st.
Proof. exists []. split; reflexivity. Qed.

Lemma quiet_trans (env : Env) (a b c : RTOSFreeRTOS) :
  quiet env a b -> quiet env b c -> quiet env a c.
Proof.
  intros (n1 & E1 & L1) (n2 & E2 & L2). exists (n2 ++ n1)%list. split.
  - rewrite E2, E1, app_assoc. reflexivity.
  - rewrite link_reads_app, L1, <- E1, L2. reflexivity.
Qed.

Ltac quiet_leaf :=
  unfold quiet;
  cbn [fst snd requests set_foundThreads set_requests set_progStatus
       set_console];
  first [ exists []; split; reflexivity
        | eexists (cons _ nil); split; reflexivity ].

Ltac quiet_tac env lemmas :=
  repeat first
    [ lemmas | preserved_step (quiet_refl env) (quiet_trans env) quiet_leaf ].

Lemma quiet_getStackInfo (env : Env) (thInfo : object) (w : Z) :
  preserved (quiet env) (getStackInfo env thInfo w).
Proof. unfold getStackInfo. quiet_tac env fail. Qed.

Lemma links_from_ret (env : Env) (cur : value) {A : Type} (a : A) :
  links_from env cur (ret a).
Proof. intros st. exists []. split; [reflexivity | exact I]. Qed.

Lemma links_from_quiet_bind (env : Env) (cur : value) {A B : Type}
    (m : Async A) (k : A -> Async B) :
  preserved (quiet env) m ->
  (forall a, links_from env cur (k a)) ->
  links_from env cur (bind m k).
Proof.
  intros Hm Hk st. unfold bind. destruct (Hm st) as (n1 & E1 & L1).
  destruct (m st) as [[a | e |] st1]; cbn [fst snd] in *.
  - destruct (Hk a st1) as (n2 & E2 & F2). exists (n2 ++ n1)%list. split.
    + rewrite E2, E1, app_assoc. reflexivity.
    + rewrite link_reads_app, L1, <- E1. exact F2.
  - exists n1. split; [exact E1 | rewrite L1; exact I].
  - exists n1. split; [exact E1 | rewrite L1; exact I].
Qed.

(** The loop reads the node it was given, and after it the node that this
    one names as its predecessor, and so on. *)
Lemma walk_follows_links (env : Env) (n : nat) (curRef : value)
    (state : string) (frameId : Z) :
  links_from env curRef (walk env n curRef state frameId).
Proof.
  revert curRef. induction n as [| n IH]; intros curRef.
  - apply links_from_ret.
  - intros st. cbn [walk].
    rewrite (bind_await env (GetVarChildrenObj curRef "pxPrevious")).
    set (visit := GetVarChildrenObj curRef "pxPrevious").
    set (st1 := set_progStatus _ _).
    assert (E1 : requests st1 = visit :: requests st) by reflexivity.
    clearbody st1.
    destruct (getVarChildrenObj env (requests st) curRef "pxPrevious")
      as [element | e |] eqn:Ev.
    + match goal with
      | |- context [snd (?rest st1)] =>
          assert (Hrest : links_from env (get element "pxPrevious-ref") rest)
      end.
      { cbv zeta.
        repeat (apply links_from_quiet_bind;
                [quiet_tac env ltac:(apply quiet_getStackInfo) | intros ?]).
        apply IH. }
      destruct (Hrest st1) as (n2 & E2 & F2).
      exists (n2 ++ [visit])%list. split.
      * rewrite E2, E1, <- app_assoc. reflexivity.
      * rewrite link_reads_app. cbn [link_reads app]. subst visit.
        cbn [app]. rewrite Ev. cbn [follows link_ref link_name link_next].
        split; [reflexivity |]. split; [reflexivity |].
        cbn [app] in E1. rewrite <- E1. exact F2.
    + exists [visit]. split; [exact E1 |].
      subst visit. cbn [link_reads app]. rewrite Ev.
      cbn [follows link_ref link_name link_next]. repeat split.
    + exists [visit]. split; [exact E1 |].
      subst visit. cbn [link_reads app]. rewrite Ev.
      cbn [follows link_ref link_name link_next]. repeat split.
Qed.

(** Once the header of the list is read, the traversal reads the sentinel
    and then walks the backward links; it ends fulfilled or is never
    settled. *)
Lemma traversal_reads_backward_chain
    (env : Env) (listEndRef : value) (n : nat) (state : string) (frameId : Z)
    (st : RTOSFreeRTOS) :
  let r :=
    try_catch
      (bind (await env (GetVarChildrenObj listEndRef "xListEnd")
               (fun past => getVarChildrenObj env past listEndRef "xListEnd"))
         (fun listEndObj =>
            walk env n (get listEndObj "pxPrevious-ref") state frameId))
      (fun e => bind (console_log "FreeRTOS read thread info error" e)
                  (fun _ => never)) st in
  (fst r = Fulfilled tt \/ fst r = Pending) /\
  exists new,
    requests (snd r) = (new ++ requests st)%list /\
    backward_chain listEndRef (link_reads env (requests st) new).
Proof.
  cbv zeta. unfold try_catch.
  rewrite (bind_await env (GetVarChildrenObj listEndRef "xListEnd")).
  set (sentinel := GetVarChildrenObj listEndRef "xListEnd").
  set (st1 := set_progStatus _ _).
  assert (E1 : requests st1 = sentinel :: requests st) by reflexivity.
  clearbody st1.
  destruct (getVarChildrenObj env (requests st) listEndRef "xListEnd")
    as [listEndObj | e |] eqn:Es.
  - destruct (walk_follows_links env n (get listEndObj "pxPrevious-ref")
                state frameId st1) as (n2 & E2 & F2).
    assert (Hchain :
      backward_chain listEndRef
        (link_reads env (requests st) (n2 ++ [sentinel]))).
    { rewrite link_reads_app. subst sentinel. cbn [link_reads app].
      rewrite Es. cbn [backward_chain link_ref link_name link_next].
      split; [reflexivity |]. split; [reflexivity |].
      cbn [app] in E1. rewrite <- E1. exact F2. }
    destruct (walk env n (get listEndObj "pxPrevious-ref") state frameId st1)
      as [[[] | e |] st2]; cbn [fst snd] in *.
    + split; [left; reflexivity |].
      exists (n2 ++ [sentinel])%list. split; [| exact Hchain].
      rewrite E2, E1, <- app_assoc. reflexivity.
    + unfold bind, console_log, modify, never. cbn [fst snd requests set_console].
      split; [right; reflexivity |].
      exists (n2 ++ [sentinel])%list. split; [| exact Hchain].
      rewrite E2, E1, <- app_assoc. reflexivity.
    + split; [right; reflexivity |].
      exists (n2 ++ [sentinel])%list. split; [| exact Hchain].
      rewrite E2, E1, <- app_assoc. reflexivity.
  - unfold bind, console_log, modify, never. cbn [fst snd requests set_console].
    split; [right; reflexivity |].
    exists [sentinel]. split; [exact E1 |].
    subst sentinel. cbn [link_reads app]. rewrite Es.
    cbn [backward_chain link_ref link_name link_next follows]. repeat split.
  - cbn [fst snd]. split; [right; reflexivity |].
    exists [sentinel]. split; [exact E1 |].
    subst sentinel. cbn [link_reads app]. rewrite Es.
    cbn [backward_chain link_ref link_name link_next follows]. repeat split.
Qed.




(** ** [makeOneWord] on ASCII strings *)

Lemma lower_ascii (c : ascii) :
  Nat.ltb (nat_of_ascii c) 128 = true ->
  Nat.ltb (nat_of_ascii (lower c)) 128 = true.
Proof.
  destruct c as [[] [] [] [] [] [] [] []]; vm_compute; intros H;
    first [reflexivity | discriminate H].
Qed.

Lemma dash_spaces_ascii (in_run : bool) (s : string) :
  ascii_only s = true -> ascii_only (dash_spaces in_run s) = true.
Proof.
  revert in_run. induction s as [| c r IH]; intros in_run H; [reflexivity |].
  cbn [ascii_only] in H. apply andb_true_iff in H. destruct H as [Hc Hr].
  cbn [dash_spaces]. destruct (is_space c).
  - destruct in_run; [apply IH; exact Hr |].
    cbn [ascii_only]. rewrite (IH true Hr). reflexivity.
  - cbn [ascii_only]. rewrite (lower_ascii c Hc), (IH false Hr). reflexivity.
Qed.

(** X1: on a string of ASCII characters (the keys of a record, which is
    what [getHTML] passes, are such strings) the result of makeOneWord is a
    string of ASCII characters that holds no white space and no upper-case
    letter; a string that is already so is returned unchanged, and therefore
    applying makeOneWord twice is the same as applying it once. *)
Theorem makeOneWord_normal_form (s : string) :
  ascii_only s = true ->
  ascii_only (makeOneWord s) = true /\
  one_word (makeOneWord s) = true /\
  (one_word s = true -> makeOneWord s = s) /\
  makeOneWord (makeOneWord s) = makeOneWord s.
Proof.
  intros Hs. unfold makeOneWord.
  split; [apply dash_spaces_ascii; exact Hs |].
  split; [apply dash_spaces_one_word |].
  split; [apply dash_spaces_fixes_one_word |].
  apply dash_spaces_fixes_one_word, dash_spaces_one_word.
Qed.

Lemma makeOneWord_normal_form_witness :
  ascii_only "Stack Beg" = true /\
  makeOneWord "Stack Beg" = "stack-beg" /\
  one_word (makeOneWord "Stack Beg") = true /\
  makeOneWord (makeOneWord "Stack Beg") = makeOneWord "Stack Beg".
Proof.
  split; [reflexivity |]. split; [reflexivity |].
  destruct (makeOneWord_normal_form "Stack Beg" eq_refl) as (_ & H1 & _ & H2).
  split; [exact H1 | exact H2].
Defined.
